(** * Project MineSweeper: the review scoring pipeline

    A shallow embedding of [app/models.py] (class [LandmineScorer]),
    [app/services.py] (class [FeatureEngineer]), [app/sentiment.py]
    ([get_sentiment_score]), [app/database.py] and of [app/main.py]: the
    fetch from Apify ([_run_apify_actor_and_get_data]) and the endpoint
    [analyze_place], whose part after the data has been read or fetched is
    [Main.analyze_place] and whose whole is [Endpoint.analyze_place].

    Conventions of the embedding.
    - A Python [float] (and a NumPy [float64]) is the rational number it
      denotes, of type [Q]; sums, products, quotients and comparisons are
      the exact ones, and two results are compared with [==].  Rounding to
      binary64 is outside the model; [Module Binary64] evaluates the
      arithmetic of the sample inputs on IEEE doubles, where it gives the
      same values.
    - A Python [int] and a cell of an [int64] column is a [Z].
    - A Python [str] holding review or lexicon text is the list of its
      Unicode code points, [str]; dictionary keys, column names and the
      fixed messages of the program are Rocq strings (their UTF-8 bytes).
    - A raised exception is the [Raise] case of [result]; a local variable
      that may be unbound is an [option].
    - The collaborators that live outside the repository (the [jieba]
      tokenizer, the Azure client, [pandas.to_datetime], the clock) are the
      variables of [Section Pipeline]; the replies of the Apify server are
      the variables of [Section Server].
    - The two MongoDB collections are a finite map and a list that are
      passed through a request; an insert into them does not raise.  What
      a request sends to Apify, and how long it sleeps, is returned as a
      list of events.  Calls of [print] are left out. *)

From Stdlib Require Import QArith ZArith NArith List String Ascii Bool Lia.
From Stdlib Require Import Qround Qminmax Lqa.
From Stdlib Require SpecFloat.
From stdpp Require Import gmap strings list.

Open Scope Q_scope.

(** ** Python values *)

(** Code points of a Python [str]. *)
Definition str := list N.

(** The exceptions the model can raise. *)
Inductive exn : Type :=
| KeyError (key : string)
| UnboundLocalError (name : string)
| FileNotFoundError
| JSONDecodeError
| DateParseError
| HTTPException (status_code : Z) (detail : string).

Inductive result (A : Type) : Type :=
| Ok (a : A)
| Raise (e : exn).
Arguments Ok {A} a.
Arguments Raise {A} e.

(** [result] is an error monad; [x ← r; k] is stdpp's notation for it. *)
#[global] Instance result_ret : MRet result := λ A a, Ok a.
#[global] Instance result_bind : MBind result := λ A B k r,
  match r with
  | Ok a => k a
  | Raise e => Raise e
  end.

(** [a < b] on floats, as a boolean. *)
Definition Qltb (a b : Q) : bool := negb (Qle_bool b a).

(** The builtin [min(a, b)]: the first argument unless the second is
    strictly smaller. *)
Definition py_min (a b : Q) : Q := if Qltb b a then b else a.

(** The builtin [max(a, b)]: the first argument unless the second is
    strictly greater. *)
Definition py_max (a b : Q) : Q := if Qltb a b then b else a.

(** [max(values)] of a non-empty iterable, given as head and tail. *)
Definition py_max_list (x : Q) (xs : list Q) : Q := fold_left py_max xs x.

(** [max(d, key=d.get)] over the items of a dict in insertion order: the
    first key whose value no later value exceeds strictly. *)
Definition py_argmax {K : Type} (kv : K * Q) (kvs : list (K * Q)) : K :=
  fst (fold_left (λ best item, if Qltb (snd best) (snd item) then item else best)
                 kvs kv).

(** [Series.sum()] of an integer column. *)
Definition sum_Z (xs : list Z) : Z := fold_left Z.add xs 0%Z.

(** [Series.sum()] and [Series.mean()] of a float column. *)
Definition sum_Q (xs : list Q) : Q := fold_left Qplus xs 0.
Definition mean_Q (xs : list Q) : Q := sum_Q xs / inject_Z (Z.of_nat (length xs)).

(** ** The processed review table *)

(** One row of the DataFrame that [FeatureEngineer.run] builds.  A row
    carries a cell for every column the pipeline can create;
    [df_columns] says which columns the frame has. *)
Record Row : Type := mkRow {
  rating : Z;
  text : str;
  datetime_str : str;
  datetime : Z;
  is_negative : bool;
  is_long_review : bool;
  high_risk_keyword_count : Z;
  medium_risk_keyword_count : Z;
  low_risk_keyword_count : Z;
  sentiment_score : Q
}.

(** The three cells a row was built from. *)
Definition cells_of (row : Row) : Z * str * str :=
  (rating row, text row, datetime_str row).

Record DataFrame : Type := mkDF {
  df_columns : list string;
  df_rows : list Row
}.

(** [pd.DataFrame()]. *)
Definition empty_frame : DataFrame := mkDF [] [].

(** [df.empty]: some axis has length 0. *)
Definition df_empty (df : DataFrame) : bool :=
  match df_columns df, df_rows df with
  | [], _ => true
  | _, [] => true
  | _, _ => false
  end.

Definition has_column (df : DataFrame) (c : string) : bool :=
  bool_decide (c ∈ df_columns df).

(** [df[c]]: the cells of column [c], or [KeyError]. *)
Definition column {A : Type} (df : DataFrame) (c : string) (cell : Row → A)
  : result (list A) :=
  if has_column df c then Ok (map cell (df_rows df)) else Raise (KeyError c).

(** The frame has the three keyword-count columns. *)
Definition has_keyword_columns (df : DataFrame) : Prop :=
  has_column df "high_risk_keyword_count" = true
  ∧ has_column df "medium_risk_keyword_count" = true
  ∧ has_column df "low_risk_keyword_count" = true.

(** The dict [trend_info]; every key is read with [.get(key, default)]. *)
Record TrendInfo : Type := mkTrend {
  historical_avg : option Q;
  recent_avg : option (option Q);
  trend_score : option Q;
  total_reviews : option Z;
  reviews_distribution : option (gmap string Z)
}.

(** The dict [{}]. *)
Definition empty_trend : TrendInfo := mkTrend None None None None None.

(** ** [app/models.py]: LandmineScorer *)

Module LandmineScorer.

Record Weights : Type := mkWeights {
  f1_neg_reviews : Q;
  f2_keywords : Q;
  f3_trend : Q;
  f5_sentiment : Q
}.

(** [__init__] with [weights is None]. *)
Definition default_weights : Weights :=
  mkWeights (25 # 100) (45 # 100) (15 # 100) (15 # 100).

Definition __init__ (weights : option Weights) : Weights :=
  match weights with
  | None => default_weights
  | Some w => w
  end.

Definition _calculate_f1_score (reviews_distribution : gmap string Z)
    (total_reviews : Z) : Q :=
  if (total_reviews =? 0)%Z then 0
  else
    let one_star := default 0%Z (reviews_distribution !! "oneStar"%string) in
    let two_star := default 0%Z (reviews_distribution !! "twoStar"%string) in
    let weighted_negative_count :=
      inject_Z one_star * (15 # 10) + inject_Z two_star in
    let score := (weighted_negative_count / inject_Z total_reviews) * 200 in
    py_min score 100.

Definition _calculate_f2_score (df : DataFrame) : result Q :=
  if df_empty df then Ok 0
  else
    let total_reviews := Z.of_nat (length (df_rows df)) in
    if (total_reviews =? 0)%Z then Ok 0
    else
      let high_risk_penalty := 15%Z in
      let medium_risk_penalty := 5%Z in
      let low_risk_penalty := 1%Z in
      high ← column df "high_risk_keyword_count" high_risk_keyword_count;
      medium ← column df "medium_risk_keyword_count" medium_risk_keyword_count;
      low ← column df "low_risk_keyword_count" low_risk_keyword_count;
      let total_high_risk := sum_Z high in
      let total_medium_risk := sum_Z medium in
      let total_low_risk := sum_Z low in
      let risk_sum :=
        (total_high_risk * high_risk_penalty
         + total_medium_risk * medium_risk_penalty
         + total_low_risk * low_risk_penalty)%Z in
      let score := (inject_Z risk_sum / inject_Z total_reviews) * 100 in
      Ok (py_min score 100).

Definition _calculate_f3_score (trend_score : Q) : Q :=
  let score := py_max 0 trend_score * 50 in
  py_min score 100.

Definition _calculate_f5_score (df : DataFrame) : Q :=
  if df_empty df || negb (has_column df "sentiment_score") then 0
  else
    let avg_sentiment := mean_Q (map sentiment_score (df_rows df)) in
    let score := (1 - avg_sentiment) * 50 in
    py_max 0 (py_min score 100).

(** The four keys of [scores_map]. *)
Definition reason_f1 : string := "大量的低星負評".
Definition reason_f2 : string := "評論中提及的負面關鍵字 (如食安、服務)".
Definition reason_f3 : string := "近期的評價有下降趨勢".
Definition reason_f5 : string := "評論內容的整體負面情緒".

Definition specific_summary (reason : string) : string :=
  "注意，主要風險可能來自於「" ++ reason ++ "」。".

Definition low_risk_summary : string :=
  "數據顯示此地點的負面指標較少，整體風險低。".

Definition warning_summary (reason : string) : string :=
  "警告！綜合多項指標分析，此地點踩雷風險高。主要風險來源為「" ++ reason ++ "」。".

(** The weighted sum of the four sub-scores, clamped (lines 122-129). *)
Definition weighted_score (w : Weights) (f1 f2 f3 f5 : Q) : Q :=
  let final_score :=
    f1 * f1_neg_reviews w + f2 * f2_keywords w
    + f3 * f3_trend w + f5 * f5_sentiment w in
  py_max 0 (py_min final_score 100).

(** [calculate_score].  The local [dominant_risk_reason] is bound in the
    first branch of the [if] only; reading it while unbound raises
    [UnboundLocalError]. *)
Definition calculate_score (w : Weights) (processed_df : DataFrame)
    (trend_info : TrendInfo) : result (Q * string) :=
  let f1_score :=
    _calculate_f1_score (default ∅ (reviews_distribution trend_info))
                        (default 0%Z (total_reviews trend_info)) in
  f2_score ← _calculate_f2_score processed_df;
  let f3_score := _calculate_f3_score (default 0 (trend_score trend_info)) in
  let f5_score := _calculate_f5_score processed_df in
  let scores_head := (reason_f1, f1_score) in
  let scores_tail :=
    [(reason_f2, f2_score); (reason_f3, f3_score); (reason_f5, f5_score)] in
  let '(dominant_risk_reason, summary) :=
    if Qltb 20 (py_max_list (snd scores_head) (map snd scores_tail))
    then let r := py_argmax scores_head scores_tail in
         (Some r, specific_summary r)
    else (None, low_risk_summary) in
  let final_score := weighted_score w f1_score f2_score f3_score f5_score in
  if Qltb 70 final_score
  then match dominant_risk_reason with
       | Some r => Ok (final_score, warning_summary r)
       | None => Raise (UnboundLocalError "dominant_risk_reason")
       end
  else Ok (final_score, summary).

(** The sub-scores that [calculate_score] computes before the summary. *)
Definition f1_of (ti : TrendInfo) : Q :=
  _calculate_f1_score (default ∅ (reviews_distribution ti))
                      (default 0%Z (total_reviews ti)).

Definition f3_of (ti : TrendInfo) : Q :=
  _calculate_f3_score (default 0 (trend_score ti)).

Definition max_sub_score (f1 f2 f3 f5 : Q) : Q := py_max_list f1 [f2; f3; f5].

Definition dominant_reason (f1 f2 f3 f5 : Q) : string :=
  py_argmax (reason_f1, f1) [(reason_f2, f2); (reason_f3, f3); (reason_f5, f5)].

End LandmineScorer.

(** ** Text primitives *)

(** [str.isspace()] on one code point. *)
Definition py_isspace (c : N) : bool :=
  ((9 <=? c) && (c <=? 13) || (28 <=? c) && (c <=? 32)
   || (c =? 133) || (c =? 160) || (c =? 5760)
   || (8192 <=? c) && (c <=? 8202)
   || (c =? 8232) || (c =? 8233) || (c =? 8239) || (c =? 8287)
   || (c =? 12288))%N.

Fixpoint lstrip (s : str) : str :=
  match s with
  | [] => []
  | c :: s' => if py_isspace c then lstrip s' else s
  end.

(** [s.strip()]. *)
Definition strip (s : str) : str := rev (lstrip (rev (lstrip s))).

(** The character class of [re.split(r'[，。！？,!?\n]', text)]. *)
Definition is_separator (c : N) : bool :=
  existsb (N.eqb c) [65292; 12290; 65281; 65311; 44; 33; 63; 10]%N.

(** [re.split] on a one-character class: the pieces between separators,
    empty pieces included. *)
Fixpoint re_split (text : str) : list str :=
  match text with
  | [] => [[]]
  | c :: rest =>
      if is_separator c then [] :: re_split rest
      else match re_split rest with
           | [] => [[c]]
           | piece :: pieces => (c :: piece) :: pieces
           end
  end.

Fixpoint startswith (s prefix : str) : bool :=
  match prefix, s with
  | [], _ => true
  | _ :: _, [] => false
  | a :: prefix', b :: s' => (a =? b)%N && startswith s' prefix'
  end.

(** [keyword in sentence]: substring test. *)
Fixpoint str_contains (sentence keyword : str) : bool :=
  startswith sentence keyword
  || match sentence with
     | [] => false
     | _ :: sentence' => str_contains sentence' keyword
     end.

(** [list(dict.fromkeys(l))]: the distinct elements in order of first
    occurrence. *)
Definition dict_fromkeys (l : list str) : list str :=
  fold_left (λ keys x, if bool_decide (x ∈ keys) then keys else keys ++ [x]) l [].

(** [round(x)] to the nearest integer, ties to even. *)
Definition round_half_even (x : Q) : Z :=
  let f := Qfloor x in
  match Qcompare (x - inject_Z f) (1 # 2) with
  | Lt => f
  | Gt => (f + 1)%Z
  | Eq => if Z.even f then f else (f + 1)%Z
  end.

(** [round(x, ndigits)]. *)
Definition py_round (x : Q) (ndigits : nat) : Q :=
  let scale := inject_Z (10 ^ Z.of_nat ndigits) in
  inject_Z (round_half_even (x * scale)) / scale.

(** ** [app/sentiment.py] *)

Module Sentiment.

Inductive Label : Type := positive | neutral | negative.

(** The fields of an Azure sentiment result that the code reads. *)
Record Response : Type := mkResponse {
  is_error : bool;
  sentiment : Label;
  confidence_positive : Q;
  confidence_negative : Q
}.

(** [text_analytics_client.analyze_sentiment(documents=[text], ...)[0]]:
    a response, or an exception. *)
Definition Client : Type := str → option Response.

(** [client] is the module-level [text_analytics_client]; it is [None]
    when the credentials are not configured. *)
Definition get_sentiment_score (client : option Client) (text : str) : Q :=
  match client with
  | None => 0
  | Some analyze_sentiment =>
      match analyze_sentiment text with
      | Some response =>
          if is_error response then 0
          else match sentiment response with
               | positive => confidence_positive response
               | negative => - confidence_negative response
               | neutral => 0
               end
      | None => 0
      end
  end.

End Sentiment.

(** ** The raw input *)

(** A key of a raw review dict: missing, present with [None], or present
    with a value. *)
Inductive Field (A : Type) : Type :=
| Absent
| Null
| Val (a : A).
Arguments Absent {A}.
Arguments Null {A}.
Arguments Val {A} a.

Definition has_key {A : Type} (f : Field A) : bool :=
  match f with
  | Absent => false
  | _ => true
  end.

(** A raw review; keys other than these three are never read. *)
Record RawReview : Type := mkRaw {
  stars : Field Z;
  raw_text : Field str;
  publishedAtDate : Field str
}.

(** The keys of [place_info] that the pipeline reads. *)
Record PlaceInfo : Type := mkPlace {
  title : option string;
  reviews : option (list RawReview);
  totalScore : option Q;
  reviewsCount : option Z;
  reviewsDistribution : option (gmap string Z)
}.

(** The dict [key_phrases]; [{}] has neither key. *)
Record KeyPhrases : Type := mkPhrases {
  positive_points : option (list str);
  key_negative_keywords : option (list str)
}.

Definition empty_phrases : KeyPhrases := mkPhrases None None.

(** ** [app/services.py]: FeatureEngineer *)

Module FeatureEngineer.

(** What [open(keywords_path)] followed by [json.load(f)] yields: the file
    does not exist, its content is not JSON, or it is a JSON object whose
    values are lists of strings. *)
Inductive KeywordsFile : Type :=
| Missing
| Malformed
| Document (keywords : gmap string (list str)).

Definition load_keywords (file : KeywordsFile) : result (gmap string (list str)) :=
  match file with
  | Missing => Raise FileNotFoundError
  | Malformed => Raise JSONDecodeError
  | Document keywords => Ok keywords
  end.

(** The attributes of an instance. *)
Record t : Type := mkEngineer {
  high_risk_set : gset str;
  medium_risk_set : gset str;
  low_risk_set : gset str;
  positive_set : gset str;
  all_negative_set : gset str
}.

(** [__init__]: the body of the [try], and the one handler,
    [except FileNotFoundError]. *)
Definition __init__ (file : KeywordsFile) : result t :=
  match load_keywords file with
  | Ok keywords =>
      let high : gset str := list_to_set (default [] (keywords !! "high_risk"%string)) in
      let medium : gset str := list_to_set (default [] (keywords !! "medium_risk"%string)) in
      let low : gset str := list_to_set (default [] (keywords !! "low_risk"%string)) in
      let pos : gset str := list_to_set (default [] (keywords !! "positive_points"%string)) in
      Ok (mkEngineer high medium low pos (high ∪ medium ∪ low))
  | Raise FileNotFoundError => Ok (mkEngineer ∅ ∅ ∅ ∅ ∅)
  | Raise e => Raise e
  end.

(** The two cells [_calculate_f1_depth] adds to a row. *)
Definition _calculate_f1_depth (rating : Z) (text : str) : bool * bool :=
  ((rating <=? 2)%Z, (100 <? length text)%nat).

(** [any(keyword in sentence for keyword in keywords)]: the inner [for]
    loops of [_extract_key_phrases] stop at the first hit, and which
    keyword hits first does not show in the result. *)
Definition any_keyword_in (keywords : gset str) (sentence : str) : bool :=
  existsb (str_contains sentence) (elements keywords).

(** One turn of the loop over [sentences]; the state is
    [(positive_phrases, negative_phrases)]. *)
Definition extract_step (self : t) (state : list str * list str) (sentence : str)
  : list str * list str :=
  let '(positive_phrases, negative_phrases) := state in
  let sentence := strip sentence in
  match sentence with
  | [] => state
  | _ :: _ =>
      let '(negative_phrases, found_negative) :=
        if (length negative_phrases <? 3)%nat
        then if any_keyword_in (all_negative_set self) sentence
             then (negative_phrases ++ [sentence], true)
             else (negative_phrases, false)
        else (negative_phrases, false) in
      let positive_phrases :=
        if negb found_negative && (length positive_phrases <? 2)%nat
        then if any_keyword_in (positive_set self) sentence
             then positive_phrases ++ [sentence]
             else positive_phrases
        else positive_phrases in
      (positive_phrases, negative_phrases)
  end.

(** [_extract_key_phrases]: the pair is [(result["positive"],
    result["negative"])]. *)
Definition _extract_key_phrases (self : t) (text : str) : list str * list str :=
  let sentences := re_split text in
  fold_left (extract_step self) sentences ([], []).

(** [all(col in df.columns for col in required_cols.keys())] on
    [df = pd.DataFrame(reviews_list)], whose columns are the keys that
    occur in some dict of the list. *)
Definition has_required_columns (reviews_list : list RawReview) : bool :=
  existsb (λ r, has_key (stars r)) reviews_list
  && existsb (λ r, has_key (raw_text r)) reviews_list
  && existsb (λ r, has_key (publishedAtDate r)) reviews_list.

(** A row of [df[list(required_cols.keys())].dropna()]: the three cells,
    when none of them is missing. *)
Definition dropna (review : RawReview) : option (Z * str * str) :=
  match stars review, raw_text review, publishedAtDate review with
  | Val rating, Val text, Val datetime_str => Some (rating, text, datetime_str)
  | _, _, _ => None
  end.

(** Lines 159-163: the rows [(rating, text, datetime_str)] left after
    [dropna()] and after the rows with blank text are filtered out. *)
Definition clean (reviews_list : list RawReview) : list (Z * str * str) :=
  filter (λ cells, strip (cells.1.2) ≠ []) (omap dropna reviews_list).

Section Pipeline.

(** [jieba.cut(text, cut_all=False)]. *)
Variable jieba_cut : str → list str.
(** The module-level [text_analytics_client] of [app/sentiment.py]. *)
Variable text_analytics_client : option Sentiment.Client.
(** [pd.to_datetime] on one cell, in nanoseconds since the epoch; [None]
    when the string does not parse. *)
Variable to_datetime : str → option Z.
(** [datetime.now(timezone.utc)], in nanoseconds since the epoch. *)
Variable now : Z.

(** [_calculate_f2_keywords_jieba]: the three counts of the returned
    dict. *)
Definition _calculate_f2_keywords_jieba (self : t) (text : str) : Z * Z * Z :=
  let seg_list := jieba_cut text in
  let word_set : gset str := list_to_set seg_list in
  (Z.of_nat (size (high_risk_set self ∩ word_set)),
   Z.of_nat (size (medium_risk_set self ∩ word_set)),
   Z.of_nat (size (low_risk_set self ∩ word_set))).

Definition ninety_days : Z := (90 * 86400 * 1000000000)%Z.

(** [_calculate_f3_trend]: the three keys of the returned dict. *)
Definition _calculate_f3_trend (rows : list Row) (place_info : PlaceInfo)
  : Q * option Q * Q :=
  let historical_avg_rating :=
    default (mean_Q (map (λ r, inject_Z (rating r)) rows)) (totalScore place_info) in
  let ninety_days_ago := (now - ninety_days)%Z in
  let recent_reviews := filter (λ r, (ninety_days_ago <= datetime r)%Z) rows in
  let '(recent_avg_rating, trend_score) :=
    if (5 <? length recent_reviews)%nat
    then let recent := mean_Q (map (λ r, inject_Z (rating r)) recent_reviews) in
         (Some recent, historical_avg_rating - recent)
    else (None, 0) in
  (py_round historical_avg_rating 2,
   (λ r, py_round r 2) <$> recent_avg_rating,
   py_round trend_score 3).

(** What [run] returns: [None, None, None], or a frame with the trend
    dict and the key phrases. *)
Inductive Output : Type :=
| Failed
| Finished (df : DataFrame) (trend_data : TrendInfo) (key_phrases : KeyPhrases).

Definition final_columns : list string :=
  ["rating"; "text"; "datetime_str"; "datetime"; "is_negative";
   "is_long_review"; "high_risk_keyword_count"; "medium_risk_keyword_count";
   "low_risk_keyword_count"; "sentiment_score"]%string.

(** The feature columns of one cleaned row, once its date has parsed. *)
Definition make_row (self : t) (cells : Z * str * str) (datetime : Z) : Row :=
  let '(rating, text, datetime_str) := cells in
  let '(is_negative, is_long_review) := _calculate_f1_depth rating text in
  let '(high, medium, low) := _calculate_f2_keywords_jieba self text in
  mkRow rating text datetime_str datetime is_negative is_long_review
        high medium low
        (Sentiment.get_sentiment_score text_analytics_client text).

Definition run (self : t) (place_info : PlaceInfo) : result Output :=
  let reviews_list := default [] (reviews place_info) in
  match reviews_list with
  | [] => Ok (Finished empty_frame empty_trend empty_phrases)
  | _ :: _ =>
      if negb (has_required_columns reviews_list) then Ok Failed
      else
        let cleaned := clean reviews_list in
        match cleaned with
        | [] => Ok (Finished empty_frame empty_trend empty_phrases)
        | _ :: _ =>
            match mapM (λ cells, to_datetime (cells.2)) cleaned with
            | None => Raise DateParseError
            | Some datetimes =>
                let rows := zip_with (make_row self) cleaned datetimes in
                let df := mkDF final_columns rows in
                let phrases := map (λ r, _extract_key_phrases self (text r)) rows in
                let all_positive := concat (map fst phrases) in
                let all_negative := concat (map snd phrases) in
                let key_phrases :=
                  mkPhrases (Some (take 2 (dict_fromkeys all_positive)))
                            (Some (take 3 (dict_fromkeys all_negative))) in
                let '(historical_avg, recent_avg, trend_score) :=
                  _calculate_f3_trend rows place_info in
                let trend_data :=
                  mkTrend (Some historical_avg) (Some recent_avg) (Some trend_score)
                          (Some (default 0%Z (reviewsCount place_info)))
                          (Some (default ∅ (reviewsDistribution place_info))) in
                Ok (Finished df trend_data key_phrases)
            end
        end
  end.

End Pipeline.

End FeatureEngineer.

(** ** [app/main.py]: the analysis of a place *)

Module Main.

Record AnalyzeResponse : Type := mkResponse {
  place_name : string;
  landmine_score : Q;
  risk_level : string;
  summary : string;
  response_negative_keywords : list str;
  response_positive_points : list str;
  details : TrendInfo
}.

Definition high_risk_level : string := "高度風險".
Definition medium_risk_level : string := "中度風險".
Definition low_risk_level : string := "低度風險".

Section Analyze.

Variable jieba_cut : str → list str.
Variable text_analytics_client : option Sentiment.Client.
Variable to_datetime : str → option Z.
Variable now : Z.
(** The module-level [engineer] and [scorer]. *)
Variable engineer : FeatureEngineer.t.
Variable scorer : LandmineScorer.Weights.

(** [analyze_place] from line 183 on: [place_info] has been read from the
    cache or fetched. *)
Definition analyze_place (place_id : string) (place_info : PlaceInfo)
  : result AnalyzeResponse :=
  output ← FeatureEngineer.run jieba_cut text_analytics_client to_datetime now
             engineer place_info;
  match output with
  | FeatureEngineer.Failed => Raise (HTTPException 500 "特徵工程執行失敗。")
  | FeatureEngineer.Finished processed_df trend_info key_phrases =>
      '(score, summary) ← LandmineScorer.calculate_score scorer processed_df trend_info;
      let risk_level :=
        if Qltb 70 score then high_risk_level
        else if Qltb 40 score then medium_risk_level
        else low_risk_level in
      let place_name := default place_id (title place_info) in
      Ok (mkResponse place_name (py_round score 2) risk_level summary
                     (default [] (key_negative_keywords key_phrases))
                     (default [] (positive_points key_phrases))
                     trend_info)
  end.

End Analyze.

End Main.

(** ** Definitions that follow the specification's words

    They are compared below with the definitions taken from the code. *)

Module Spec.

(** [clamp(lo, hi, x)]. *)
Definition clamp (lo hi x : Q) : Q :=
  if Qltb x lo then lo else if Qltb hi x then hi else x.

(** Sub-score F5 of a non-empty review set:
    [clamp(0, 100, (1 - avg_sentiment) * 50)]. *)
Definition F5 (sentiments : list Q) : Q :=
  clamp 0 100 ((1 - mean_Q sentiments) * 50).

(** A tier's keyword count of one review: the keywords of the tier among
    the distinct tokens of the review. *)
Definition keyword_count (tier : gset str) (tokens : list str) : nat :=
  length (filter (λ token, token ∈ tier) (remove_dups tokens)).

(** [risk_sum = high*15 + medium*5 + low*1], summed across all reviews. *)
Definition risk_sum (rows : list Row) : Z :=
  fold_right (λ r acc,
      (high_risk_keyword_count r * 15 + medium_risk_keyword_count r * 5
       + low_risk_keyword_count r * 1 + acc)%Z) 0%Z rows.

(** Sub-score F2: [min(100, risk_sum / total_reviews * 100)], and 0 when
    there are no reviews. *)
Definition F2 (rows : list Row) : Q :=
  match rows with
  | [] => 0
  | _ :: _ =>
      Qmin 100 (inject_Z (risk_sum rows) / inject_Z (Z.of_nat (length rows)) * 100)
  end.

(** A review of Scenario A: rated 5, with a text that is not blank,
    matches no lexicon keyword and has sentiment 0, and a date that
    parses. *)
Definition scenario_A_review (jieba_cut : str → list str)
    (client : option Sentiment.Client) (to_datetime : str → option Z)
    (self : FeatureEngineer.t) (review : RawReview) : Prop :=
  ∃ text date,
    review = mkRaw (Val 5%Z) (Val text) (Val date)
    ∧ strip text ≠ [] ∧ is_Some (to_datetime date)
    ∧ FeatureEngineer._calculate_f2_keywords_jieba jieba_cut self text = (0, 0, 0)%Z
    ∧ Sentiment.get_sentiment_score client text == 0.

(** No one-star and no two-star reviews are declared for the place. *)
Definition no_low_stars (place_info : PlaceInfo) : Prop :=
  default 0%Z (default ∅ (reviewsDistribution place_info) !! "oneStar"%string) = 0%Z
  ∧ default 0%Z (default ∅ (reviewsDistribution place_info) !! "twoStar"%string) = 0%Z.

End Spec.

(** ** Sample inputs *)

Module Sample.

(** ASCII text as code points. *)
Definition u (s : string) : str :=
  map (λ a, N_of_ascii a) (list_ascii_of_string s).

Definition lexicon : gmap string (list str) :=
  {[ "high_risk"%string := [u "poison"];
     "medium_risk"%string := [u "rude"];
     "low_risk"%string := [u "bad"];
     "positive_points"%string := [u "good"] ]}.

(** A tokenizer for the samples: the words between blanks. *)
Fixpoint words (text : str) : list str :=
  match text with
  | [] => [[]]
  | c :: rest =>
      if (c =? 32)%N then [] :: words rest
      else match words rest with
           | [] => [[c]]
           | w :: ws => (c :: w) :: ws
           end
  end.

Definition jieba_cut (text : str) : list str := words text.
Definition to_datetime (s : str) : option Z := Some 0%Z.
Definition now : Z := 0%Z.

Definition review (rating : Z) (text : string) : RawReview :=
  mkRaw (Val rating) (Val (u text)) (Val (u "2025-01-01T00:00:00.000Z")).

Definition place (rs : list RawReview) : PlaceInfo :=
  mkPlace (Some "Cafe"%string) (Some rs) (Some 5) (Some (Z.of_nat (length rs))) (Some ∅).

(** An Azure client that finds every text positive with confidence
    0.75. *)
Definition mild_client : Sentiment.Client :=
  λ _, Some (Sentiment.mkResponse false Sentiment.positive (75 # 100) (5 # 100)).

(** Weights tuned for aggressiveness: [LandmineScorer(weights={...})] with
    every weight 6. *)
Definition aggressive_weights : LandmineScorer.Weights :=
  LandmineScorer.mkWeights 6 6 6 6.

(** A trend dict that declares one one-star review out of 16. *)
Definition one_star_in_sixteen : TrendInfo :=
  mkTrend None None None (Some 16%Z) (Some {[ "oneStar"%string := 1%Z ]}).

(** The engineer built from [lexicon]. *)
Definition engineer : FeatureEngineer.t :=
  let high : gset str := {[ u "poison" ]} in
  let medium : gset str := {[ u "rude" ]} in
  let low : gset str := {[ u "bad" ]} in
  FeatureEngineer.mkEngineer high medium low {[ u "good" ]} (high ∪ medium ∪ low).

(** Ten reviews rated 5 that match no keyword. *)
Definition ten_reviews : list RawReview := repeat (review 5 "fine") 10.

(** A raw review without the key [text]. *)
Definition review_without_text : RawReview :=
  mkRaw (Val 1%Z) Absent (Val (u "2025-01-02T00:00:00.000Z")).

(** Twenty raw reviews, the last of them without [text]. *)
Definition twenty_reviews : list RawReview :=
  repeat (review 5 "fine") 19 ++ [review_without_text].

(** A review whose fourth sentence praises and blames. *)
Definition mixed_text : string :=
  "bad soup, rude waiter, poison fish, good cake but bad tea".

(** The frame of three reviews that an engineer without a client builds. *)
Definition neutral_frame : DataFrame :=
  mkDF FeatureEngineer.final_columns
       (map (λ t, FeatureEngineer.make_row jieba_cut None engineer
                    (5%Z, u t, u "2025-01-01") 0%Z)
            ["fine"; "rude waiter"; "good"]%string).

End Sample.

(** ** The scorer's arithmetic on IEEE doubles

    The same expressions as in [LandmineScorer], on the binary64 format of
    the Standard Library's [SpecFloat], rounding to nearest even.  They
    serve to evaluate the sample inputs only. *)

Module Binary64.

Import SpecFloat.

Definition float : Type := spec_float.

Definition prec : Z := 53%Z.
Definition emax : Z := 1024%Z.

(** The double of an integer. *)
Definition of_Z (n : Z) : float := binary_normalize prec emax n 0 false.

Definition add : float → float → float := SFadd prec emax.
Definition sub : float → float → float := SFsub prec emax.
Definition mul : float → float → float := SFmul prec emax.
Definition div : float → float → float := SFdiv prec emax.

(** The double of a decimal literal [n / d], as Python reads it. *)
Definition lit (n d : Z) : float := div (of_Z n) (of_Z d).

Definition min64 (a b : float) : float := if SFltb b a then b else a.
Definition max64 (a b : float) : float := if SFltb a b then b else a.

Definition f1_score (one_star two_star total_reviews : Z) : float :=
  let weighted_negative_count := add (mul (of_Z one_star) (lit 15 10)) (of_Z two_star) in
  let score := mul (div weighted_negative_count (of_Z total_reviews)) (of_Z 200) in
  min64 score (of_Z 100).

Definition f5_score (avg_sentiment : float) : float :=
  let score := mul (sub (of_Z 1) avg_sentiment) (of_Z 50) in
  max64 (of_Z 0) (min64 score (of_Z 100)).

Definition final_score (w1 w2 w3 w5 f1 f2 f3 f5 : float) : float :=
  max64 (of_Z 0)
        (min64 (add (add (add (mul f1 w1) (mul f2 w2)) (mul f3 w3)) (mul f5 w5))
               (of_Z 100)).

Definition default_final_score (f1 f2 f3 f5 : float) : float :=
  final_score (lit 25 100) (lit 45 100) (lit 15 100) (lit 15 100) f1 f2 f3 f5.

End Binary64.


(** ** Notions used to state further properties *)

Module Phrase.

(** The sentences of a review as the loop of [_extract_key_phrases] sees
    them: the pieces of the split, stripped, without the empty ones. *)
Definition sentences (text : str) : list str :=
  filter (λ sentence, sentence ≠ []) (map strip (re_split text)).

(** The sentence contains a keyword of the set. *)
Definition hits (keywords : gset str) (sentence : str) : Prop :=
  FeatureEngineer.any_keyword_in keywords sentence = true.

#[global] Instance hits_dec (keywords : gset str) (sentence : str) :
  Decision (hits keywords sentence).
Proof. unfold hits. apply _. Defined.

(** [keyword] occurs in [sentence] as a run of consecutive characters. *)
Definition occurs_in (keyword sentence : str) : Prop :=
  ∃ before after, sentence = before ++ keyword ++ after.

(** What the loop of [_extract_key_phrases] has established after the
    pieces [done], for the state [(positive_phrases, negative_phrases)]. *)
Definition extraction_invariant (self : FeatureEngineer.t) (done : list str)
    (state : list str * list str) : Prop :=
  state.2 = take 3 (filter (hits (FeatureEngineer.all_negative_set self))
                           (filter (λ s : str, s ≠ []) (map strip done)))
  ∧ (length (state.1) ≤ 2)%nat
  ∧ state.1 `sublist_of` filter (λ s : str, s ≠ []) (map strip done)
  ∧ Forall (hits (FeatureEngineer.positive_set self)) (state.1).

End Phrase.

(** ** [app/database.py] *)

Module Database.

(** The two module-level names that [app/main.py] imports.  A document of
    [places] is a place dict, kept under its [_id]; a document of
    [reviews] is a review dict with its ["place_id"], and [find] yields
    the documents in the order of their insertion.  [None] is Python's
    [None]. *)
Record Collections : Type := mkCollections {
  places_collection : option (gmap string PlaceInfo);
  reviews_collection : option (list (string * RawReview))
}.


End Database.

(** ** [app/main.py]: fetching a place from Apify *)

Module Apify.

(** The JSON body of the request that starts the actor. *)
Record ActorInput : Type := mkInput {
  startUrls : list string;
  maxReviews : Z;
  language : string
}.

(** What the function does to the outside world, in order. *)
Inductive Event : Type :=
| Post (url : string) (json : ActorInput)
| Get (url : string)
| Sleep (seconds : Z).

(** The exceptions of the fetch: the two the function raises itself, and
    whatever a request raises while its reply is read ([requests],
    [raise_for_status], [json()], a missing key). *)
Inductive error : Type :=
| ValueError (message : string)
| RuntimeError (message : string)
| ReplyError (message : string).

(** [str(e)]. *)
Definition message_of (e : error) : string :=
  match e with
  | ValueError message | RuntimeError message | ReplyError message => message
  end.

Inductive attempt (A : Type) : Type :=
| Returned (a : A)
| Raised (e : error).
Arguments Returned {A} a.
Arguments Raised {A} e.

Definition BASE_API_URL : string := "https://api.apify.com/v2".
Definition actor_id : string := "compass~crawler-google-places".

Definition final_statuses : list string :=
  ["SUCCEEDED"; "FAILED"; "TIMED-OUT"; "ABORTED"].

Definition runs_url (token : string) : string :=
  BASE_API_URL +:+ "/acts/" +:+ actor_id +:+ "/runs?token=" +:+ token.

Definition status_url (token run_id : string) : string :=
  BASE_API_URL +:+ "/acts/" +:+ actor_id +:+ "/runs/" +:+ run_id
  +:+ "?token=" +:+ token.

Definition items_url (token dataset_id : string) : string :=
  BASE_API_URL +:+ "/datasets/" +:+ dataset_id +:+ "/items?token=" +:+ token.

Definition Maps_url (place_id : string) : string :=
  "https://www.google.com/maps/search/?api=1&query=a&query_place_id=" +:+ place_id.

Definition token_missing : error :=
  ValueError "APIFY_API_TOKEN 未設定，請檢查環境變數。".

Definition not_succeeded (status : string) : error :=
  RuntimeError ("Apify 任務未能成功完成，最終狀態為: " +:+ status).

Section Server.

Variable APIFY_API_TOKEN : option string.
(** The reply to the POST of line 63 as lines 64 to 66 read it: the run id
    and the dataset id, or the exception raised on the way. *)
Variable post_run : string → ActorInput → attempt (string * string).
(** The reply to the [n]-th GET of line 70 (counted from 0) as lines 71
    and 72 read it: the status of the run. *)
Variable get_status : nat → string → attempt string.
(** The reply to the GET of line 80 as lines 81 and 82 read it: the items
    of the dataset, a list of place dicts. *)
Variable get_items : string → attempt (list PlaceInfo).

(** The loop of lines 69 to 76, from its [n]-th round on.  [while True]
    has no bound of its own: [fuel] bounds the rounds, and [None] says
    that the loop has not left within them. *)
Fixpoint poll (fuel : nat) (url : string) (n : nat)
  : option (attempt string * list Event) :=
  match fuel with
  | O => None
  | S fuel =>
      match get_status n url with
      | Raised e => Some (Raised e, [Get url])
      | Returned status =>
          if bool_decide (status ∈ final_statuses)
          then Some (Returned status, [Get url])
          else
            '(outcome, events) ← poll fuel url (S n);
            Some (outcome, Get url :: Sleep 15 :: events)
      end
  end.

(** [_run_apify_actor_and_get_data]: what the call returns or raises, with
    the requests and sleeps it made. *)
Definition _run_apify_actor_and_get_data (fuel : nat) (place_id : string)
  : option (attempt (list PlaceInfo) * list Event) :=
  match APIFY_API_TOKEN with
  | None => Some (Raised token_missing, [])
  | Some token =>
      if bool_decide (token = "") then Some (Raised token_missing, [])
      else
        let actor_input := mkInput [Maps_url place_id] 50 "zh-TW" in
        let start := Post (runs_url token) actor_input in
        match post_run (runs_url token) actor_input with
        | Raised e => Some (Raised e, [start])
        | Returned (run_id, dataset_id) =>
            '(outcome, events) ← poll fuel (status_url token run_id) 0;
            match outcome with
            | Raised e => Some (Raised e, start :: events)
            | Returned status =>
                if bool_decide (status = "SUCCEEDED")
                then Some (get_items (items_url token dataset_id),
                           start :: events ++ [Get (items_url token dataset_id)])
                else Some (Raised (not_succeeded status), start :: events)
            end
        end
  end.

End Server.

End Apify.

(** ** [app/main.py]: the endpoint [/analyze] *)

Module Endpoint.

Definition database_unavailable : exn := HTTPException 503 "資料庫服務不可用。".

Definition fetch_failed (message : string) : exn :=
  HTTPException 500 ("Apify 數據抓取或資料庫寫入失敗: " +:+ message).

(** [place_info["reviews"] = reviews_list]. *)
Definition set_reviews (place_info : PlaceInfo) (reviews_list : list RawReview)
  : PlaceInfo :=
  mkPlace (title place_info) (Some reviews_list) (totalScore place_info)
          (reviewsCount place_info) (reviewsDistribution place_info).

(** [place_info.copy()] after [pop("reviews", None)]. *)
Definition pop_reviews (place_info : PlaceInfo) : PlaceInfo :=
  mkPlace (title place_info) None (totalScore place_info)
          (reviewsCount place_info) (reviewsDistribution place_info).

(** [list(reviews_collection.find({"place_id": place_id}))]. *)
Definition find_reviews (reviews : list (string * RawReview)) (place_id : string)
  : list RawReview :=
  (filter (λ document, document.1 = place_id) reviews).*2.

Section Analyze.

Variable jieba_cut : str → list str.
Variable text_analytics_client : option Sentiment.Client.
Variable to_datetime : str → option Z.
Variable now : Z.
Variable engineer : FeatureEngineer.t.
Variable scorer : LandmineScorer.Weights.
Variable APIFY_API_TOKEN : option string.
Variable post_run : string → Apify.ActorInput → Apify.attempt (string * string).
Variable get_status : nat → string → Apify.attempt string.
Variable get_items : string → Apify.attempt (list PlaceInfo).

(** [analyze_place], lines 146 to 207: what the request returns or raises,
    the collections after it, and the requests and sleeps of the fetch.
    [None] says that the polling loop of the fetch has not left within
    [fuel] rounds.  The handler of line 178 catches every exception of the
    fetch; [insert_one] and [insert_many] are taken not to raise. *)
Definition analyze_place (fuel : nat) (db : Database.Collections)
    (place_id : string)
  : option (result Main.AnalyzeResponse * Database.Collections * list Apify.Event) :=
  match Database.places_collection db, Database.reviews_collection db with
  | Some places, Some stored_reviews =>
      match places !! place_id with
      | Some place_data =>
          let reviews_list := find_reviews stored_reviews place_id in
          let place_info := set_reviews place_data reviews_list in
          Some (Main.analyze_place jieba_cut text_analytics_client to_datetime now
                  engineer scorer place_id place_info, db, [])
      | None =>
          '(apify_data, events) ←
            Apify._run_apify_actor_and_get_data APIFY_API_TOKEN post_run
              get_status get_items fuel place_id;
          match apify_data with
          | Apify.Raised e => Some (Raise (fetch_failed (Apify.message_of e)), db, events)
          | Apify.Returned [] =>
              Some (Raise (fetch_failed "Apify 未回傳任何數據。"), db, events)
          | Apify.Returned (place_info :: _) =>
              let reviews_list := default [] (reviews place_info) in
              let place_to_insert := pop_reviews place_info in
              let places := <[place_id := place_to_insert]> places in
              let stored_reviews :=
                match reviews_list with
                | [] => stored_reviews
                | _ :: _ => stored_reviews ++ map (pair place_id) reviews_list
                end in
              Some (Main.analyze_place jieba_cut text_analytics_client to_datetime
                      now engineer scorer place_id place_info,
                    Database.mkCollections (Some places) (Some stored_reviews),
                    events)
          end
      end
  | _, _ => Some (Raise database_unavailable, db, [])
  end.

End Analyze.

End Endpoint.

(** ** Notions used to state the properties of the fetch and of the cache *)

Module Polling.

(** The requests and sleeps of a polling loop that leaves in round
    [rounds], counted from 0. *)
Fixpoint polling (url : string) (rounds : nat) : list Apify.Event :=
  match rounds with
  | O => [Apify.Get url]
  | S rounds => Apify.Get url :: Apify.Sleep 15 :: polling url rounds
  end.

(** The seconds that a trace spends asleep. *)
Definition seconds_slept (events : list Apify.Event) : Z :=
  foldr (λ event total,
           match event with
           | Apify.Sleep seconds => (seconds + total)%Z
           | _ => total
           end) 0%Z events.

(** The [n]-th status request is answered with a status that is not
    final. *)
Definition still_running (get_status : nat → string → Apify.attempt string)
    (url : string) (n : nat) : Prop :=
  ∃ status, get_status n url = Apify.Returned status
            ∧ status ∉ Apify.final_statuses.

(** The [n]-th status request ends the loop with [outcome]: it raises, or
    it is answered with a final status. *)
Definition leaves_with (get_status : nat → string → Apify.attempt string)
    (url : string) (n : nat) (outcome : Apify.attempt string) : Prop :=
  get_status n url = outcome
  ∧ match outcome with
    | Apify.Raised _ => True
    | Apify.Returned status => status ∈ Apify.final_statuses
    end.

End Polling.

Module Cache.

(** Both collections are there. *)
Definition available (db : Database.Collections) : Prop :=
  is_Some (Database.places_collection db)
  ∧ is_Some (Database.reviews_collection db).

(** The cached place with this id. *)
Definition place_of (db : Database.Collections) (place_id : string)
  : option PlaceInfo :=
  places ← Database.places_collection db; places !! place_id.

(** The cached reviews of the place with this id. *)
Definition reviews_of (db : Database.Collections) (place_id : string)
  : list RawReview :=
  from_option (λ stored, Endpoint.find_reviews stored place_id) []
              (Database.reviews_collection db).

Definition cached (db : Database.Collections) (place_id : string) : Prop :=
  available db ∧ is_Some (place_of db place_id).

(** No review is stored for a place that is not cached. *)
Definition consistent (db : Database.Collections) : Prop :=
  ∀ place_id, place_of db place_id = None → reviews_of db place_id = [].

End Cache.

(** ** A sample Apify server *)

Module SampleServer.

(** The run is reported as running twice, then as [status]. *)
Definition get_status (status : string) (n : nat) (url : string)
  : Apify.attempt string :=
  Apify.Returned (if (n <? 2)%nat then "RUNNING" else status).

Definition post_run (url : string) (json : Apify.ActorInput)
  : Apify.attempt (string * string) :=
  Apify.Returned ("run", "dataset").

Definition get_items (url : string) : Apify.attempt (list PlaceInfo) :=
  Apify.Returned [Sample.place Sample.twenty_reviews].

Definition empty_collections : Database.Collections :=
  Database.mkCollections (Some ∅) (Some []).

(** The collections once the sample place has been fetched and stored. *)
Definition cached_collections : Database.Collections :=
  Database.mkCollections
    (Some {[ "place"%string
             := Endpoint.pop_reviews (Sample.place Sample.twenty_reviews) ]})
    (Some (map (pair "place"%string) Sample.twenty_reviews)).

(** A request for the sample place, with the token set and fuel for three
    rounds of polling. *)
Definition request (db : Database.Collections)
  : option (result Main.AnalyzeResponse * Database.Collections * list Apify.Event) :=
  Endpoint.analyze_place Sample.jieba_cut None Sample.to_datetime Sample.now
    Sample.engineer LandmineScorer.default_weights (Some "token"%string)
    post_run (get_status "SUCCEEDED") get_items 3 db "place".

(** The analysis of the sample place. *)
Definition analysis : result Main.AnalyzeResponse :=
  Main.analyze_place Sample.jieba_cut None Sample.to_datetime Sample.now
    Sample.engineer LandmineScorer.default_weights "place"
    (Sample.place Sample.twenty_reviews).

(** The requests and sleeps of the sample fetch. *)
Definition fetch_events : list Apify.Event :=
  Apify.Post (Apify.runs_url "token")
             (Apify.mkInput [Apify.Maps_url "place"] 50 "zh-TW")
  :: Polling.polling (Apify.status_url "token" "run") 2
  ++ [Apify.Get (Apify.items_url "token" "dataset")].

End SampleServer.

(** * Properties *)

(** ** Comparisons, [min] and [max] *)

Lemma Qltb_lt (a b : Q) : Qltb a b = true ↔ a < b.
Proof.
  unfold Qltb. rewrite negb_true_iff. split.
  - intros H. apply Qnot_le_lt. intros Hle.
    apply Qle_bool_iff in Hle. congruence.
  - intros H. destruct (Qle_bool b a) eqn:E; [|reflexivity].
    apply Qle_bool_iff in E. exfalso. exact (Qlt_not_le _ _ H E).
Qed.

Lemma Qltb_ge (a b : Q) : Qltb a b = false ↔ b <= a.
Proof.
  unfold Qltb. rewrite negb_false_iff. apply Qle_bool_iff.
Qed.

#[global] Instance Qltb_proper : Proper (Qeq ==> Qeq ==> eq) Qltb.
Proof.
  intros a a' Ha b b' Hb. unfold Qltb. now rewrite Ha, Hb.
Qed.

#[global] Instance py_min_proper : Proper (Qeq ==> Qeq ==> Qeq) py_min.
Proof.
  intros a a' Ha b b' Hb. unfold py_min. rewrite Ha, Hb.
  now destruct (Qltb b' a').
Qed.

#[global] Instance py_max_proper : Proper (Qeq ==> Qeq ==> Qeq) py_max.
Proof.
  intros a a' Ha b b' Hb. unfold py_max. rewrite Ha, Hb.
  now destruct (Qltb a' b').
Qed.

(** Case analysis on a comparison, with the order fact in the context. *)
Ltac case_Qltb a b :=
  let E := fresh "E" in
  destruct (Qltb a b) eqn:E;
  [apply Qltb_lt in E | apply Qltb_ge in E].

Lemma py_min_spec (a b : Q) : py_min a b == Qmin a b.
Proof.
  unfold py_min. case_Qltb b a.
  - symmetry. apply Q.min_r. now apply Qlt_le_weak.
  - symmetry. now apply Q.min_l.
Qed.

Lemma py_max_spec (a b : Q) : py_max a b == Qmax a b.
Proof.
  unfold py_max. case_Qltb a b.
  - symmetry. apply Q.max_r. now apply Qlt_le_weak.
  - symmetry. now apply Q.max_l.
Qed.

Lemma py_min_le_l (a b : Q) : py_min a b <= a.
Proof. rewrite py_min_spec. apply Q.le_min_l. Qed.

Lemma py_min_le_r (a b : Q) : py_min a b <= b.
Proof. rewrite py_min_spec. apply Q.le_min_r. Qed.

Lemma py_max_ge_l (a b : Q) : a <= py_max a b.
Proof. rewrite py_max_spec. apply Q.le_max_l. Qed.

Lemma py_max_ge_r (a b : Q) : b <= py_max a b.
Proof. rewrite py_max_spec. apply Q.le_max_r. Qed.

(** [max(0.0, min(x, 100.0))] is the [clamp] of the specification. *)
Lemma clamp_code_spec (x : Q) : py_max 0 (py_min x 100) == Spec.clamp 0 100 x.
Proof.
  unfold py_max, py_min, Spec.clamp.
  case_Qltb 100 x.
  - assert (H0 : Qltb x 0 = false).
    { apply Qltb_ge. apply Qle_trans with 100; [easy | now apply Qlt_le_weak]. }
    rewrite H0. reflexivity.
  - case_Qltb 0 x.
    + assert (H0 : Qltb x 0 = false) by (apply Qltb_ge; now apply Qlt_le_weak).
      rewrite H0. reflexivity.
    + case_Qltb x 0; [reflexivity|]. now apply Qle_antisym.
Qed.

Lemma clamp_in_range (x : Q) : 0 <= py_max 0 (py_min x 100) <= 100.
Proof.
  split; [apply py_max_ge_l|].
  unfold py_max. case_Qltb 0 (py_min x 100); [apply py_min_le_r | easy].
Qed.

(** ** The scorer *)

Section ScorerFacts.

Import LandmineScorer.

(** [calculate_score], once the keyword sub-score is known. *)
Lemma calculate_score_unfold (w : Weights) (df : DataFrame) (ti : TrendInfo) (f2 : Q) :
  _calculate_f2_score df = Ok f2 →
  calculate_score w df ti =
    let f1 := f1_of ti in
    let f3 := f3_of ti in
    let f5 := _calculate_f5_score df in
    let final_score := weighted_score w f1 f2 f3 f5 in
    if Qltb 70 final_score
    then if Qltb 20 (max_sub_score f1 f2 f3 f5)
         then Ok (final_score, warning_summary (dominant_reason f1 f2 f3 f5))
         else Raise (UnboundLocalError "dominant_risk_reason")
    else Ok (final_score,
             if Qltb 20 (max_sub_score f1 f2 f3 f5)
             then specific_summary (dominant_reason f1 f2 f3 f5)
             else low_risk_summary).
Proof.
  intros Hf2. unfold calculate_score. rewrite Hf2. cbn [mbind result_bind].
  fold (f1_of ti) (f3_of ti).
  cbn [fst snd map].
  fold (max_sub_score (f1_of ti) f2 (f3_of ti) (_calculate_f5_score df)).
  fold (dominant_reason (f1_of ti) f2 (f3_of ti) (_calculate_f5_score df)).
  cbv zeta.
  destruct (Qltb 20 _); destruct (Qltb 70 _); reflexivity.
Qed.

(** A score that is returned is the clamped weighted sum. *)
Lemma calculate_score_inv (w : Weights) (df : DataFrame) (ti : TrendInfo)
    (score : Q) (summary : string) :
  calculate_score w df ti = Ok (score, summary) →
  ∃ f2, _calculate_f2_score df = Ok f2
        ∧ score = weighted_score w (f1_of ti) f2 (f3_of ti) (_calculate_f5_score df).
Proof.
  intros H. destruct (_calculate_f2_score df) as [f2|e] eqn:Hf2.
  - exists f2. split; [reflexivity|].
    rewrite (calculate_score_unfold w df ti f2 Hf2) in H. cbv zeta in H.
    destruct (Qltb 70 _); [destruct (Qltb 20 _)|]; congruence.
  - unfold calculate_score in H. rewrite Hf2 in H. discriminate.
Qed.

Lemma weighted_score_in_range (w : Weights) (f1 f2 f3 f5 : Q) :
  0 <= weighted_score w f1 f2 f3 f5 <= 100.
Proof. unfold weighted_score. apply clamp_in_range. Qed.

End ScorerFacts.

(** C9.  Whatever the four weights are (negative, above 1, not summing to
    1), the value that [calculate_score] computes as [final_score] lies in
    [0, 100], and so does every score it returns. *)
Theorem final_score_in_range (w : LandmineScorer.Weights) :
  (∀ f1 f2 f3 f5 : Q, 0 <= LandmineScorer.weighted_score w f1 f2 f3 f5 <= 100)
  ∧ (∀ (df : DataFrame) (ti : TrendInfo) (score : Q) (summary : string),
       LandmineScorer.calculate_score w df ti = Ok (score, summary) →
       0 <= score <= 100).
Proof.
  split.
  - apply weighted_score_in_range.
  - intros df ti score summary H.
    destruct (calculate_score_inv w df ti score summary H) as (f2 & _ & ->).
    apply weighted_score_in_range.
Qed.

Lemma final_score_in_range_witness :
  LandmineScorer.calculate_score (LandmineScorer.mkWeights (-3) 7 (1 # 2) 250)
      empty_frame empty_trend = Ok (0, LandmineScorer.low_risk_summary)
  ∧ 0 <= 0 <= 100.
Proof.
  split; [reflexivity|].
  exact (proj2 (final_score_in_range (LandmineScorer.mkWeights (-3) 7 (1 # 2) 250))
           empty_frame empty_trend 0 LandmineScorer.low_risk_summary eq_refl).
Defined.

Section ScorerTotality.

Import LandmineScorer.

Lemma py_max_list_ge (x : Q) (xs : list Q) :
  x <= py_max_list x xs ∧ Forall (λ y, y <= py_max_list x xs) xs.
Proof.
  unfold py_max_list. revert x. induction xs as [|y ys IH]; intros x; cbn.
  - split; [apply Qle_refl | constructor].
  - destruct (IH (py_max x y)) as [H1 H2]. split.
    + eapply Qle_trans; [apply py_max_ge_l | exact H1].
    + constructor; [|exact H2].
      eapply Qle_trans; [apply py_max_ge_r | exact H1].
Qed.

(** With the default weights a final score above 70 needs a sub-score
    above 20, so the unbound read cannot happen. *)
Lemma default_weights_bound (f1 f2 f3 f5 : Q) :
  max_sub_score f1 f2 f3 f5 <= 20 →
  weighted_score default_weights f1 f2 f3 f5 <= 70.
Proof.
  intros Hmax.
  destruct (py_max_list_ge f1 [f2; f3; f5]) as [H1 H].
  fold (max_sub_score f1 f2 f3 f5) in H1, H.
  inversion_clear H as [|? ? H2 H']. inversion_clear H' as [|? ? H3 H''].
  inversion_clear H'' as [|? ? H5 _].
  unfold weighted_score, default_weights. cbn [f1_neg_reviews f2_keywords f3_trend f5_sentiment].
  set (x := f1 * (25 # 100) + f2 * (45 # 100) + f3 * (15 # 100) + f5 * (15 # 100)).
  assert (Hx : x <= 20) by (unfold x; lra).
  unfold py_max. case_Qltb 0 (py_min x 100); [|lra].
  eapply Qle_trans; [apply py_min_le_l | lra].
Qed.

Lemma calculate_score_default_returns (df : DataFrame) (ti : TrendInfo) (f2 : Q) :
  _calculate_f2_score df = Ok f2 →
  ∃ summary,
    calculate_score default_weights df ti
    = Ok (weighted_score default_weights (f1_of ti) f2 (f3_of ti) (_calculate_f5_score df),
          summary).
Proof.
  intros Hf2. rewrite (calculate_score_unfold _ df ti f2 Hf2). cbv zeta.
  case_Qltb 70 (weighted_score default_weights (f1_of ti) f2 (f3_of ti)
                  (_calculate_f5_score df)); [|eauto].
  case_Qltb 20 (max_sub_score (f1_of ti) f2 (f3_of ti) (_calculate_f5_score df));
    [eauto|].
  exfalso. apply default_weights_bound in E0. lra.
Qed.

(** The unbound read happens exactly when the final score is above 70
    while no sub-score is above 20. *)
Lemma calculate_score_raises_iff (w : Weights) (df : DataFrame) (ti : TrendInfo)
    (f2 : Q) :
  _calculate_f2_score df = Ok f2 →
  calculate_score w df ti = Raise (UnboundLocalError "dominant_risk_reason")
  ↔ 70 < weighted_score w (f1_of ti) f2 (f3_of ti) (_calculate_f5_score df)
    ∧ max_sub_score (f1_of ti) f2 (f3_of ti) (_calculate_f5_score df) <= 20.
Proof.
  intros Hf2. rewrite (calculate_score_unfold w df ti f2 Hf2). cbv zeta.
  case_Qltb 70 (weighted_score w (f1_of ti) f2 (f3_of ti) (_calculate_f5_score df));
    case_Qltb 20 (max_sub_score (f1_of ti) f2 (f3_of ti) (_calculate_f5_score df));
    split; try discriminate; try tauto; intros [H70 H20]; exfalso; lra.
Qed.

End ScorerTotality.

(** C1.  [calculate_score] does raise.  With every weight set to 6, one
    declared one-star review out of 16 gives F1 = 18.75 and no sub-score
    above 20, the weighted sum 112.5 is clamped to 100, and the read of
    [dominant_risk_reason] fails; the same happens through [analyze_place]
    on one review whose sentiment is 0.75, where F5 = 12.5 and the score is
    75. *)
Theorem calculate_score_unbound_dominant_reason :
  LandmineScorer.calculate_score Sample.aggressive_weights empty_frame
      Sample.one_star_in_sixteen
  = Raise (UnboundLocalError "dominant_risk_reason")
  ∧ Main.analyze_place Sample.jieba_cut (Some Sample.mild_client)
      Sample.to_datetime Sample.now Sample.engineer Sample.aggressive_weights
      "place" (Sample.place [Sample.review 5 "fine"])
    = Raise (UnboundLocalError "dominant_risk_reason").
Proof. split; vm_compute; reflexivity. Qed.

(** ** The sentiment sub-score *)

Lemma sum_Q_zero_from (xs : list Q) (acc : Q) :
  Forall (λ x, x == 0) xs → fold_left Qplus xs acc == acc.
Proof.
  intros H. revert acc. induction H as [|x xs Hx _ IH]; intros acc; cbn.
  - reflexivity.
  - rewrite IH, Hx. ring.
Qed.

Lemma mean_Q_zero (xs : list Q) : Forall (λ x, x == 0) xs → mean_Q xs == 0.
Proof.
  intros H. unfold mean_Q, sum_Q. rewrite (sum_Q_zero_from xs 0 H).
  unfold Qdiv. ring.
Qed.

Lemma f5_score_unfold (df : DataFrame) :
  df_empty df = false → has_column df "sentiment_score" = true →
  LandmineScorer._calculate_f5_score df
  = py_max 0 (py_min ((1 - mean_Q (map sentiment_score (df_rows df))) * 50) 100).
Proof.
  intros He Hc. unfold LandmineScorer._calculate_f5_score. now rewrite He, Hc.
Qed.

Lemma f5_score_neutral (df : DataFrame) :
  df_empty df = false → has_column df "sentiment_score" = true →
  Forall (λ r, sentiment_score r == 0) (df_rows df) →
  LandmineScorer._calculate_f5_score df == 50.
Proof.
  intros He Hc Hz. rewrite (f5_score_unfold df He Hc).
  rewrite mean_Q_zero.
  - reflexivity.
  - apply Forall_map. exact Hz.
Qed.

(** C10.  An uninitialized client makes every call return 0.0; and for a
    non-empty review set whose sentiment scores are all 0.0, F5 is exactly
    50, which the default weight 0.15 turns into 7.5 points. *)
Theorem f5_neutral_sentiment :
  (∀ text : str, Sentiment.get_sentiment_score None text = 0)
  ∧ (∀ df : DataFrame,
       df_empty df = false → has_column df "sentiment_score" = true →
       Forall (λ r, sentiment_score r == 0) (df_rows df) →
       LandmineScorer._calculate_f5_score df == 50
       ∧ LandmineScorer._calculate_f5_score df
         * LandmineScorer.f5_sentiment LandmineScorer.default_weights == 75 # 10).
Proof.
  split; [reflexivity|].
  intros df He Hc Hz. pose proof (f5_score_neutral df He Hc Hz) as H.
  split; [exact H|]. rewrite H. reflexivity.
Qed.

Lemma f5_neutral_sentiment_witness :
  LandmineScorer._calculate_f5_score Sample.neutral_frame == 50
  ∧ LandmineScorer._calculate_f5_score Sample.neutral_frame
    * LandmineScorer.f5_sentiment LandmineScorer.default_weights == 75 # 10.
Proof.
  apply (proj2 f5_neutral_sentiment Sample.neutral_frame).
  - reflexivity.
  - reflexivity.
  - repeat constructor.
Defined.

(** C7, as stated, fails: with the sentiment client disabled the pipeline
    still fills the sentiment column (with 0.0), and F5 of the frame it
    builds for one review is 50, not 0. *)
Lemma f5_disabled_client_not_zero :
  ∃ df trend phrases,
    FeatureEngineer.run Sample.jieba_cut None Sample.to_datetime Sample.now
        Sample.engineer (Sample.place [Sample.review 5 "fine"])
    = Ok (FeatureEngineer.Finished df trend phrases)
    ∧ LandmineScorer._calculate_f5_score df == 50
    ∧ ¬ LandmineScorer._calculate_f5_score df == 0.
Proof.
  eexists _, _, _. split; [vm_compute; reflexivity|].
  split; [reflexivity | discriminate].
Qed.

(** C7, amended.  On a non-empty frame that has the sentiment column, F5
    is [clamp(0, 100, (1 - avg_sentiment) * 50)]; F5 is 0 when the frame is
    empty or lacks the column; and when the client is disabled, so that
    every review carries the score it returns, F5 of a non-empty frame is
    50. *)
Theorem f5_score_spec (df : DataFrame) :
  (df_empty df = false → has_column df "sentiment_score" = true →
   LandmineScorer._calculate_f5_score df
   == Spec.F5 (map sentiment_score (df_rows df)))
  ∧ (df_empty df = true ∨ has_column df "sentiment_score" = false →
     LandmineScorer._calculate_f5_score df = 0)
  ∧ (df_empty df = false → has_column df "sentiment_score" = true →
     Forall (λ r, sentiment_score r = Sentiment.get_sentiment_score None (text r))
            (df_rows df) →
     LandmineScorer._calculate_f5_score df == 50).
Proof.
  split; [|split].
  - intros He Hc. rewrite (f5_score_unfold df He Hc). apply clamp_code_spec.
  - intros [He|Hc]; unfold LandmineScorer._calculate_f5_score.
    + now rewrite He.
    + rewrite Hc. now rewrite orb_true_r.
  - intros He Hc Hs. apply (f5_score_neutral df He Hc).
    eapply Forall_impl; [exact Hs|]. cbn. intros r ->. reflexivity.
Qed.

Lemma f5_score_spec_witness :
  LandmineScorer._calculate_f5_score Sample.neutral_frame
  == Spec.F5 (map sentiment_score (df_rows Sample.neutral_frame))
  ∧ LandmineScorer._calculate_f5_score empty_frame = 0
  ∧ LandmineScorer._calculate_f5_score Sample.neutral_frame == 50.
Proof.
  split; [|split].
  - apply (proj1 (f5_score_spec Sample.neutral_frame)); reflexivity.
  - apply (proj1 (proj2 (f5_score_spec empty_frame))). left. reflexivity.
  - apply (proj2 (proj2 (f5_score_spec Sample.neutral_frame)));
      [reflexivity | reflexivity | repeat constructor].
Defined.

(** ** The keyword classifier and sub-score F2 *)

(** The size of [tier ∩ set(tokens)] counts the keywords of the tier among
    the distinct tokens. *)
Lemma intersection_size_count (tier : gset str) (tokens : list str) :
  size (tier ∩ list_to_set tokens) = Spec.keyword_count tier tokens.
Proof.
  unfold Spec.keyword_count, size, set_size. cbn.
  apply Permutation_length, NoDup_Permutation.
  - apply NoDup_elements.
  - apply NoDup_filter, NoDup_remove_dups.
  - intros w. rewrite elem_of_elements, elem_of_intersection, elem_of_list_to_set.
    rewrite list_elem_of_filter, elem_of_remove_dups. reflexivity.
Qed.

(** A token that occurs again adds nothing to a count. *)
Lemma keyword_count_repeated (tier : gset str) (token : str) (tokens : list str) :
  token ∈ tokens →
  Spec.keyword_count tier (token :: tokens) = Spec.keyword_count tier tokens.
Proof.
  intros Hin. unfold Spec.keyword_count. cbn [remove_dups].
  destruct (decide_rel elem_of token tokens) as [_|Hn]; [reflexivity|].
  contradiction.
Qed.

Lemma sum_Z_from (xs : list Z) (acc : Z) :
  fold_left Z.add xs acc = (acc + sum_Z xs)%Z.
Proof.
  unfold sum_Z. revert acc. induction xs as [|x xs IH]; intros acc; cbn.
  - lia.
  - rewrite (IH (acc + x)%Z), (IH (0 + x)%Z). lia.
Qed.

(** The weighted column sums of the code are the per-review risk of the
    specification, summed. *)
Lemma risk_sum_columns (rows : list Row) :
  (sum_Z (map high_risk_keyword_count rows) * 15
   + sum_Z (map medium_risk_keyword_count rows) * 5
   + sum_Z (map low_risk_keyword_count rows) * 1)%Z
  = Spec.risk_sum rows.
Proof.
  induction rows as [|r rows IH]; [reflexivity|].
  cbn [map Spec.risk_sum fold_right]. fold (Spec.risk_sum rows). rewrite <- IH.
  unfold sum_Z. cbn [fold_left]. rewrite !sum_Z_from. lia.
Qed.

Lemma f2_score_unfold (df : DataFrame) :
  has_keyword_columns df →
  LandmineScorer._calculate_f2_score df
  = Ok (match df_rows df with
        | [] => 0
        | _ :: _ =>
            py_min (inject_Z (Spec.risk_sum (df_rows df))
                    / inject_Z (Z.of_nat (length (df_rows df))) * 100) 100
        end).
Proof.
  intros (Hh & Hm & Hl). unfold LandmineScorer._calculate_f2_score.
  destruct (df_empty df) eqn:He.
  - unfold df_empty in He. destruct (df_columns df) as [|c cs] eqn:Hcols.
    + unfold has_column in Hh. rewrite Hcols in Hh.
      apply bool_decide_eq_true in Hh. now apply elem_of_nil in Hh.
    + destruct (df_rows df); [reflexivity | discriminate].
  - destruct (df_rows df) as [|r rows] eqn:Hrows.
    + unfold df_empty in He. rewrite Hrows in He.
      destruct (df_columns df); discriminate.
    + assert (Hn : (Z.of_nat (length (r :: rows)) =? 0)%Z = false).
      { apply Z.eqb_neq. cbn [length]. lia. }
      rewrite Hn. unfold column. rewrite Hh, Hm, Hl, Hrows.
      cbn [mbind result_bind]. cbv zeta. now rewrite risk_sum_columns.
Qed.

(** C8.  The three counts of a review are the numbers of tier keywords
    among its distinct tokens, so a token that occurs again changes no
    count; F2 is [min(100, risk_sum / total_reviews * 100)] with the risk
    [high*15 + medium*5 + low*1] summed over the reviews, and 0 when there
    are no reviews. *)
Theorem keyword_counts_and_f2 :
  (∀ (jieba_cut : str → list str) (self : FeatureEngineer.t) (text : str),
     FeatureEngineer._calculate_f2_keywords_jieba jieba_cut self text
     = (Z.of_nat (Spec.keyword_count (FeatureEngineer.high_risk_set self) (jieba_cut text)),
        Z.of_nat (Spec.keyword_count (FeatureEngineer.medium_risk_set self) (jieba_cut text)),
        Z.of_nat (Spec.keyword_count (FeatureEngineer.low_risk_set self) (jieba_cut text))))
  ∧ (∀ (cut cut' : str → list str) (self : FeatureEngineer.t) (text text' token : str),
       cut' text' = token :: cut text → token ∈ cut text →
       FeatureEngineer._calculate_f2_keywords_jieba cut' self text'
       = FeatureEngineer._calculate_f2_keywords_jieba cut self text)
  ∧ (∀ df : DataFrame,
       has_keyword_columns df →
       ∃ score, LandmineScorer._calculate_f2_score df = Ok score
                ∧ score == Spec.F2 (df_rows df))
  ∧ (∀ df : DataFrame,
       df_empty df = true → LandmineScorer._calculate_f2_score df = Ok 0).
Proof.
  assert (Hcount : ∀ cut self text,
    FeatureEngineer._calculate_f2_keywords_jieba cut self text
    = (Z.of_nat (Spec.keyword_count (FeatureEngineer.high_risk_set self) (cut text)),
       Z.of_nat (Spec.keyword_count (FeatureEngineer.medium_risk_set self) (cut text)),
       Z.of_nat (Spec.keyword_count (FeatureEngineer.low_risk_set self) (cut text)))).
  { intros cut self text. unfold FeatureEngineer._calculate_f2_keywords_jieba.
    cbv zeta. now rewrite !intersection_size_count. }
  split; [exact Hcount|]. split; [|split].
  - intros cut cut' self text text' token Hcut Hin.
    rewrite !Hcount, Hcut. now rewrite !keyword_count_repeated.
  - intros df Hcols. rewrite (f2_score_unfold df Hcols).
    eexists. split; [reflexivity|].
    unfold Spec.F2. destruct (df_rows df) as [|r rows]; [reflexivity|].
    rewrite py_min_spec. apply Q.min_comm.
  - intros df He. unfold LandmineScorer._calculate_f2_score. now rewrite He.
Qed.

Lemma keyword_counts_and_f2_witness :
  FeatureEngineer._calculate_f2_keywords_jieba Sample.jieba_cut Sample.engineer
      (Sample.u "poison poison poison poison poison")
  = FeatureEngineer._calculate_f2_keywords_jieba Sample.jieba_cut Sample.engineer
      (Sample.u "poison poison poison poison")
  ∧ (∃ score, LandmineScorer._calculate_f2_score Sample.neutral_frame = Ok score
              ∧ score == Spec.F2 (df_rows Sample.neutral_frame))
  ∧ LandmineScorer._calculate_f2_score empty_frame = Ok 0.
Proof.
  destruct keyword_counts_and_f2 as (_ & Hrep & Hf2 & Hempty).
  split; [|split].
  - apply (Hrep Sample.jieba_cut Sample.jieba_cut Sample.engineer
             (Sample.u "poison poison poison poison")
             (Sample.u "poison poison poison poison poison")
             (Sample.u "poison")).
    + reflexivity.
    + vm_compute. repeat constructor.
  - apply Hf2. repeat split.
  - apply Hempty. reflexivity.
Defined.

(** ** The lexicon store *)

(** [Sample.engineer] is what the constructor builds from
    [Sample.lexicon]. *)
Lemma sample_engineer_loaded :
  FeatureEngineer.__init__ (FeatureEngineer.Document Sample.lexicon)
  = Ok Sample.engineer.
Proof. vm_compute. reflexivity. Qed.

(** C6, as stated, fails: a keywords file that is not JSON makes
    [json.load] raise, the only handler is for [FileNotFoundError], and
    the constructor raises instead of building an engineer. *)
Lemma init_malformed_raises :
  FeatureEngineer.__init__ FeatureEngineer.Malformed = Raise JSONDecodeError
  ∧ ∀ self, FeatureEngineer.__init__ FeatureEngineer.Malformed ≠ Ok self.
Proof. split; [reflexivity | discriminate]. Qed.

Lemma any_keyword_in_empty (sentence : str) :
  FeatureEngineer.any_keyword_in ∅ sentence = false.
Proof. unfold FeatureEngineer.any_keyword_in. now rewrite elements_empty. Qed.

(** C6, amended.  When the keywords file is missing, the constructor
    recovers with empty sets: every keyword count is then 0 and no phrase
    is extracted; a file that is not JSON is not recovered from, the
    decoder's exception leaves the constructor. *)
Theorem init_missing_lexicon :
  let empty_engineer := FeatureEngineer.mkEngineer ∅ ∅ ∅ ∅ ∅ in
  FeatureEngineer.__init__ FeatureEngineer.Missing = Ok empty_engineer
  ∧ (∀ (jieba_cut : str → list str) (text : str),
       FeatureEngineer._calculate_f2_keywords_jieba jieba_cut empty_engineer text
       = (0, 0, 0)%Z)
  ∧ (∀ text : str, FeatureEngineer._extract_key_phrases empty_engineer text = ([], []))
  ∧ FeatureEngineer.__init__ FeatureEngineer.Malformed = Raise JSONDecodeError.
Proof.
  cbv zeta. split; [reflexivity|]. split; [|split; [|reflexivity]].
  - intros cut text. unfold FeatureEngineer._calculate_f2_keywords_jieba.
    cbn [FeatureEngineer.high_risk_set FeatureEngineer.medium_risk_set
         FeatureEngineer.low_risk_set].
    rewrite (left_absorb_L (∅ : gset str) (∩)). now rewrite size_empty.
  - intros text. unfold FeatureEngineer._extract_key_phrases.
    induction (re_split text) as [|sentence sentences IH]; [reflexivity|].
    cbn [fold_left]. unfold FeatureEngineer.extract_step at 2.
    cbn [FeatureEngineer.all_negative_set FeatureEngineer.positive_set].
    destruct (strip sentence); [exact IH|].
    cbn [length Nat.ltb Nat.leb negb andb]. rewrite !any_keyword_in_empty.
    exact IH.
Qed.

(** ** Phrase extraction *)

(** While a review has fewer than three negative sentences, a sentence
    with a negative keyword goes to the negative list and the positive
    list is left alone. *)
Lemma negative_priority_below_quota (self : FeatureEngineer.t)
    (positive_phrases negative_phrases : list str) (sentence : str) :
  strip sentence ≠ [] → (length negative_phrases < 3)%nat →
  FeatureEngineer.any_keyword_in (FeatureEngineer.all_negative_set self)
    (strip sentence) = true →
  FeatureEngineer.extract_step self (positive_phrases, negative_phrases) sentence
  = (positive_phrases, negative_phrases ++ [strip sentence]).
Proof.
  intros Hne Hlen Hneg. unfold FeatureEngineer.extract_step.
  destruct (strip sentence) as [|c s] eqn:Hs; [contradiction|].
  apply Nat.ltb_lt in Hlen. rewrite Hlen, Hneg. reflexivity.
Qed.

(** The merged lists respect the quotas: at most two positive and at most
    three negative sentences. *)
Lemma key_phrases_quota (jieba_cut : str → list str)
    (client : option Sentiment.Client) (to_datetime : str → option Z) (now : Z)
    (self : FeatureEngineer.t) (place_info : PlaceInfo)
    (df : DataFrame) (trend : TrendInfo) (phrases : KeyPhrases) :
  FeatureEngineer.run jieba_cut client to_datetime now self place_info
  = Ok (FeatureEngineer.Finished df trend phrases) →
  (length (default [] (positive_points phrases)) ≤ 2)%nat
  ∧ (length (default [] (key_negative_keywords phrases)) ≤ 3)%nat.
Proof.
  unfold FeatureEngineer.run. cbv zeta.
  destruct (default [] (reviews place_info)) as [|r rs].
  { intros [= <- <- <-]. cbn. lia. }
  destruct (negb _); [discriminate|].
  destruct (FeatureEngineer.clean (r :: rs)) as [|c cs].
  { intros [= <- <- <-]. cbn. lia. }
  destruct (mapM _ _) as [datetimes|]; [|discriminate].
  destruct (FeatureEngineer._calculate_f3_trend _ _ _) as [[hist recent] ts].
  intros [= <- <- <-]. cbn [positive_points key_negative_keywords from_option id].
  rewrite !length_take. lia.
Qed.

(** C5.  The fourth sentence of [Sample.mixed_text] contains the negative
    keyword "bad" and the positive keyword "good"; the review already has
    three negative sentences, so the negative test is skipped and the
    sentence is added to the positive list. *)
Theorem mixed_sentence_classified_positive :
  let sentence := Sample.u "good cake but bad tea" in
  str_contains sentence (Sample.u "bad") = true
  ∧ Sample.u "bad" ∈ FeatureEngineer.all_negative_set Sample.engineer
  ∧ str_contains sentence (Sample.u "good") = true
  ∧ Sample.u "good" ∈ FeatureEngineer.positive_set Sample.engineer
  ∧ FeatureEngineer._extract_key_phrases Sample.engineer (Sample.u Sample.mixed_text)
    = ([sentence],
       [Sample.u "bad soup"; Sample.u "rude waiter"; Sample.u "poison fish"]).
Proof.
  cbv zeta. unfold Sample.engineer at 1 2.
  cbn [FeatureEngineer.all_negative_set FeatureEngineer.positive_set].
  repeat split; try set_solver; vm_compute; reflexivity.
Qed.

(** C4.  Two reviews: the first is the sentence "good cake but bad tea"
    alone, the second is [Sample.mixed_text].  The merged key phrases hold
    that sentence in the negative list (from the first review) and in the
    positive list (from the second, whose negative quota was full). *)
Theorem key_phrases_overlap :
  let sentence := Sample.u "good cake but bad tea" in
  ∃ df trend phrases,
    FeatureEngineer.run Sample.jieba_cut None Sample.to_datetime Sample.now
        Sample.engineer
        (Sample.place [Sample.review 4 "good cake but bad tea";
                       Sample.review 2 Sample.mixed_text])
    = Ok (FeatureEngineer.Finished df trend phrases)
    ∧ positive_points phrases = Some [sentence]
    ∧ key_negative_keywords phrases
      = Some [sentence; Sample.u "bad soup"; Sample.u "rude waiter"].
Proof.
  cbv zeta. eexists _, _, _. split; [vm_compute; reflexivity|].
  split; reflexivity.
Qed.

(** ** The review normalizer *)

Section RunFacts.

Variable jieba_cut : str → list str.
Variable text_analytics_client : option Sentiment.Client.
Variable to_datetime : str → option Z.
Variable now : Z.
Variable self : FeatureEngineer.t.

Local Abbreviation run :=
  (FeatureEngineer.run jieba_cut text_analytics_client to_datetime now self).
Local Abbreviation make_row :=
  (FeatureEngineer.make_row jieba_cut text_analytics_client self).

Lemma cells_of_make_row (cells : Z * str * str) (datetime : Z) :
  cells_of (make_row cells datetime) = cells.
Proof. destruct cells as [[rating text] datetime_str]. reflexivity. Qed.

Lemma cells_of_rows (cleaned : list (Z * str * str)) (datetimes : list Z) :
  length cleaned = length datetimes →
  map cells_of (zip_with make_row cleaned datetimes) = cleaned.
Proof.
  revert datetimes. induction cleaned as [|c cs IH]; intros [|d ds] Hlen;
    try discriminate; [reflexivity|].
  cbn [zip_with map]. rewrite cells_of_make_row, IH; [reflexivity|].
  cbn in Hlen. lia.
Qed.

Lemma column_absent {A : Type} (get : RawReview → Field A) (batch : list RawReview) :
  Forall (λ r, get r = Absent) batch → existsb (λ r, has_key (get r)) batch = false.
Proof.
  induction 1 as [|r rs Hr _ IH]; [reflexivity|].
  cbn [existsb]. now rewrite Hr, IH.
Qed.

Lemma column_present {A : Type} (get : RawReview → Field A) (batch : list RawReview) :
  Exists (λ r, get r ≠ Absent) batch → existsb (λ r, has_key (get r)) batch = true.
Proof.
  induction 1 as [r rs Hr|r rs _ IH]; cbn [existsb].
  - destruct (get r); [contradiction | reflexivity | reflexivity].
  - rewrite IH. apply orb_true_r.
Qed.

(** The outcome of [run] on a non-empty batch that has the three columns
    and whose dates parse. *)
Lemma run_finished (place_info : PlaceInfo) (r : RawReview) (rs : list RawReview) :
  reviews place_info = Some (r :: rs) →
  FeatureEngineer.has_required_columns (r :: rs) = true →
  Forall (λ cells, is_Some (to_datetime (cells.2))) (FeatureEngineer.clean (r :: rs)) →
  ∃ df trend phrases,
    run place_info = Ok (FeatureEngineer.Finished df trend phrases)
    ∧ map cells_of (df_rows df) = FeatureEngineer.clean (r :: rs)
    ∧ (FeatureEngineer.clean (r :: rs) ≠ [] →
       df_columns df = FeatureEngineer.final_columns
       ∧ (∃ datetimes,
            df_rows df = zip_with make_row (FeatureEngineer.clean (r :: rs)) datetimes
            ∧ length datetimes = length (FeatureEngineer.clean (r :: rs)))
       ∧ trend_score trend
         = Some (FeatureEngineer._calculate_f3_trend now (df_rows df) place_info).2
       ∧ total_reviews trend = Some (default 0%Z (reviewsCount place_info))
       ∧ reviews_distribution trend
         = Some (default ∅ (reviewsDistribution place_info))).
Proof.
  intros Hrev Hcols Hdates. unfold FeatureEngineer.run.
  rewrite Hrev. cbn [from_option id]. rewrite Hcols. cbn [negb].
  cbv zeta. destruct (FeatureEngineer.clean (r :: rs)) as [|c cs] eqn:Hclean.
  - exists empty_frame, empty_trend, empty_phrases.
    split; [reflexivity|]. split; [reflexivity|]. intros H. now contradiction H.
  - apply mapM_is_Some in Hdates. destruct Hdates as [datetimes Hd].
    rewrite Hd. pose proof (length_mapM _ _ _ Hd) as Hlen.
    destruct (FeatureEngineer._calculate_f3_trend now
                (zip_with make_row (c :: cs) datetimes) place_info)
      as [[hist recent] trend] eqn:Htrend.
    eexists _, _, _. split; [reflexivity|].
    cbn [df_rows df_columns trend_score total_reviews reviews_distribution].
    split; [now apply cells_of_rows|]. intros _.
    split; [reflexivity|]. split; [eauto|].
    rewrite Htrend. repeat split.
Qed.

End RunFacts.

Lemma dropna_Some (review : RawReview) (cells : Z * str * str) :
  FeatureEngineer.dropna review = Some cells
  ↔ stars review = Val (cells.1.1) ∧ raw_text review = Val (cells.1.2)
    ∧ publishedAtDate review = Val (cells.2).
Proof.
  destruct cells as [[rating text] datetime_str]. unfold FeatureEngineer.dropna. cbn.
  destruct (stars review), (raw_text review), (publishedAtDate review);
    split; try discriminate; try (intros (? & ? & ?); discriminate).
  - intros [= -> -> ->]. easy.
  - intros ([= ->] & [= ->] & [= ->]). reflexivity.
Qed.

(** The rows that survive cleaning belong to the reviews that have the
    three values and a text that is not blank. *)
Lemma elem_of_clean (batch : list RawReview) (cells : Z * str * str) :
  cells ∈ FeatureEngineer.clean batch
  ↔ ∃ review, review ∈ batch
      ∧ stars review = Val (cells.1.1) ∧ raw_text review = Val (cells.1.2)
      ∧ publishedAtDate review = Val (cells.2) ∧ strip (cells.1.2) ≠ [].
Proof.
  unfold FeatureEngineer.clean. rewrite list_elem_of_filter, list_elem_of_omap.
  split.
  - intros (Hs & review & Hin & Hd). apply dropna_Some in Hd.
    exists review. tauto.
  - intros (review & Hin & H1 & H2 & H3 & Hs). split; [exact Hs|].
    exists review. split; [exact Hin|]. apply dropna_Some. tauto.
Qed.

(** C2, as stated, fails: of twenty raw reviews the last has no [text];
    the pipeline drops that one, analyses the other nineteen and answers
    with a report. *)
Lemma missing_text_gives_partial_result :
  (∃ df trend phrases,
     FeatureEngineer.run Sample.jieba_cut None Sample.to_datetime Sample.now
         Sample.engineer (Sample.place Sample.twenty_reviews)
     = Ok (FeatureEngineer.Finished df trend phrases)
     ∧ length (df_rows df) = 19%nat)
  ∧ (∃ response,
       Main.analyze_place Sample.jieba_cut None Sample.to_datetime Sample.now
           Sample.engineer LandmineScorer.default_weights "place"
           (Sample.place Sample.twenty_reviews)
       = Ok response).
Proof.
  split.
  - eexists _, _, _. split; [vm_compute; reflexivity | reflexivity].
  - eexists. vm_compute. reflexivity.
Qed.

(** C2, amended.  A non-empty batch is rejected as a whole only when one
    of the three keys occurs in none of its reviews: [run] then returns
    [None, None, None] and [analyze_place] raises HTTP 500 with a fixed
    detail.  Otherwise, when the dates of the kept rows parse, [run]
    finishes with one row for each review that has the three values and a
    text that is not blank, in order; the other reviews are dropped. *)
Theorem run_missing_fields
    (jieba_cut : str → list str) (client : option Sentiment.Client)
    (to_datetime : str → option Z) (now : Z) (self : FeatureEngineer.t)
    (scorer : LandmineScorer.Weights) (place_id : string)
    (place_info : PlaceInfo) (r : RawReview) (rs : list RawReview) :
  reviews place_info = Some (r :: rs) →
  (Forall (λ x, stars x = Absent) (r :: rs)
   ∨ Forall (λ x, raw_text x = Absent) (r :: rs)
   ∨ Forall (λ x, publishedAtDate x = Absent) (r :: rs) →
   FeatureEngineer.run jieba_cut client to_datetime now self place_info
   = Ok FeatureEngineer.Failed
   ∧ Main.analyze_place jieba_cut client to_datetime now self scorer place_id place_info
     = Raise (HTTPException 500 "特徵工程執行失敗。"))
  ∧ (Exists (λ x, stars x ≠ Absent) (r :: rs) →
     Exists (λ x, raw_text x ≠ Absent) (r :: rs) →
     Exists (λ x, publishedAtDate x ≠ Absent) (r :: rs) →
     Forall (λ cells, is_Some (to_datetime (cells.2))) (FeatureEngineer.clean (r :: rs)) →
     ∃ df trend phrases,
       FeatureEngineer.run jieba_cut client to_datetime now self place_info
       = Ok (FeatureEngineer.Finished df trend phrases)
       ∧ map cells_of (df_rows df) = FeatureEngineer.clean (r :: rs)
       ∧ ∀ cells, cells ∈ map cells_of (df_rows df)
           ↔ ∃ review, review ∈ r :: rs
               ∧ stars review = Val (cells.1.1) ∧ raw_text review = Val (cells.1.2)
               ∧ publishedAtDate review = Val (cells.2) ∧ strip (cells.1.2) ≠ []).
Proof.
  intros Hrev. split.
  - intros Habsent.
    assert (Hcols : FeatureEngineer.has_required_columns (r :: rs) = false).
    { unfold FeatureEngineer.has_required_columns.
      destruct Habsent as [H|[H|H]]; apply column_absent in H; rewrite H.
      - reflexivity.
      - now rewrite andb_false_r.
      - now rewrite andb_false_r. }
    assert (Hrun : FeatureEngineer.run jieba_cut client to_datetime now self place_info
                   = Ok FeatureEngineer.Failed).
    { unfold FeatureEngineer.run. rewrite Hrev. cbn [from_option id].
      now rewrite Hcols. }
    split; [exact Hrun|]. unfold Main.analyze_place. now rewrite Hrun.
  - intros H1 H2 H3 Hdates.
    assert (Hcols : FeatureEngineer.has_required_columns (r :: rs) = true).
    { unfold FeatureEngineer.has_required_columns.
      now rewrite (column_present _ _ H1), (column_present _ _ H2),
        (column_present _ _ H3). }
    destruct (run_finished jieba_cut client to_datetime now self place_info r rs
                Hrev Hcols Hdates) as (df & trend & phrases & Hrun & Hrows & _).
    exists df, trend, phrases. split; [exact Hrun|]. split; [exact Hrows|].
    intros cells. rewrite Hrows. apply elem_of_clean.
Qed.

Lemma run_missing_fields_witness :
  (FeatureEngineer.run Sample.jieba_cut None Sample.to_datetime Sample.now
       Sample.engineer (Sample.place [Sample.review_without_text])
   = Ok FeatureEngineer.Failed
   ∧ Main.analyze_place Sample.jieba_cut None Sample.to_datetime Sample.now
       Sample.engineer LandmineScorer.default_weights "place"
       (Sample.place [Sample.review_without_text])
     = Raise (HTTPException 500 "特徵工程執行失敗。"))
  ∧ (∃ df trend phrases,
       FeatureEngineer.run Sample.jieba_cut None Sample.to_datetime Sample.now
           Sample.engineer (Sample.place Sample.twenty_reviews)
       = Ok (FeatureEngineer.Finished df trend phrases)
       ∧ map cells_of (df_rows df) = FeatureEngineer.clean Sample.twenty_reviews
       ∧ ∀ cells, cells ∈ map cells_of (df_rows df)
           ↔ ∃ review, review ∈ Sample.twenty_reviews
               ∧ stars review = Val (cells.1.1) ∧ raw_text review = Val (cells.1.2)
               ∧ publishedAtDate review = Val (cells.2) ∧ strip (cells.1.2) ≠ []).
Proof.
  split.
  - apply (proj1 (run_missing_fields Sample.jieba_cut None Sample.to_datetime
                    Sample.now Sample.engineer LandmineScorer.default_weights "place"
                    (Sample.place [Sample.review_without_text])
                    Sample.review_without_text [] eq_refl)).
    right; left. repeat constructor.
  - apply (proj2 (run_missing_fields Sample.jieba_cut None Sample.to_datetime
                    Sample.now Sample.engineer LandmineScorer.default_weights "place"
                    (Sample.place Sample.twenty_reviews)
                    (Sample.review 5 "fine")
                    (repeat (Sample.review 5 "fine") 18 ++ [Sample.review_without_text])
                    eq_refl)).
    + left. discriminate.
    + left. discriminate.
    + left. discriminate.
    + vm_compute. repeat constructor; eexists; reflexivity.
Defined.

(** ** Scenario: only the sentiment sub-score is non-zero *)

Lemma inject_Z_length_pos {A : Type} (x : A) (xs : list A) :
  0 < inject_Z (Z.of_nat (length (x :: xs))).
Proof.
  replace 0 with (inject_Z 0) by reflexivity. rewrite <- Zlt_Qlt.
  cbn [length]. lia.
Qed.

Lemma sum_Q_const_from (c : Q) (xs : list Q) (acc : Q) :
  Forall (λ x, x == c) xs →
  fold_left Qplus xs acc == acc + c * inject_Z (Z.of_nat (length xs)).
Proof.
  intros H. revert acc. induction H as [|x xs Hx _ IH]; intros acc.
  - cbn. ring.
  - cbn [fold_left length]. rewrite IH, Hx, Nat2Z.inj_succ.
    unfold Z.succ. rewrite inject_Z_plus. ring.
Qed.

(** The mean of a non-empty column of equal values is that value. *)
Lemma mean_Q_const (c : Q) (xs : list Q) :
  xs ≠ [] → Forall (λ x, x == c) xs → mean_Q xs == c.
Proof.
  intros Hne H. destruct xs as [|x xs]; [contradiction|].
  unfold mean_Q, sum_Q. rewrite (sum_Q_const_from c _ 0 H).
  pose proof (inject_Z_length_pos x xs) as Hpos.
  field. intros Hz. rewrite Hz in Hpos. now apply Qlt_irrefl in Hpos.
Qed.

#[global] Instance round_half_even_proper : Proper (Qeq ==> eq) round_half_even.
Proof.
  intros x y Hxy. unfold round_half_even.
  rewrite (Qfloor_comp x y Hxy).
  assert (Hc : Qcompare (x - inject_Z (Qfloor y)) (1 # 2)
               = Qcompare (y - inject_Z (Qfloor y)) (1 # 2)).
  { apply Qcompare_comp; [now rewrite Hxy | reflexivity]. }
  now rewrite Hc.
Qed.

#[global] Instance py_round_proper : Proper (Qeq ==> eq ==> eq) py_round.
Proof.
  intros x y Hxy n ? <-. unfold py_round. cbv zeta.
  assert (H : round_half_even (x * inject_Z (10 ^ Z.of_nat n))
              = round_half_even (y * inject_Z (10 ^ Z.of_nat n))).
  { apply round_half_even_proper. now rewrite Hxy. }
  now rewrite H.
Qed.

Lemma round_half_even_nonpos (x : Q) : x <= 0 → (round_half_even x <= 0)%Z.
Proof.
  intros Hx. unfold round_half_even.
  pose proof (Qfloor_le x) as Hfloor.
  assert (Hf : (Qfloor x <= 0)%Z).
  { rewrite Zle_Qle. apply Qle_trans with x; assumption. }
  assert (Hstep : 1 # 2 <= x - inject_Z (Qfloor x) → (Qfloor x + 1 <= 0)%Z).
  { intros Hhalf. destruct (Z.eq_dec (Qfloor x) 0%Z) as [E|E]; [|lia].
    rewrite E in Hhalf. exfalso. change (inject_Z 0) with 0 in Hhalf. lra. }
  destruct (Qcompare (x - inject_Z (Qfloor x)) (1 # 2)) eqn:Hcmp.
  - apply Qeq_alt in Hcmp. destruct (Z.even (Qfloor x)); [exact Hf|].
    apply Hstep. rewrite Hcmp. apply Qle_refl.
  - exact Hf.
  - apply Qgt_alt in Hcmp. apply Hstep. now apply Qlt_le_weak.
Qed.

Lemma py_round_nonpos (x : Q) (n : nat) : x <= 0 → py_round x n <= 0.
Proof.
  intros Hx. unfold py_round. cbv zeta.
  set (scale := inject_Z (10 ^ Z.of_nat n)).
  assert (Hscale : 0 < scale).
  { unfold scale. replace 0 with (inject_Z 0) by reflexivity.
    rewrite <- Zlt_Qlt. apply Z.pow_pos_nonneg; lia. }
  assert (Hr : inject_Z (round_half_even (x * scale)) <= 0).
  { replace 0 with (inject_Z 0) by reflexivity. rewrite <- Zle_Qle.
    apply round_half_even_nonpos.
    apply Qmult_le_compat_r with (z := scale) in Hx; [|now apply Qlt_le_weak].
    now rewrite Qmult_0_l in Hx. }
  apply Qle_shift_div_r; [exact Hscale|].
  now rewrite Qmult_0_l.
Qed.

Lemma f1_score_no_low_stars (dist : gmap string Z) (total : Z) :
  default 0%Z (dist !! "oneStar"%string) = 0%Z →
  default 0%Z (dist !! "twoStar"%string) = 0%Z →
  LandmineScorer._calculate_f1_score dist total == 0.
Proof.
  intros H1 H2. unfold LandmineScorer._calculate_f1_score.
  destruct (total =? 0)%Z; [reflexivity|]. cbv zeta. rewrite H1, H2.
  assert (Hs : (inject_Z 0 * (15 # 10) + inject_Z 0) / inject_Z total * 200 == 0).
  { unfold Qdiv. change (inject_Z 0) with 0. ring. }
  rewrite Hs. reflexivity.
Qed.

Lemma f3_score_no_decline (trend : Q) :
  trend <= 0 → LandmineScorer._calculate_f3_score trend == 0.
Proof.
  intros H. unfold LandmineScorer._calculate_f3_score. cbv zeta.
  unfold py_max at 1. apply Qltb_ge in H. rewrite H. reflexivity.
Qed.

Lemma risk_sum_no_keywords (rows : list Row) :
  Forall (λ r, high_risk_keyword_count r = 0%Z ∧ medium_risk_keyword_count r = 0%Z
               ∧ low_risk_keyword_count r = 0%Z) rows →
  Spec.risk_sum rows = 0%Z.
Proof.
  induction 1 as [|r rows (Hh & Hm & Hl) _ IH]; [reflexivity|].
  cbn [Spec.risk_sum fold_right]. fold (Spec.risk_sum rows).
  rewrite Hh, Hm, Hl, IH. reflexivity.
Qed.

Lemma f2_score_no_keywords (df : DataFrame) :
  has_keyword_columns df →
  Forall (λ r, high_risk_keyword_count r = 0%Z ∧ medium_risk_keyword_count r = 0%Z
               ∧ low_risk_keyword_count r = 0%Z) (df_rows df) →
  ∃ f2, LandmineScorer._calculate_f2_score df = Ok f2 ∧ f2 == 0.
Proof.
  intros Hcols Hzero. rewrite (f2_score_unfold df Hcols).
  eexists. split; [reflexivity|].
  destruct (df_rows df) as [|r rows] eqn:Hrows; [reflexivity|].
  rewrite (risk_sum_no_keywords _ Hzero).
  assert (Hs : inject_Z 0 / inject_Z (Z.of_nat (length (r :: rows))) * 100 == 0).
  { unfold Qdiv. change (inject_Z 0) with 0. ring. }
  rewrite Hs. reflexivity.
Qed.

(** With F1, F2 and F3 at 0 and F5 at 50, the default weights give 7.5 and
    the summary names the sentiment. *)
Lemma calculate_score_only_sentiment (df : DataFrame) (ti : TrendInfo) (f2 : Q) :
  LandmineScorer._calculate_f2_score df = Ok f2 →
  LandmineScorer.f1_of ti == 0 → f2 == 0 → LandmineScorer.f3_of ti == 0 →
  LandmineScorer._calculate_f5_score df == 50 →
  ∃ score,
    LandmineScorer.calculate_score LandmineScorer.default_weights df ti
    = Ok (score, LandmineScorer.specific_summary LandmineScorer.reason_f5)
    ∧ score == 75 # 10.
Proof.
  intros Hf2 H1 H2 H3 H5.
  rewrite (calculate_score_unfold _ df ti f2 Hf2). cbv zeta.
  set (f1 := LandmineScorer.f1_of ti) in *.
  set (f3 := LandmineScorer.f3_of ti) in *.
  set (f5 := LandmineScorer._calculate_f5_score df) in *.
  assert (Hw : LandmineScorer.weighted_score LandmineScorer.default_weights f1 f2 f3 f5
               == 75 # 10).
  { unfold LandmineScorer.weighted_score. cbv zeta.
    rewrite H1, H2, H3, H5. reflexivity. }
  assert (H70 : Qltb 70 (LandmineScorer.weighted_score LandmineScorer.default_weights
                           f1 f2 f3 f5) = false) by (rewrite Hw; reflexivity).
  assert (H20 : Qltb 20 (LandmineScorer.max_sub_score f1 f2 f3 f5) = true).
  { unfold LandmineScorer.max_sub_score, py_max_list. cbn [fold_left].
    rewrite H1, H2, H3, H5. reflexivity. }
  assert (Hdom : LandmineScorer.dominant_reason f1 f2 f3 f5 = LandmineScorer.reason_f5).
  { unfold LandmineScorer.dominant_reason, py_argmax. cbn [fold_left snd].
    assert (E12 : Qltb f1 f2 = false) by (rewrite H1, H2; reflexivity).
    assert (E13 : Qltb f1 f3 = false) by (rewrite H1, H3; reflexivity).
    assert (E15 : Qltb f1 f5 = true) by (rewrite H1, H5; reflexivity).
    rewrite E12. cbn [snd]. rewrite E13. cbn [snd]. rewrite E15. reflexivity. }
  rewrite H70, H20, Hdom. eexists. split; [reflexivity | exact Hw].
Qed.

Lemma trend_score_five_stars (now : Z) (rows : list Row) (place_info : PlaceInfo) :
  rows ≠ [] → Forall (λ r, rating r = 5%Z) rows →
  (totalScore place_info = None
   ∨ ∃ q, totalScore place_info = Some q ∧ q <= 5) →
  (FeatureEngineer._calculate_f3_trend now rows place_info).2 <= 0.
Proof.
  intros Hne Hfive Htotal. unfold FeatureEngineer._calculate_f3_trend. cbv zeta.
  assert (Hmean : ∀ l : list Row, l ≠ [] → Forall (λ r, rating r = 5%Z) l →
                  mean_Q (map (λ r, inject_Z (rating r)) l) == 5).
  { intros l Hl H. apply mean_Q_const.
    - destruct l; [contradiction | discriminate].
    - apply Forall_map. eapply Forall_impl; [exact H|]. cbn. intros r ->. reflexivity. }
  set (hist := default _ (totalScore place_info)).
  assert (Hhist : hist <= 5).
  { unfold hist. destruct Htotal as [->|(q & -> & Hq)]; cbn [from_option id].
    - rewrite (Hmean rows Hne Hfive). apply Qle_refl.
    - exact Hq. }
  set (recent := filter _ rows).
  destruct (5 <? length recent)%nat eqn:Hlen; cbn [snd].
  - apply py_round_nonpos.
    assert (Hr : mean_Q (map (λ r, inject_Z (rating r)) recent) == 5).
    { apply Hmean.
      - apply Nat.ltb_lt in Hlen. destruct recent; [cbn in Hlen; lia | discriminate].
      - apply Forall_forall. intros r Hr. unfold recent in Hr.
        apply list_elem_of_filter in Hr. destruct Hr as [_ Hr].
        rewrite Forall_forall in Hfive. now apply Hfive. }
    rewrite Hr. lra.
  - apply py_round_nonpos. apply Qle_refl.
Qed.

Section RowFacts.

Variable jieba_cut : str → list str.
Variable client : option Sentiment.Client.
Variable self : FeatureEngineer.t.

Local Abbreviation make_row := (FeatureEngineer.make_row jieba_cut client self).

Lemma make_row_fields (cells : Z * str * str) (datetime : Z) :
  rating (make_row cells datetime) = cells.1.1
  ∧ (high_risk_keyword_count (make_row cells datetime),
     medium_risk_keyword_count (make_row cells datetime),
     low_risk_keyword_count (make_row cells datetime))
    = FeatureEngineer._calculate_f2_keywords_jieba jieba_cut self (cells.1.2)
  ∧ sentiment_score (make_row cells datetime)
    = Sentiment.get_sentiment_score client (cells.1.2).
Proof. destruct cells as [[rating text] datetime_str]. repeat split. Qed.

Lemma Forall_make_rows (P : Row → Prop) (cleaned : list (Z * str * str))
    (datetimes : list Z) :
  Forall (λ cells, ∀ datetime, P (make_row cells datetime)) cleaned →
  Forall P (zip_with make_row cleaned datetimes).
Proof.
  intros H. revert datetimes. induction H as [|c cs Hc _ IH]; intros [|d ds];
    cbn [zip_with]; constructor; [apply Hc | apply IH].
Qed.

End RowFacts.

(** C3, as stated, fails: ten reviews rated 5, without keyword matches
    and with sentiment 0, score 7.5 and not 0, and the summary names the
    sentiment instead of saying that the risk is low. *)
Lemma ten_five_star_reviews_score :
  ∃ response,
    Main.analyze_place Sample.jieba_cut None Sample.to_datetime Sample.now
        Sample.engineer LandmineScorer.default_weights "place"
        (Sample.place Sample.ten_reviews)
    = Ok response
    ∧ Main.landmine_score response == 75 # 10
    ∧ ¬ Main.landmine_score response == 0
    ∧ Main.summary response = LandmineScorer.specific_summary LandmineScorer.reason_f5
    ∧ Main.summary response ≠ LandmineScorer.low_risk_summary.
Proof.
  eexists. split; [vm_compute; reflexivity|].
  repeat split; try reflexivity; discriminate.
Qed.

(** C3, amended.  For a non-empty batch (ten reviews, say) of reviews
    rated 5 that match no lexicon keyword and have sentiment 0, with no
    declared one- or two-star reviews and a declared rating, if any, of at
    most 5, the pipeline returns the score 7.5, the low risk tier, and the
    summary that names the overall sentiment as the main risk. *)
Theorem scenario_A_score
    (jieba_cut : str → list str) (client : option Sentiment.Client)
    (to_datetime : str → option Z) (now : Z) (self : FeatureEngineer.t)
    (place_id : string) (place_info : PlaceInfo) (batch : list RawReview) :
  reviews place_info = Some batch → batch ≠ [] →
  Forall (Spec.scenario_A_review jieba_cut client to_datetime self) batch →
  Spec.no_low_stars place_info →
  (totalScore place_info = None ∨ ∃ q, totalScore place_info = Some q ∧ q <= 5) →
  ∃ response,
    Main.analyze_place jieba_cut client to_datetime now self
        LandmineScorer.default_weights place_id place_info
    = Ok response
    ∧ Main.landmine_score response == 75 # 10
    ∧ Main.risk_level response = Main.low_risk_level
    ∧ Main.summary response = LandmineScorer.specific_summary LandmineScorer.reason_f5.
Proof.
  intros Hrev Hne Hall [Hone Htwo] Htotal.
  destruct batch as [|r rs]; [contradiction|].
  rewrite Forall_forall in Hall.
  (* every cleaned row comes from a review of the scenario *)
  assert (Hclean : ∀ cells, cells ∈ FeatureEngineer.clean (r :: rs) →
            cells.1.1 = 5%Z ∧ is_Some (to_datetime (cells.2))
            ∧ FeatureEngineer._calculate_f2_keywords_jieba jieba_cut self (cells.1.2)
              = (0, 0, 0)%Z
            ∧ Sentiment.get_sentiment_score client (cells.1.2) == 0).
  { intros cells Hin. apply elem_of_clean in Hin.
    destruct Hin as (x & Hx & Hs & Ht & Hd & _).
    destruct (Hall x Hx) as (t & d & -> & _ & Hdate & Hkw & Hsent).
    cbn in Hs, Ht, Hd. injection Hs as <-. injection Ht as <-. injection Hd as <-.
    tauto. }
  assert (Hnonempty : FeatureEngineer.clean (r :: rs) ≠ []).
  { destruct (Hall r) as (t & d & Hr & Hstrip & _); [left|].
    assert (Hin : (5%Z, t, d) ∈ FeatureEngineer.clean (r :: rs)).
    { apply elem_of_clean. exists r. rewrite Hr. cbn. repeat split; [left | exact Hstrip]. }
    intros E. rewrite E in Hin. now apply elem_of_nil in Hin. }
  assert (Hcols : FeatureEngineer.has_required_columns (r :: rs) = true).
  { destruct (Hall r) as (t & d & -> & _); [left|]. reflexivity. }
  assert (Hdates : Forall (λ cells, is_Some (to_datetime (cells.2)))
                          (FeatureEngineer.clean (r :: rs))).
  { apply Forall_forall. intros cells Hin. now apply Hclean. }
  destruct (run_finished jieba_cut client to_datetime now self place_info r rs
              Hrev Hcols Hdates)
    as (df & trend & phrases & Hrun & Hcells & Hshape).
  destruct (Hshape Hnonempty)
    as (Hcolumns & (datetimes & Hrows & Hlen) & Htrend & Htot & Hdist).
  (* the rows *)
  assert (Hrowsne : df_rows df ≠ []).
  { intros E. rewrite E in Hcells. cbn in Hcells. now apply Hnonempty. }
  assert (Hprops : Forall (λ row, rating row = 5%Z
                     ∧ (high_risk_keyword_count row = 0%Z
                        ∧ medium_risk_keyword_count row = 0%Z
                        ∧ low_risk_keyword_count row = 0%Z)
                     ∧ sentiment_score row == 0) (df_rows df)).
  { rewrite Hrows. apply Forall_make_rows. apply Forall_forall.
    intros cells Hin datetime.
    destruct (Hclean cells Hin) as (H5 & _ & Hkw & Hsent).
    destruct (make_row_fields jieba_cut client self cells datetime)
      as (Hrating & Hcounts & Hscore).
    rewrite Hkw in Hcounts. injection Hcounts as -> -> ->.
    rewrite Hrating, Hscore. tauto. }
  (* the four sub-scores *)
  assert (Hkwcols : has_keyword_columns df).
  { unfold has_keyword_columns, has_column. rewrite Hcolumns. repeat split. }
  destruct (f2_score_no_keywords df Hkwcols) as (f2 & Hf2 & Hf2zero).
  { eapply Forall_impl; [exact Hprops|]. cbn. tauto. }
  assert (Hf1 : LandmineScorer.f1_of trend == 0).
  { unfold LandmineScorer.f1_of. rewrite Htot, Hdist. cbn [from_option id].
    now apply f1_score_no_low_stars. }
  assert (Hf3 : LandmineScorer.f3_of trend == 0).
  { unfold LandmineScorer.f3_of. rewrite Htrend. cbn [from_option id].
    apply f3_score_no_decline. apply trend_score_five_stars; [exact Hrowsne| |exact Htotal].
    eapply Forall_impl; [exact Hprops|]. cbn. tauto. }
  assert (Hf5 : LandmineScorer._calculate_f5_score df == 50).
  { apply f5_score_neutral.
    - unfold df_empty. rewrite Hcolumns. destruct (df_rows df); [contradiction|reflexivity].
    - unfold has_column. rewrite Hcolumns. reflexivity.
    - eapply Forall_impl; [exact Hprops|]. cbn. tauto. }
  destruct (calculate_score_only_sentiment df trend f2 Hf2 Hf1 Hf2zero Hf3 Hf5)
    as (score & Hscore & Hvalue).
  unfold Main.analyze_place. rewrite Hrun. cbn [mbind result_bind].
  rewrite Hscore. cbn [mbind result_bind].
  assert (H70 : Qltb 70 score = false) by (rewrite Hvalue; reflexivity).
  assert (H40 : Qltb 40 score = false) by (rewrite Hvalue; reflexivity).
  rewrite H70, H40. eexists. split; [reflexivity|].
  cbn [Main.landmine_score Main.risk_level Main.summary].
  split; [|split; reflexivity].
  rewrite (py_round_proper score (75 # 10) Hvalue 2%nat 2%nat eq_refl). reflexivity.
Qed.

Lemma scenario_A_score_witness :
  ∃ response,
    Main.analyze_place Sample.jieba_cut None Sample.to_datetime Sample.now
        Sample.engineer LandmineScorer.default_weights "place"
        (Sample.place Sample.ten_reviews)
    = Ok response
    ∧ Main.landmine_score response == 75 # 10
    ∧ Main.risk_level response = Main.low_risk_level
    ∧ Main.summary response = LandmineScorer.specific_summary LandmineScorer.reason_f5.
Proof.
  apply (scenario_A_score Sample.jieba_cut None Sample.to_datetime Sample.now
           Sample.engineer "place" (Sample.place Sample.ten_reviews)
           Sample.ten_reviews).
  - reflexivity.
  - discriminate.
  - assert (H : Spec.scenario_A_review Sample.jieba_cut None Sample.to_datetime
                   Sample.engineer (Sample.review 5 "fine")).
    { exists (Sample.u "fine"), (Sample.u "2025-01-01T00:00:00.000Z").
      split; [reflexivity|]. split; [discriminate|].
      split; [eexists; reflexivity|]. split; [vm_compute; reflexivity | reflexivity]. }
    unfold Sample.ten_reviews. cbn [repeat].
    repeat (constructor; [exact H|]). constructor.
  - split; reflexivity.
  - right. exists 5. split; [reflexivity | apply Qle_refl].
Defined.

(** ** The sample inputs on IEEE doubles *)

Section Binary64Checks.

Import SpecFloat Binary64.

(** The sample inputs of C1 give the same values on IEEE doubles: 18.75
    and a clamped 100 for the direct call, 12.5 and 75 for the pipeline. *)
Example unbound_dominant_reason_binary64 :
  let six := of_Z 6 in
  let zero := of_Z 0 in
  let f1 := f1_score 1 0 16 in
  let f5 := f5_score (lit 75 100) in
  f1 = lit 1875 100
  ∧ SFltb (of_Z 20) f1 = false
  ∧ SFltb (of_Z 70) (final_score six six six six f1 zero zero zero) = true
  ∧ f5 = lit 125 10
  ∧ SFltb (of_Z 20) f5 = false
  ∧ final_score six six six six zero zero zero f5 = of_Z 75.
Proof. vm_compute. repeat split. Qed.

(** On IEEE doubles too, neutral sentiment gives F5 = 50 and the final
    score 7.5 under the default weights. *)
Example neutral_sentiment_binary64 :
  let zero := of_Z 0 in
  f5_score zero = of_Z 50
  ∧ default_final_score zero zero zero (f5_score zero) = lit 75 10
  ∧ SFltb (of_Z 20) (f5_score zero) = true.
Proof. vm_compute. repeat split. Qed.

End Binary64Checks.

(** * Further properties of the code *)

(** * Further properties of the code *)

(** ** The sub-scores *)

Lemma py_min_100_saturated (x : Q) : py_min x 100 == 100 ↔ 100 <= x.
Proof.
  unfold py_min. case_Qltb 100 x.
  - split; [intros _; now apply Qlt_le_weak | reflexivity].
  - split; [intros ->; apply Qle_refl | intros H; now apply Qle_antisym].
Qed.

Lemma scaled_ratio_saturated (a t k : Q) :
  0 < t → 0 < k → (100 <= a / t * k ↔ 100 * t <= a * k).
Proof.
  intros Ht Hk.
  assert (Hne : ¬ t == 0) by (intros E; rewrite E in Ht; now apply Qlt_irrefl in Ht).
  assert (E : a / t * k == a * k / t) by (field; exact Hne).
  rewrite E. split.
  - intros H. apply Qmult_le_compat_r with (z := t) in H; [|now apply Qlt_le_weak].
    assert (E2 : a * k / t * t == a * k) by (field; exact Hne).
    now rewrite E2 in H.
  - intros H. apply Qle_shift_div_l; assumption.
Qed.

Lemma scaled_ratio_nonneg (a t k : Q) :
  0 < t → 0 <= k → 0 <= a → 0 <= a / t * k.
Proof.
  intros Ht Hk Ha. apply Qmult_le_0_compat; [|exact Hk].
  apply Qle_shift_div_l; [exact Ht|]. now rewrite Qmult_0_l.
Qed.

(** X1.  F1 never exceeds 100 and is 0 when no review is declared; for a
    positive declared total and non-negative star counts it is at least 0,
    and it is 100 exactly when three times the one-star count plus twice
    the two-star count reaches the total. *)
Theorem f1_score_range (dist : gmap string Z) (total : Z) :
  let one_star := default 0%Z (dist !! "oneStar"%string) in
  let two_star := default 0%Z (dist !! "twoStar"%string) in
  let f1 := LandmineScorer._calculate_f1_score dist total in
  f1 <= 100
  ∧ (total = 0%Z → f1 = 0)
  ∧ ((0 < total)%Z → (0 <= one_star)%Z → (0 <= two_star)%Z → 0 <= f1)
  ∧ ((0 < total)%Z → (f1 == 100 ↔ (total <= 3 * one_star + 2 * two_star)%Z)).
Proof.
  cbv zeta. unfold LandmineScorer._calculate_f1_score.
  set (one := default 0%Z (dist !! "oneStar"%string)).
  set (two := default 0%Z (dist !! "twoStar"%string)).
  split; [|split; [|split]].
  - destruct (total =? 0)%Z; [easy | apply py_min_le_r].
  - intros ->. reflexivity.
  - intros Ht H1 H2. destruct (total =? 0)%Z eqn:E; [apply Z.eqb_eq in E; lia|].
    assert (HtQ : 0 < inject_Z total) by (now rewrite Zlt_Qlt in Ht).
    assert (H1Q : 0 <= inject_Z one) by (now rewrite Zle_Qle in H1).
    assert (H2Q : 0 <= inject_Z two) by (now rewrite Zle_Qle in H2).
    unfold py_min. case_Qltb 100 (((inject_Z one * (15 # 10) + inject_Z two)
                                     / inject_Z total) * 200); [easy|].
    apply scaled_ratio_nonneg; [exact HtQ | easy | lra].
  - intros Ht. destruct (total =? 0)%Z eqn:E; [apply Z.eqb_eq in E; lia|].
    assert (HtQ : 0 < inject_Z total) by (now rewrite Zlt_Qlt in Ht).
    rewrite py_min_100_saturated, scaled_ratio_saturated; [|exact HtQ|easy].
    rewrite Zle_Qle, inject_Z_plus, !inject_Z_mult.
    change (inject_Z 3) with 3. change (inject_Z 2) with 2. split; intros H; lra.
Qed.

Lemma f1_score_range_witness :
  LandmineScorer._calculate_f1_score
    {[ "oneStar"%string := 8%Z; "twoStar"%string := 2%Z ]} 10 == 100
  ∧ 0 <= LandmineScorer._calculate_f1_score {[ "oneStar"%string := 1%Z ]} 16
  ∧ LandmineScorer._calculate_f1_score {[ "oneStar"%string := 8%Z ]} 0 = 0.
Proof.
  split; [|split].
  - apply (proj2 (proj2 (proj2 (f1_score_range
             {[ "oneStar"%string := 8%Z; "twoStar"%string := 2%Z ]} 10)))).
    + reflexivity.
    + vm_compute. discriminate.
  - apply (proj1 (proj2 (proj2 (f1_score_range {[ "oneStar"%string := 1%Z ]} 16))));
      vm_compute; congruence.
  - apply (proj1 (proj2 (f1_score_range {[ "oneStar"%string := 8%Z ]} 0))).
    reflexivity.
Defined.

(** X2.  F3 is 0 for a trend score that is not positive (an improvement
    contributes nothing), 50 times the trend score up to a decline of two
    stars, and 100 from there on; it always lies in [0, 100]. *)
Theorem f3_score_piecewise (trend : Q) :
  let f3 := LandmineScorer._calculate_f3_score trend in
  (trend <= 0 → f3 == 0)
  ∧ (0 <= trend → trend <= 2 → f3 == trend * 50)
  ∧ (2 <= trend → f3 == 100)
  ∧ 0 <= f3 <= 100.
Proof.
  cbv zeta. unfold LandmineScorer._calculate_f3_score. cbv zeta.
  unfold py_max. case_Qltb 0 trend.
  - unfold py_min. case_Qltb 100 (trend * 50).
    + repeat split; intros; lra.
    + repeat split; intros; lra.
  - assert (E0 : py_min (0 * 50) 100 == 0) by reflexivity.
    rewrite E0. repeat split; intros; lra.
Qed.

Lemma f3_score_piecewise_witness :
  LandmineScorer._calculate_f3_score (-1) == 0
  ∧ LandmineScorer._calculate_f3_score (1 # 2) == (1 # 2) * 50
  ∧ LandmineScorer._calculate_f3_score 3 == 100.
Proof.
  split; [|split].
  - apply (proj1 (f3_score_piecewise (-1))). discriminate.
  - apply (proj1 (proj2 (f3_score_piecewise (1 # 2)))); discriminate.
  - apply (proj1 (proj2 (proj2 (f3_score_piecewise 3)))). discriminate.
Defined.

Lemma risk_sum_nonneg (rows : list Row) :
  Forall (λ r, (0 <= high_risk_keyword_count r)%Z
               ∧ (0 <= medium_risk_keyword_count r)%Z
               ∧ (0 <= low_risk_keyword_count r)%Z) rows →
  (0 <= Spec.risk_sum rows)%Z.
Proof.
  induction 1 as [|r rows (Hh & Hm & Hl) _ IH]; [reflexivity|].
  cbn [Spec.risk_sum fold_right]. fold (Spec.risk_sum rows). lia.
Qed.

(** X3.  On a frame with the keyword columns whose counts are not
    negative, F2 is returned and lies in [0, 100]; on a non-empty frame it
    is 100 exactly when the summed risk (15 per high, 5 per medium, 1 per
    low keyword) reaches the number of reviews, that is, one risk point
    per review on average. *)
Theorem f2_score_range (df : DataFrame) :
  has_keyword_columns df →
  Forall (λ r, (0 <= high_risk_keyword_count r)%Z
               ∧ (0 <= medium_risk_keyword_count r)%Z
               ∧ (0 <= low_risk_keyword_count r)%Z) (df_rows df) →
  ∃ f2, LandmineScorer._calculate_f2_score df = Ok f2
        ∧ 0 <= f2 <= 100
        ∧ (df_rows df ≠ [] →
           (f2 == 100
            ↔ (Z.of_nat (length (df_rows df)) <= Spec.risk_sum (df_rows df))%Z)).
Proof.
  intros Hcols Hnn. rewrite (f2_score_unfold df Hcols).
  eexists. split; [reflexivity|].
  pose proof (risk_sum_nonneg _ Hnn) as Hsum.
  destruct (df_rows df) as [|r rows] eqn:Hrows.
  - split; [split; discriminate | intros H; now contradiction H].
  - set (n := Z.of_nat (length (r :: rows))).
    assert (Hn : 0 < inject_Z n) by apply inject_Z_length_pos.
    assert (HsumQ : 0 <= inject_Z (Spec.risk_sum (r :: rows)))
      by (now rewrite Zle_Qle in Hsum).
    split; [split|].
    + unfold py_min.
      case_Qltb 100 (inject_Z (Spec.risk_sum (r :: rows)) / inject_Z n * 100);
        [easy|]. apply scaled_ratio_nonneg; [exact Hn | easy | exact HsumQ].
    + apply py_min_le_r.
    + intros _. rewrite py_min_100_saturated, scaled_ratio_saturated;
        [|exact Hn|easy].
      rewrite Zle_Qle. split; intros H; lra.
Qed.

Lemma f2_score_range_witness :
  ∃ f2, LandmineScorer._calculate_f2_score Sample.neutral_frame = Ok f2
        ∧ 0 <= f2 <= 100
        ∧ (df_rows Sample.neutral_frame ≠ [] →
           (f2 == 100
            ↔ (Z.of_nat (length (df_rows Sample.neutral_frame))
               <= Spec.risk_sum (df_rows Sample.neutral_frame))%Z)).
Proof.
  apply (f2_score_range Sample.neutral_frame).
  - repeat split.
  - vm_compute. repeat constructor; discriminate.
Defined.

(** ** The summary *)

Lemma reasons_distinct :
  NoDup [LandmineScorer.reason_f1; LandmineScorer.reason_f2;
         LandmineScorer.reason_f3; LandmineScorer.reason_f5].
Proof. apply (bool_decide_unpack _). vm_compute. exact I. Qed.

Ltac reason_clash H :=
  let Hnd := fresh "Hnd" in
  exfalso; pose proof reasons_distinct as Hnd;
  rewrite !NoDup_cons in Hnd; rewrite ?H in Hnd; rewrite <- ?H in Hnd;
  set_solver.

Ltac solve_reason_iff :=
  let Hr := fresh "Hr" in
  split;
  [ intros Hr; first [ repeat split; lra | reason_clash Hr ]
  | intros Hr; destruct Hr as (? & ? & ?); first [ reflexivity | exfalso; lra ] ].

(** X4.  The reason that a summary names is the first sub-score, in the
    order F1, F2, F3, F5, that no other exceeds: a later reason wins only
    with a strictly greater sub-score. *)
Theorem dominant_reason_tie_break (f1 f2 f3 f5 : Q) :
  let r := LandmineScorer.dominant_reason f1 f2 f3 f5 in
  (r = LandmineScorer.reason_f1 ↔ f2 <= f1 ∧ f3 <= f1 ∧ f5 <= f1)
  ∧ (r = LandmineScorer.reason_f2 ↔ f1 < f2 ∧ f3 <= f2 ∧ f5 <= f2)
  ∧ (r = LandmineScorer.reason_f3 ↔ f1 < f3 ∧ f2 < f3 ∧ f5 <= f3)
  ∧ (r = LandmineScorer.reason_f5 ↔ f1 < f5 ∧ f2 < f5 ∧ f3 < f5).
Proof.
  cbv zeta. unfold LandmineScorer.dominant_reason, py_argmax.
  cbn [fold_left snd].
  case_Qltb f1 f2; cbn [snd];
    [case_Qltb f2 f3; cbn [snd]; [case_Qltb f3 f5 | case_Qltb f2 f5]
    |case_Qltb f1 f3; cbn [snd]; [case_Qltb f3 f5 | case_Qltb f1 f5]];
    cbn [fst]; (split; [|split; [|split]]); solve_reason_iff.
Qed.

Lemma f2_score_returns (df : DataFrame) :
  df_empty df = true ∨ has_keyword_columns df →
  ∃ f2, LandmineScorer._calculate_f2_score df = Ok f2.
Proof.
  intros [He|Hcols].
  - exists 0. unfold LandmineScorer._calculate_f2_score. now rewrite He.
  - rewrite (f2_score_unfold df Hcols). eauto.
Qed.

(** X5.  With the default weights [calculate_score] returns on every
    frame that is empty or has the keyword columns: the read of the unbound
    name cannot happen.  The score is the weighted mean of the sub-scores
    clamped to [0, 100], so it never exceeds the largest sub-score (or 0
    when all are negative), and when no sub-score is above 20 the score is
    at most 20 and the summary is the low-risk text. *)
Theorem default_weights_total (df : DataFrame) (ti : TrendInfo) :
  df_empty df = true ∨ has_keyword_columns df →
  ∃ f2 score summary,
    LandmineScorer._calculate_f2_score df = Ok f2
    ∧ LandmineScorer.calculate_score LandmineScorer.default_weights df ti
      = Ok (score, summary)
    ∧ 0 <= score <= 100
    ∧ let largest :=
        LandmineScorer.max_sub_score (LandmineScorer.f1_of ti) f2
          (LandmineScorer.f3_of ti) (LandmineScorer._calculate_f5_score df) in
      score <= Qmax 0 largest
      ∧ (largest <= 20 →
         score <= 20 ∧ summary = LandmineScorer.low_risk_summary).
Proof.
  intros Hdf. destruct (f2_score_returns df Hdf) as [f2 Hf2].
  set (f1 := LandmineScorer.f1_of ti). set (f3 := LandmineScorer.f3_of ti).
  set (f5 := LandmineScorer._calculate_f5_score df).
  set (m := LandmineScorer.max_sub_score f1 f2 f3 f5).
  set (score := LandmineScorer.weighted_score LandmineScorer.default_weights f1 f2 f3 f5).
  (* the weighted mean is below the largest sub-score *)
  destruct (py_max_list_ge f1 [f2; f3; f5]) as [H1 H].
  fold (LandmineScorer.max_sub_score f1 f2 f3 f5) in H1, H. fold m in H1, H.
  inversion_clear H as [|? ? H2 H']. inversion_clear H' as [|? ? H3 H''].
  inversion_clear H'' as [|? ? H5 _].
  assert (Hscore : score <= Qmax 0 m ∧ (m <= 20 → score <= 20)).
  { unfold score, LandmineScorer.weighted_score, LandmineScorer.default_weights.
    cbn [LandmineScorer.f1_neg_reviews LandmineScorer.f2_keywords
         LandmineScorer.f3_trend LandmineScorer.f5_sentiment].
    set (x := f1 * (25 # 100) + f2 * (45 # 100) + f3 * (15 # 100) + f5 * (15 # 100)).
    assert (Hx : x <= m) by (unfold x; lra).
    pose proof (Q.le_max_l 0 m) as Hm0. pose proof (Q.le_max_r 0 m) as Hmm.
    pose proof (py_min_le_l x 100) as Hmin.
    unfold py_max. case_Qltb 0 (py_min x 100); split; intros; lra. }
  destruct Hscore as [Hle H20].
  exists f2. rewrite (calculate_score_unfold _ df ti f2 Hf2). cbv zeta.
  fold f1 f3 f5 m score.
  pose proof (weighted_score_in_range LandmineScorer.default_weights f1 f2 f3 f5) as Hr.
  fold score in Hr.
  case_Qltb 70 score.
  - case_Qltb 20 m.
    + eexists _, _. split; [exact Hf2|]. split; [reflexivity|].
      split; [exact Hr|]. split; [exact Hle|]. intros Hm. exfalso. lra.
    + exfalso. specialize (H20 E0). lra.
  - eexists _, _. split; [exact Hf2|]. split; [reflexivity|].
    split; [exact Hr|]. split; [exact Hle|]. intros Hm.
    split; [now apply H20|].
    assert (E20 : Qltb 20 m = false) by (now apply Qltb_ge). now rewrite E20.
Qed.

Lemma default_weights_total_witness :
  ∃ f2 score summary,
    LandmineScorer._calculate_f2_score Sample.neutral_frame = Ok f2
    ∧ LandmineScorer.calculate_score LandmineScorer.default_weights
        Sample.neutral_frame Sample.one_star_in_sixteen
      = Ok (score, summary)
    ∧ 0 <= score <= 100
    ∧ let largest :=
        LandmineScorer.max_sub_score
          (LandmineScorer.f1_of Sample.one_star_in_sixteen) f2
          (LandmineScorer.f3_of Sample.one_star_in_sixteen)
          (LandmineScorer._calculate_f5_score Sample.neutral_frame) in
      score <= Qmax 0 largest
      ∧ (largest <= 20 →
         score <= 20 ∧ summary = LandmineScorer.low_risk_summary).
Proof.
  apply (default_weights_total Sample.neutral_frame Sample.one_star_in_sixteen).
  right. repeat split.
Defined.

(** ** The sentiment score *)

(** X6.  When the confidences that Azure reports lie in [0, 1], the score
    of a text lies in [-1, 1]; a positive score comes only from a response
    without error that is labelled positive, and is its positive
    confidence; a negative score comes only from one labelled negative.
    In every other case (no client, an exception, an error response, a
    neutral label) the score is 0. *)
Theorem sentiment_score_range (client : option Sentiment.Client) (text : str) :
  (∀ analyze response, client = Some analyze → analyze text = Some response →
     0 <= Sentiment.confidence_positive response <= 1
     ∧ 0 <= Sentiment.confidence_negative response <= 1) →
  let score := Sentiment.get_sentiment_score client text in
  -1 <= score <= 1
  ∧ (0 < score →
     ∃ analyze response,
       client = Some analyze ∧ analyze text = Some response
       ∧ Sentiment.is_error response = false
       ∧ Sentiment.sentiment response = Sentiment.positive
       ∧ score = Sentiment.confidence_positive response)
  ∧ (score < 0 →
     ∃ analyze response,
       client = Some analyze ∧ analyze text = Some response
       ∧ Sentiment.is_error response = false
       ∧ Sentiment.sentiment response = Sentiment.negative
       ∧ score = - Sentiment.confidence_negative response).
Proof.
  intros Hconf. cbv zeta. unfold Sentiment.get_sentiment_score.
  destruct client as [analyze|]; [|repeat split; try discriminate; intros H; inversion H].
  destruct (analyze text) as [response|] eqn:Hresp;
    [|repeat split; try discriminate; intros H; inversion H].
  destruct (Hconf analyze response eq_refl Hresp) as [[Hp0 Hp1] [Hn0 Hn1]].
  destruct (Sentiment.is_error response) eqn:Herr;
    [repeat split; try discriminate; intros H; inversion H|].
  destruct (Sentiment.sentiment response) eqn:Hlabel.
  - split; [lra|]. split.
    + intros _. exists analyze, response. repeat split; assumption.
    + intros H. exfalso. lra.
  - repeat split; try discriminate; intros H; inversion H.
  - split; [lra|]. split.
    + intros H. exfalso. lra.
    + intros _. exists analyze, response. repeat split; assumption.
Qed.

Lemma sentiment_score_range_witness :
  let score := Sentiment.get_sentiment_score (Some Sample.mild_client) (Sample.u "fine") in
  -1 <= score <= 1
  ∧ (0 < score →
     ∃ analyze response,
       Some Sample.mild_client = Some analyze ∧ analyze (Sample.u "fine") = Some response
       ∧ Sentiment.is_error response = false
       ∧ Sentiment.sentiment response = Sentiment.positive
       ∧ score = Sentiment.confidence_positive response)
  ∧ (score < 0 →
     ∃ analyze response,
       Some Sample.mild_client = Some analyze ∧ analyze (Sample.u "fine") = Some response
       ∧ Sentiment.is_error response = false
       ∧ Sentiment.sentiment response = Sentiment.negative
       ∧ score = - Sentiment.confidence_negative response).
Proof.
  apply (sentiment_score_range (Some Sample.mild_client) (Sample.u "fine")).
  intros analyze response [= <-] [= <-]. cbn. repeat split; discriminate.
Defined.

Lemma sum_Q_bounds_from (a b : Q) (xs : list Q) (acc : Q) :
  Forall (λ x, a <= x <= b) xs →
  acc + a * inject_Z (Z.of_nat (length xs)) <= fold_left Qplus xs acc
  ∧ fold_left Qplus xs acc <= acc + b * inject_Z (Z.of_nat (length xs)).
Proof.
  intros H. revert acc. induction H as [|x xs [Hxa Hxb] _ IH]; intros acc.
  - cbn [fold_left length]. change (inject_Z (Z.of_nat 0)) with 0. split; lra.
  - cbn [fold_left length]. destruct (IH (acc + x)) as [IHa IHb].
    rewrite Nat2Z.inj_succ. unfold Z.succ. rewrite inject_Z_plus.
    change (inject_Z 1) with 1. split; lra.
Qed.

(** The mean of a non-empty column lies between the bounds of its
    entries. *)
Lemma mean_Q_bounds (a b : Q) (xs : list Q) :
  xs ≠ [] → Forall (λ x, a <= x <= b) xs → a <= mean_Q xs <= b.
Proof.
  intros Hne H. destruct xs as [|x xs]; [contradiction|].
  destruct (sum_Q_bounds_from a b _ 0 H) as [Ha Hb].
  pose proof (inject_Z_length_pos x xs) as Hpos.
  unfold mean_Q, sum_Q. split.
  - apply Qle_shift_div_l; [exact Hpos | lra].
  - apply Qle_shift_div_r; [exact Hpos | lra].
Qed.

(** X7.  For sentiment scores in [-1, 1] the clamp of F5 does nothing: on
    a non-empty frame F5 is exactly 50 minus 50 times the mean sentiment,
    from 100 for a mean of -1 down to 0 for a mean of 1. *)
Theorem f5_score_unclamped (df : DataFrame) :
  df_empty df = false → has_column df "sentiment_score" = true →
  Forall (λ r, -1 <= sentiment_score r <= 1) (df_rows df) →
  let avg_sentiment := mean_Q (map sentiment_score (df_rows df)) in
  -1 <= avg_sentiment <= 1
  ∧ LandmineScorer._calculate_f5_score df == 50 - 50 * avg_sentiment.
Proof.
  intros He Hc Hb. cbv zeta.
  assert (Hne : df_rows df ≠ []).
  { intros E. unfold df_empty in He. rewrite E in He. now destruct (df_columns df). }
  assert (Havg : -1 <= mean_Q (map sentiment_score (df_rows df)) <= 1).
  { apply mean_Q_bounds.
    - destruct (df_rows df); [contradiction | discriminate].
    - apply Forall_map. exact Hb. }
  split; [exact Havg|]. rewrite (f5_score_unfold df He Hc).
  set (avg := mean_Q (map sentiment_score (df_rows df))) in *.
  unfold py_min. case_Qltb 100 ((1 - avg) * 50); [exfalso; lra|].
  unfold py_max. case_Qltb 0 ((1 - avg) * 50); lra.
Qed.

Lemma f5_score_unclamped_witness :
  let avg_sentiment := mean_Q (map sentiment_score (df_rows Sample.neutral_frame)) in
  -1 <= avg_sentiment <= 1
  ∧ LandmineScorer._calculate_f5_score Sample.neutral_frame == 50 - 50 * avg_sentiment.
Proof.
  apply (f5_score_unclamped Sample.neutral_frame); [reflexivity | reflexivity |].
  vm_compute. repeat constructor; discriminate.
Defined.

(** ** Phrase extraction *)

Lemma startswith_spec (s prefix : str) :
  startswith s prefix = true ↔ ∃ rest, s = prefix ++ rest.
Proof.
  revert s. induction prefix as [|a prefix IH]; intros s.
  - split; [intros _; now exists s | destruct s; reflexivity].
  - destruct s as [|b s]; cbn [startswith];
      [split; [discriminate | intros [rest H]; discriminate]|].
    rewrite andb_true_iff, N.eqb_eq, IH. split.
    + intros [-> [rest ->]]. now exists rest.
    + intros [rest [= -> ->]]. split; [reflexivity | now exists rest].
Qed.

(** The model of [keyword in sentence] is the substring relation. *)
Lemma str_contains_spec (sentence keyword : str) :
  str_contains sentence keyword = true ↔ Phrase.occurs_in keyword sentence.
Proof.
  unfold Phrase.occurs_in. induction sentence as [|c sentence IH]; cbn [str_contains].
  - rewrite orb_false_r, startswith_spec. split.
    + intros [rest H]. now exists [], rest.
    + intros (before & after & H). destruct before; [now exists after|discriminate].
  - rewrite orb_true_iff, startswith_spec, IH. split.
    + intros [[rest H]|(before & after & H)].
      * now exists [], rest.
      * exists (c :: before), after. now rewrite H.
    + intros (before & after & H). destruct before as [|b before].
      * left. now exists after.
      * right. injection H as -> ->. now exists before, after.
Qed.

Lemma hits_spec (keywords : gset str) (sentence : str) :
  Phrase.hits keywords sentence
  ↔ ∃ keyword, keyword ∈ keywords ∧ Phrase.occurs_in keyword sentence.
Proof.
  unfold Phrase.hits, FeatureEngineer.any_keyword_in. rewrite existsb_exists.
  split; intros (keyword & Hin & Hc); exists keyword.
  - apply list_elem_of_In, elem_of_elements in Hin. now rewrite <- str_contains_spec.
  - split; [now apply list_elem_of_In, elem_of_elements | now apply str_contains_spec].
Qed.

Lemma sentences_snoc (done : list str) (piece : str) :
  filter (λ s : str, s ≠ []) (map strip (done ++ [piece]))
  = filter (λ s : str, s ≠ []) (map strip done)
    ++ match strip piece with [] => [] | _ :: _ => [strip piece] end.
Proof.
  rewrite map_app, filter_app. f_equal. cbn [map].
  destruct (strip piece) eqn:E.
  - reflexivity.
  - rewrite filter_cons_True by discriminate. reflexivity.
Qed.

Lemma take_snoc_lt {A : Type} (n : nat) (l : list A) (x : A) :
  (length (take n l) < n)%nat → take n (l ++ [x]) = take n l ++ [x].
Proof.
  rewrite length_take. intros H. assert (Hl : (length l < n)%nat) by lia.
  rewrite !take_ge; [reflexivity | lia | rewrite length_app; cbn; lia].
Qed.

Lemma take_snoc_ge {A : Type} (n : nat) (l : list A) (x : A) :
  ¬ (length (take n l) < n)%nat → take n (l ++ [x]) = take n l.
Proof.
  rewrite length_take. intros H. apply take_app_le. lia.
Qed.

Section ExtractionFacts.

Variable self : FeatureEngineer.t.

Local Abbreviation negative_hit :=
  (Phrase.hits (FeatureEngineer.all_negative_set self)).
Local Abbreviation positive_hit :=
  (Phrase.hits (FeatureEngineer.positive_set self)).
Local Abbreviation stripped :=
  (λ pieces : list str, filter (λ s : str, s ≠ []) (map strip pieces)).

Local Abbreviation extraction_invariant := (Phrase.extraction_invariant self).

Lemma extract_step_invariant (done : list str) (state : list str * list str)
    (piece : str) :
  extraction_invariant done state →
  extraction_invariant (done ++ [piece])
    (FeatureEngineer.extract_step self state piece).
Proof.
  destruct state as [pos neg]. unfold Phrase.extraction_invariant. cbn [fst snd].
  intros (Hneg & Hlen & Hsub & Hpos).
  rewrite sentences_snoc. unfold FeatureEngineer.extract_step.
  destruct (strip piece) as [|c s] eqn:Hs.
  - cbn [fst snd]. rewrite app_nil_r. tauto.
  - set (sentence := c :: s) in *. rewrite filter_app.
    assert (Hsub' : pos `sublist_of` stripped done ++ [sentence])
      by (now apply sublist_inserts_r).
    destruct (length neg <? 3)%nat eqn:Hquota.
    + apply Nat.ltb_lt in Hquota.
      destruct (FeatureEngineer.any_keyword_in (FeatureEngineer.all_negative_set self)
                  sentence) eqn:Hhit.
      * cbn [negb andb fst snd]. rewrite filter_cons_True by exact Hhit.
        rewrite filter_nil, Hneg. rewrite Hneg in Hquota.
        rewrite take_snoc_lt by exact Hquota. tauto.
      * cbn [negb andb]. rewrite filter_cons_False by (unfold Phrase.hits; congruence).
        rewrite filter_nil, app_nil_r.
        destruct (length pos <? 2)%nat eqn:Hpq; [|cbn [fst snd]; tauto].
        apply Nat.ltb_lt in Hpq.
        destruct (FeatureEngineer.any_keyword_in (FeatureEngineer.positive_set self)
                    sentence) eqn:Hp; cbn [fst snd]; [|tauto].
        split; [exact Hneg|]. split; [rewrite length_app; cbn; lia|].
        split; [now apply sublist_app|].
        apply Forall_app. split; [exact Hpos | now constructor].
    + apply Nat.ltb_ge in Hquota. cbn [negb andb].
      assert (Hneg' : neg = take 3 (filter negative_hit (stripped done)
                                    ++ filter negative_hit [sentence])).
      { rewrite take_app_le; [exact Hneg|].
        rewrite Hneg, length_take in Hquota. lia. }
      destruct (length pos <? 2)%nat eqn:Hpq; [|cbn [fst snd]; tauto].
      apply Nat.ltb_lt in Hpq.
      destruct (FeatureEngineer.any_keyword_in (FeatureEngineer.positive_set self)
                  sentence) eqn:Hp; cbn [fst snd]; [|tauto].
      split; [exact Hneg'|]. split; [rewrite length_app; cbn; lia|].
      split; [now apply sublist_app|].
      apply Forall_app. split; [exact Hpos | now constructor].
Qed.

Lemma extract_fold_invariant (pieces done : list str) (state : list str * list str) :
  extraction_invariant done state →
  extraction_invariant (done ++ pieces)
    (fold_left (FeatureEngineer.extract_step self) pieces state).
Proof.
  revert done state. induction pieces as [|piece pieces IH]; intros done state H.
  - now rewrite app_nil_r.
  - cbn [fold_left]. replace (done ++ piece :: pieces) with ((done ++ [piece]) ++ pieces)
      by (now rewrite <- app_assoc).
    apply IH. now apply extract_step_invariant.
Qed.

End ExtractionFacts.

(** X8.  For one review, the negative phrases are the first three
    sentences that contain a negative keyword, in the order of the text;
    the positive phrases are at most two sentences of the text, in order,
    each containing a positive keyword.  Every phrase is a stripped,
    non-empty piece between separators, and it contains its keyword as a
    substring. *)
Theorem extract_key_phrases_shape (self : FeatureEngineer.t) (text : str) :
  let positive := (FeatureEngineer._extract_key_phrases self text).1 in
  let negative := (FeatureEngineer._extract_key_phrases self text).2 in
  negative = take 3 (filter (Phrase.hits (FeatureEngineer.all_negative_set self))
                            (Phrase.sentences text))
  ∧ (length negative ≤ 3)%nat
  ∧ (length positive ≤ 2)%nat
  ∧ positive `sublist_of` Phrase.sentences text
  ∧ (∀ phrase, phrase ∈ negative →
       ∃ keyword, keyword ∈ FeatureEngineer.all_negative_set self
                  ∧ Phrase.occurs_in keyword phrase)
  ∧ (∀ phrase, phrase ∈ positive →
       ∃ keyword, keyword ∈ FeatureEngineer.positive_set self
                  ∧ Phrase.occurs_in keyword phrase).
Proof.
  cbv zeta. unfold FeatureEngineer._extract_key_phrases. cbv zeta.
  destruct (extract_fold_invariant self (re_split text) [] ([], []))
    as (Hneg & Hlen & Hsub & Hpos).
  { unfold Phrase.extraction_invariant. cbn. repeat split; [lia | constructor | constructor]. }
  cbn [app] in Hneg, Hsub. fold (Phrase.sentences text) in Hneg, Hsub.
  split; [exact Hneg|]. split; [rewrite Hneg, length_take; lia|].
  split; [exact Hlen|]. split; [exact Hsub|]. split.
  - intros phrase Hin. rewrite Hneg in Hin.
    apply subseteq_take in Hin.
    apply list_elem_of_filter in Hin. destruct Hin as [Hhit _].
    now apply hits_spec.
  - intros phrase Hin. rewrite Forall_forall in Hpos.
    apply hits_spec. now apply Hpos.
Qed.

Lemma extract_key_phrases_shape_witness :
  (FeatureEngineer._extract_key_phrases Sample.engineer (Sample.u Sample.mixed_text)).2
  = take 3 (filter (Phrase.hits (FeatureEngineer.all_negative_set Sample.engineer))
                   (Phrase.sentences (Sample.u Sample.mixed_text)))
  ∧ ∃ keyword, keyword ∈ FeatureEngineer.all_negative_set Sample.engineer
               ∧ Phrase.occurs_in keyword (Sample.u "rude waiter").
Proof.
  destruct (extract_key_phrases_shape Sample.engineer (Sample.u Sample.mixed_text))
    as (Hneg & _ & _ & _ & Hkw & _).
  split; [exact Hneg|]. apply Hkw. vm_compute. repeat constructor.
Defined.

Section FewNegativeSentences.

Variable self : FeatureEngineer.t.

Local Abbreviation negative_hit :=
  (Phrase.hits (FeatureEngineer.all_negative_set self)).
Local Abbreviation praise :=
  (λ s : str, ¬ Phrase.hits (FeatureEngineer.all_negative_set self) s
              ∧ Phrase.hits (FeatureEngineer.positive_set self) s).
Local Abbreviation stripped :=
  (λ pieces : list str, filter (λ s : str, s ≠ []) (map strip pieces)).

Lemma extract_fold_few (pieces done : list str) (pos neg : list str) :
  (length (filter negative_hit (stripped (done ++ pieces))) ≤ 3)%nat →
  neg = filter negative_hit (stripped done) →
  pos = take 2 (filter praise (stripped done)) →
  fold_left (FeatureEngineer.extract_step self) pieces (pos, neg)
  = (take 2 (filter praise (stripped (done ++ pieces))),
     filter negative_hit (stripped (done ++ pieces))).
Proof.
  revert done pos neg. induction pieces as [|piece pieces IH]; intros done pos neg Hfew Hneg Hpos.
  - rewrite app_nil_r. cbn. now rewrite Hneg, Hpos.
  - cbn [fold_left].
    replace (done ++ piece :: pieces) with ((done ++ [piece]) ++ pieces) in *
      by (now rewrite <- app_assoc).
    destruct (FeatureEngineer.extract_step self (pos, neg) piece) as [pos' neg'] eqn:Hstep.
    apply IH; [exact Hfew| |].
    + (* the negative list *)
      rewrite sentences_snoc. unfold FeatureEngineer.extract_step in Hstep.
      destruct (strip piece) as [|c s] eqn:Hs.
      * injection Hstep as <- <-. now rewrite app_nil_r.
      * set (sentence := c :: s) in *. rewrite filter_app.
        destruct (FeatureEngineer.any_keyword_in (FeatureEngineer.all_negative_set self)
                    sentence) eqn:Hhit.
        -- rewrite filter_cons_True by exact Hhit. rewrite filter_nil.
           assert (Hq : (length neg <? 3)%nat = true).
           { apply Nat.ltb_lt. rewrite Hneg.
             rewrite map_app, !filter_app, !length_app in Hfew.
             rewrite map_app, filter_app in Hfew. cbn [map] in Hfew. rewrite Hs in Hfew.
             fold sentence in Hfew.
             rewrite (filter_cons_True (λ s : str, s ≠ [])) in Hfew by discriminate.
             rewrite filter_nil, filter_app, length_app in Hfew.
             rewrite (filter_cons_True negative_hit) in Hfew by exact Hhit.
             cbn [length filter] in Hfew. rewrite filter_nil in Hfew. cbn in Hfew. lia. }
           rewrite Hq in Hstep. cbn [negb andb] in Hstep.
           injection Hstep as <- <-. now rewrite Hneg.
        -- rewrite filter_cons_False by (unfold Phrase.hits; congruence).
           rewrite filter_nil, app_nil_r.
           destruct (length neg <? 3)%nat; cbn [negb andb] in Hstep;
             destruct (length pos <? 2)%nat;
             try destruct (FeatureEngineer.any_keyword_in
                             (FeatureEngineer.positive_set self) sentence);
             injection Hstep as <- <-; exact Hneg.
    + (* the positive list *)
      rewrite sentences_snoc. unfold FeatureEngineer.extract_step in Hstep.
      destruct (strip piece) as [|c s] eqn:Hs.
      * injection Hstep as <- <-. now rewrite app_nil_r.
      * set (sentence := c :: s) in *. rewrite filter_app.
        destruct (FeatureEngineer.any_keyword_in (FeatureEngineer.all_negative_set self)
                    sentence) eqn:Hhit.
        -- rewrite filter_cons_False by (unfold Phrase.hits; intros [Hn _]; congruence).
           rewrite filter_nil, app_nil_r.
           assert (Hq : (length neg <? 3)%nat = true).
           { apply Nat.ltb_lt. rewrite Hneg.
             rewrite map_app, !filter_app, !length_app in Hfew.
             rewrite map_app, filter_app in Hfew. cbn [map] in Hfew. rewrite Hs in Hfew.
             fold sentence in Hfew.
             rewrite (filter_cons_True (λ s : str, s ≠ [])) in Hfew by discriminate.
             rewrite filter_nil, filter_app, length_app in Hfew.
             rewrite (filter_cons_True negative_hit) in Hfew by exact Hhit.
             cbn [length filter] in Hfew. rewrite filter_nil in Hfew. cbn in Hfew. lia. }
           rewrite Hq in Hstep. cbn [negb andb] in Hstep.
           injection Hstep as <- <-. exact Hpos.
        -- assert (Hfound : (if (length neg <? 3)%nat
                             then (neg, false) else (neg, false)) = (neg, false))
             by (now destruct (length neg <? 3)%nat).
           rewrite Hfound in Hstep. cbn [negb andb] in Hstep.
           destruct (FeatureEngineer.any_keyword_in (FeatureEngineer.positive_set self)
                       sentence) eqn:Hp.
           ++ rewrite filter_cons_True
                by (unfold Phrase.hits; split; [congruence | exact Hp]).
              rewrite filter_nil.
              destruct (length pos <? 2)%nat eqn:Hpq; injection Hstep as <- <-.
              ** apply Nat.ltb_lt in Hpq. rewrite Hpos in Hpq.
                 rewrite take_snoc_lt by exact Hpq. now rewrite Hpos.
              ** apply Nat.ltb_ge in Hpq. rewrite Hpos in Hpq.
                 rewrite take_snoc_ge by lia. exact Hpos.
           ++ rewrite filter_cons_False
                by (unfold Phrase.hits; intros [_ Hn]; congruence).
              rewrite filter_nil, app_nil_r.
              destruct (length pos <? 2)%nat; injection Hstep as <- <-; exact Hpos.
Qed.

End FewNegativeSentences.

(** X9.  When at most three sentences of a review contain a negative
    keyword, the negative priority holds: the negative phrases are exactly
    those sentences, the positive phrases are the first two sentences that
    contain a positive keyword and no negative one, and no sentence is in
    both lists. *)
Theorem extract_key_phrases_few_negative (self : FeatureEngineer.t) (text : str) :
  (length (filter (Phrase.hits (FeatureEngineer.all_negative_set self))
                  (Phrase.sentences text)) ≤ 3)%nat →
  let positive := (FeatureEngineer._extract_key_phrases self text).1 in
  let negative := (FeatureEngineer._extract_key_phrases self text).2 in
  negative = filter (Phrase.hits (FeatureEngineer.all_negative_set self))
                    (Phrase.sentences text)
  ∧ positive
    = take 2 (filter (λ s, ¬ Phrase.hits (FeatureEngineer.all_negative_set self) s
                           ∧ Phrase.hits (FeatureEngineer.positive_set self) s)
                     (Phrase.sentences text))
  ∧ (∀ phrase, phrase ∈ positive →
       ¬ Phrase.hits (FeatureEngineer.all_negative_set self) phrase
       ∧ phrase ∉ negative).
Proof.
  intros Hfew. cbv zeta. unfold FeatureEngineer._extract_key_phrases. cbv zeta.
  rewrite (extract_fold_few self (re_split text) [] [] []); [|exact Hfew| |]; try reflexivity.
  cbn [fst snd app]. fold (Phrase.sentences text).
  split; [reflexivity|]. split; [reflexivity|].
  intros phrase Hin. apply subseteq_take in Hin.
  apply list_elem_of_filter in Hin. destruct Hin as [[Hnot _] _].
  split; [exact Hnot|]. intros Hneg. apply list_elem_of_filter in Hneg. tauto.
Qed.

Lemma extract_key_phrases_few_negative_witness :
  let text := Sample.u "good cake but bad tea, good coffee, rude waiter" in
  (FeatureEngineer._extract_key_phrases Sample.engineer text).2
  = filter (Phrase.hits (FeatureEngineer.all_negative_set Sample.engineer))
           (Phrase.sentences text)
  ∧ (FeatureEngineer._extract_key_phrases Sample.engineer text).1
    = [Sample.u "good coffee"].
Proof.
  cbv zeta.
  destruct (extract_key_phrases_few_negative Sample.engineer
              (Sample.u "good cake but bad tea, good coffee, rude waiter"))
    as (Hneg & _ & _).
  - vm_compute. lia.
  - split; [exact Hneg | vm_compute; reflexivity].
Defined.

(** ** The pipeline *)

Section RunInversion.

Variable jieba_cut : str → list str.
Variable text_analytics_client : option Sentiment.Client.
Variable to_datetime : str → option Z.
Variable now : Z.
Variable self : FeatureEngineer.t.

Local Abbreviation run :=
  (FeatureEngineer.run jieba_cut text_analytics_client to_datetime now self).
Local Abbreviation make_row :=
  (FeatureEngineer.make_row jieba_cut text_analytics_client self).

(** The two ways in which [run] finishes. *)
Lemma run_finished_inv (place_info : PlaceInfo) (df : DataFrame) (trend : TrendInfo)
    (phrases : KeyPhrases) :
  run place_info = Ok (FeatureEngineer.Finished df trend phrases) →
  (FeatureEngineer.clean (default [] (reviews place_info)) = []
   ∧ df = empty_frame ∧ trend = empty_trend ∧ phrases = empty_phrases)
  ∨ (∃ datetimes,
       FeatureEngineer.clean (default [] (reviews place_info)) ≠ []
       ∧ mapM (λ cells, to_datetime (cells.2))
              (FeatureEngineer.clean (default [] (reviews place_info)))
         = Some datetimes
       ∧ df = mkDF FeatureEngineer.final_columns
                (zip_with make_row (FeatureEngineer.clean (default [] (reviews place_info)))
                          datetimes)
       ∧ phrases
         = mkPhrases
             (Some (take 2 (dict_fromkeys (concat (map
                (λ r, (FeatureEngineer._extract_key_phrases self (text r)).1)
                (df_rows df))))))
             (Some (take 3 (dict_fromkeys (concat (map
                (λ r, (FeatureEngineer._extract_key_phrases self (text r)).2)
                (df_rows df))))))
       ∧ trend
         = mkTrend
             (Some (FeatureEngineer._calculate_f3_trend now (df_rows df) place_info).1.1)
             (Some (FeatureEngineer._calculate_f3_trend now (df_rows df) place_info).1.2)
             (Some (FeatureEngineer._calculate_f3_trend now (df_rows df) place_info).2)
             (Some (default 0%Z (reviewsCount place_info)))
             (Some (default ∅ (reviewsDistribution place_info)))).
Proof.
  unfold FeatureEngineer.run. cbv zeta.
  destruct (default [] (reviews place_info)) as [|r rs] eqn:Hrev.
  { intros [= <- <- <-]. left. repeat split. }
  destruct (negb _); [discriminate|].
  destruct (FeatureEngineer.clean (r :: rs)) as [|c cs] eqn:Hclean.
  { intros [= <- <- <-]. left. repeat split. }
  destruct (mapM _ _) as [datetimes|] eqn:Hd; [|discriminate].
  remember (zip_with make_row (c :: cs) datetimes) as rows eqn:Hrows.
  destruct (FeatureEngineer._calculate_f3_trend _ _ _) as [[hist recent] ts] eqn:Ht.
  intros [= <- <- <-]. right. exists datetimes.
  split; [discriminate|]. split; [reflexivity|]. rewrite <- Hrows.
  split; [reflexivity|].
  cbn [df_rows]. rewrite Ht. cbn [fst snd]. rewrite !map_map. split; reflexivity.
Qed.

End RunInversion.

(** *** Merging the phrases of the reviews *)

Lemma fromkeys_fold (l keys : list str) :
  NoDup keys →
  let merged :=
    fold_left (λ keys x, if bool_decide (x ∈ keys) then keys else keys ++ [x]) l keys in
  NoDup merged ∧ (∀ x, x ∈ merged ↔ x ∈ keys ∨ x ∈ l) ∧ ∃ added, merged = keys ++ added.
Proof.
  cbv zeta. revert keys. induction l as [|y l IH]; intros keys Hnd; cbn [fold_left].
  - split; [exact Hnd|]. split; [|exists []; now rewrite app_nil_r].
    intros x. rewrite elem_of_nil. tauto.
  - destruct (bool_decide (y ∈ keys)) eqn:Hy.
    + apply bool_decide_eq_true in Hy. destruct (IH keys Hnd) as (H1 & H2 & H3).
      split; [exact H1|]. split; [|exact H3].
      intros x. rewrite H2, elem_of_cons. split; [tauto|].
      intros [H|[->|H]]; tauto.
    + apply bool_decide_eq_false in Hy.
      assert (Hnd' : NoDup (keys ++ [y])).
      { apply NoDup_app. split; [exact Hnd|]. split; [|apply NoDup_singleton].
        intros x Hx Hx'. apply list_elem_of_singleton in Hx'. now subst. }
      destruct (IH (keys ++ [y]) Hnd') as (H1 & H2 & added & H3).
      split; [exact H1|]. split.
      * intros x. rewrite H2, elem_of_app, list_elem_of_singleton, elem_of_cons. tauto.
      * exists (y :: added). rewrite H3, <- app_assoc. reflexivity.
Qed.

(** [list(dict.fromkeys(l))] has no duplicates and the elements of [l]. *)
Lemma dict_fromkeys_spec (l : list str) :
  NoDup (dict_fromkeys l) ∧ ∀ x, x ∈ dict_fromkeys l ↔ x ∈ l.
Proof.
  destruct (fromkeys_fold l [] (NoDup_nil_2 : NoDup ([] : list str))) as (H1 & H2 & _).
  split; [exact H1|]. intros x. unfold dict_fromkeys. rewrite H2, elem_of_nil. tauto.
Qed.

Lemma elem_of_concat {A : Type} (x : A) (lists : list (list A)) :
  x ∈ concat lists ↔ ∃ l, l ∈ lists ∧ x ∈ l.
Proof.
  induction lists as [|l lists IH]; cbn [concat].
  - split; [intros H; now apply elem_of_nil in H|].
    intros (l & H & _). now apply elem_of_nil in H.
  - rewrite elem_of_app, IH. split.
    + intros [H|(l' & H1 & H2)]; [exists l | exists l'];
        (split; [|assumption]); [left | now right].
    + intros (l' & H1 & H2). apply elem_of_cons in H1.
      destruct H1 as [->|H1]; [now left | right; eauto].
Qed.

Lemma merged_phrases_spec (n : nat) (lists : list (list str)) :
  let merged := take n (dict_fromkeys (concat lists)) in
  NoDup merged
  ∧ (length merged ≤ n)%nat
  ∧ (∀ p, p ∈ merged → ∃ l, l ∈ lists ∧ p ∈ l)
  ∧ ((length merged < n)%nat → ∀ l p, l ∈ lists → p ∈ l → p ∈ merged).
Proof.
  cbv zeta. destruct (dict_fromkeys_spec (concat lists)) as [Hnd Hel].
  split; [eapply sublist_NoDup; [exact Hnd | apply sublist_take]|].
  split; [rewrite length_take; lia|]. split.
  - intros p Hp. apply subseteq_take, Hel, elem_of_concat in Hp. exact Hp.
  - intros Hlen l p Hl Hp. rewrite length_take in Hlen.
    rewrite take_ge by lia. apply Hel, elem_of_concat. eauto.
Qed.

Lemma extracted_phrases_hit (self : FeatureEngineer.t) (text : str) :
  Forall (Phrase.hits (FeatureEngineer.positive_set self))
         (FeatureEngineer._extract_key_phrases self text).1
  ∧ Forall (Phrase.hits (FeatureEngineer.all_negative_set self))
           (FeatureEngineer._extract_key_phrases self text).2.
Proof.
  unfold FeatureEngineer._extract_key_phrases. cbv zeta.
  destruct (extract_fold_invariant self (re_split text) [] ([], []))
    as (Hneg & _ & _ & Hpos).
  { unfold Phrase.extraction_invariant. cbn. repeat split; [lia | constructor | constructor]. }
  split; [exact Hpos|]. rewrite Hneg. apply Forall_forall. intros p Hp.
  apply subseteq_take, list_elem_of_filter in Hp. tauto.
Qed.

(** X10.  The merged key phrases of a run that analysed some review: the
    positive list has at most two and the negative list at most three
    entries, neither has a duplicate, and every entry was extracted from
    the text of an analysed review and contains a keyword of its lexicon.
    As long as the negative list has fewer than three entries, it holds
    every negative phrase of every review (and likewise for the positive
    list and two). *)
Theorem merged_key_phrases
    (jieba_cut : str → list str) (client : option Sentiment.Client)
    (to_datetime : str → option Z) (now : Z) (self : FeatureEngineer.t)
    (place_info : PlaceInfo) (df : DataFrame) (trend : TrendInfo)
    (phrases : KeyPhrases) :
  FeatureEngineer.run jieba_cut client to_datetime now self place_info
  = Ok (FeatureEngineer.Finished df trend phrases) →
  df_rows df ≠ [] →
  ∃ positive negative,
    positive_points phrases = Some positive
    ∧ key_negative_keywords phrases = Some negative
    ∧ NoDup positive ∧ NoDup negative
    ∧ (length positive ≤ 2)%nat ∧ (length negative ≤ 3)%nat
    ∧ (∀ p, p ∈ negative →
         (∃ row, row ∈ df_rows df
                 ∧ p ∈ (FeatureEngineer._extract_key_phrases self (text row)).2)
         ∧ ∃ keyword, keyword ∈ FeatureEngineer.all_negative_set self
                      ∧ Phrase.occurs_in keyword p)
    ∧ (∀ p, p ∈ positive →
         (∃ row, row ∈ df_rows df
                 ∧ p ∈ (FeatureEngineer._extract_key_phrases self (text row)).1)
         ∧ ∃ keyword, keyword ∈ FeatureEngineer.positive_set self
                      ∧ Phrase.occurs_in keyword p)
    ∧ ((length negative < 3)%nat →
       ∀ row p, row ∈ df_rows df →
                p ∈ (FeatureEngineer._extract_key_phrases self (text row)).2 →
                p ∈ negative)
    ∧ ((length positive < 2)%nat →
       ∀ row p, row ∈ df_rows df →
                p ∈ (FeatureEngineer._extract_key_phrases self (text row)).1 →
                p ∈ positive).
Proof.
  intros Hrun Hrows.
  destruct (run_finished_inv _ _ _ _ _ _ _ _ _ Hrun)
    as [(_ & -> & _)|(datetimes & _ & _ & _ & -> & _)]; [now contradiction Hrows|].
  eexists _, _. split; [reflexivity|]. split; [reflexivity|].
  set (positives := map (λ r, (FeatureEngineer._extract_key_phrases self (text r)).1)
                        (df_rows df)).
  set (negatives := map (λ r, (FeatureEngineer._extract_key_phrases self (text r)).2)
                        (df_rows df)).
  destruct (merged_phrases_spec 2 positives) as (Pnd & Plen & Pfrom & Pall).
  destruct (merged_phrases_spec 3 negatives) as (Nnd & Nlen & Nfrom & Nall).
  split; [exact Pnd|]. split; [exact Nnd|]. split; [exact Plen|]. split; [exact Nlen|].
  split; [|split; [|split]].
  - intros p Hp. destruct (Nfrom p Hp) as (l & Hl & Hpl).
    unfold negatives in Hl. apply list_elem_of_fmap in Hl. destruct Hl as (row & -> & Hrow).
    split; [eauto|]. apply hits_spec.
    destruct (extracted_phrases_hit self (text row)) as [_ H].
    rewrite Forall_forall in H. now apply H.
  - intros p Hp. destruct (Pfrom p Hp) as (l & Hl & Hpl).
    unfold positives in Hl. apply list_elem_of_fmap in Hl. destruct Hl as (row & -> & Hrow).
    split; [eauto|]. apply hits_spec.
    destruct (extracted_phrases_hit self (text row)) as [H _].
    rewrite Forall_forall in H. now apply H.
  - intros Hlen row p Hrow Hp. eapply (Nall Hlen); [|exact Hp].
    unfold negatives. apply list_elem_of_fmap. eauto.
  - intros Hlen row p Hrow Hp. eapply (Pall Hlen); [|exact Hp].
    unfold positives. apply list_elem_of_fmap. eauto.
Qed.

Lemma merged_key_phrases_witness :
  ∃ df trend phrases,
    FeatureEngineer.run Sample.jieba_cut None Sample.to_datetime Sample.now
        Sample.engineer
        (Sample.place [Sample.review 4 "good cake but bad tea";
                       Sample.review 2 Sample.mixed_text])
    = Ok (FeatureEngineer.Finished df trend phrases)
    ∧ ∃ positive negative,
        positive_points phrases = Some positive
        ∧ key_negative_keywords phrases = Some negative
        ∧ NoDup positive ∧ NoDup negative.
Proof.
  assert (Hrun : ∃ df trend phrases,
    FeatureEngineer.run Sample.jieba_cut None Sample.to_datetime Sample.now
        Sample.engineer
        (Sample.place [Sample.review 4 "good cake but bad tea";
                       Sample.review 2 Sample.mixed_text])
    = Ok (FeatureEngineer.Finished df trend phrases) ∧ df_rows df ≠ []).
  { eexists _, _, _. split; [vm_compute; reflexivity | discriminate]. }
  destruct Hrun as (df & trend & phrases & Hrun & Hne).
  exists df, trend, phrases. split; [exact Hrun|].
  destruct (merged_key_phrases _ _ _ _ _ _ _ _ _ Hrun Hne)
    as (positive & negative & H1 & H2 & H3 & H4 & _).
  exists positive, negative. tauto.
Defined.

(** ** Rounding *)

Lemma round_half_even_near (x : Q) :
  inject_Z (round_half_even x) - (1 # 2) <= x
  ∧ x <= inject_Z (round_half_even x) + (1 # 2).
Proof.
  unfold round_half_even. pose proof (Qfloor_le x) as Hlo.
  pose proof (Qlt_floor x) as Hhi. rewrite inject_Z_plus in Hhi.
  change (inject_Z 1) with 1 in Hhi.
  destruct (Qcompare (x - inject_Z (Qfloor x)) (1 # 2)) eqn:Hcmp.
  - apply Qeq_alt in Hcmp. destruct (Z.even (Qfloor x)).
    + split; lra.
    + rewrite inject_Z_plus. change (inject_Z 1) with 1. split; lra.
  - apply Qlt_alt in Hcmp. split; lra.
  - apply Qgt_alt in Hcmp. rewrite inject_Z_plus. change (inject_Z 1) with 1.
    split; lra.
Qed.

Lemma round_half_even_range (x : Q) (lo hi : Z) :
  inject_Z lo <= x → x <= inject_Z hi → (lo <= round_half_even x <= hi)%Z.
Proof.
  intros Hlo Hhi. destruct (round_half_even_near x) as [H1 H2].
  split.
  - assert (H : inject_Z lo < inject_Z (round_half_even x + 1)).
    { rewrite inject_Z_plus. change (inject_Z 1) with 1. lra. }
    rewrite <- Zlt_Qlt in H. lia.
  - assert (H : inject_Z (round_half_even x) < inject_Z (hi + 1)).
    { rewrite inject_Z_plus. change (inject_Z 1) with 1. lra. }
    rewrite <- Zlt_Qlt in H. lia.
Qed.

Lemma py_round_scale_pos (n : nat) : 0 < inject_Z (10 ^ Z.of_nat n).
Proof.
  replace 0 with (inject_Z 0) by reflexivity. rewrite <- Zlt_Qlt.
  apply Z.pow_pos_nonneg; lia.
Qed.

(** [round(x, n)] is within half a unit of the last kept digit. *)
Lemma py_round_near (x : Q) (n : nat) :
  let half_unit := (1 # 2) / inject_Z (10 ^ Z.of_nat n) in
  py_round x n - half_unit <= x ∧ x <= py_round x n + half_unit.
Proof.
  cbv zeta. unfold py_round. cbv zeta.
  pose proof (py_round_scale_pos n) as Hs.
  set (scale := inject_Z (10 ^ Z.of_nat n)) in *.
  destruct (round_half_even_near (x * scale)) as [H1 H2].
  set (r := inject_Z (round_half_even (x * scale))) in *.
  assert (Hne : ¬ scale == 0) by (intros E; rewrite E in Hs; now apply Qlt_irrefl in Hs).
  assert (E1 : r / scale - (1 # 2) / scale == (r - (1 # 2)) / scale) by (field; exact Hne).
  assert (E2 : r / scale + (1 # 2) / scale == (r + (1 # 2)) / scale) by (field; exact Hne).
  rewrite E1, E2. split.
  - apply Qle_shift_div_r; assumption.
  - apply Qle_shift_div_l; assumption.
Qed.

(** Rounding keeps a value between two integers between them. *)
Lemma py_round_range (x : Q) (n : nat) (lo hi : Z) :
  inject_Z lo <= x → x <= inject_Z hi →
  inject_Z lo <= py_round x n ∧ py_round x n <= inject_Z hi.
Proof.
  intros Hlo Hhi. unfold py_round. cbv zeta.
  pose proof (py_round_scale_pos n) as Hs.
  set (k := (10 ^ Z.of_nat n)%Z) in *. set (scale := inject_Z k) in *.
  destruct (round_half_even_range (x * scale) (lo * k) (hi * k)) as [H1 H2].
  - rewrite inject_Z_mult. fold scale.
    apply Qmult_le_compat_r; [exact Hlo | now apply Qlt_le_weak].
  - rewrite inject_Z_mult. fold scale.
    apply Qmult_le_compat_r; [exact Hhi | now apply Qlt_le_weak].
  - rewrite Zle_Qle, inject_Z_mult in H1, H2. fold scale in H1, H2. split.
    + apply Qle_shift_div_l; assumption.
    + apply Qle_shift_div_r; assumption.
Qed.

(** ** The response of [analyze_place] *)

(** The three kinds of summary cannot be confused. *)
Lemma summaries_distinct (r r' : string) :
  LandmineScorer.warning_summary r ≠ LandmineScorer.specific_summary r'
  ∧ LandmineScorer.warning_summary r ≠ LandmineScorer.low_risk_summary
  ∧ LandmineScorer.specific_summary r ≠ LandmineScorer.low_risk_summary.
Proof.
  unfold LandmineScorer.warning_summary, LandmineScorer.specific_summary,
    LandmineScorer.low_risk_summary.
  repeat split; cbn; discriminate.
Qed.

Lemma risk_levels_distinct :
  Main.high_risk_level ≠ Main.medium_risk_level
  ∧ Main.high_risk_level ≠ Main.low_risk_level
  ∧ Main.medium_risk_level ≠ Main.low_risk_level.
Proof. repeat split; discriminate. Qed.

Section ResponseFacts.

Variable jieba_cut : str → list str.
Variable text_analytics_client : option Sentiment.Client.
Variable to_datetime : str → option Z.
Variable now : Z.
Variable engineer : FeatureEngineer.t.
Variable scorer : LandmineScorer.Weights.

Local Abbreviation run :=
  (FeatureEngineer.run jieba_cut text_analytics_client to_datetime now engineer).
Local Abbreviation analyze_place :=
  (Main.analyze_place jieba_cut text_analytics_client to_datetime now engineer scorer).

(** How a response is put together. *)
Lemma analyze_place_inv (place_id : string) (place_info : PlaceInfo)
    (response : Main.AnalyzeResponse) :
  analyze_place place_id place_info = Ok response →
  ∃ df trend phrases score,
    run place_info = Ok (FeatureEngineer.Finished df trend phrases)
    ∧ LandmineScorer.calculate_score scorer df trend
      = Ok (score, Main.summary response)
    ∧ response
      = Main.mkResponse (default place_id (title place_info)) (py_round score 2)
          (if Qltb 70 score then Main.high_risk_level
           else if Qltb 40 score then Main.medium_risk_level
           else Main.low_risk_level)
          (Main.summary response)
          (default [] (key_negative_keywords phrases))
          (default [] (positive_points phrases)) trend.
Proof.
  unfold Main.analyze_place. destruct (run place_info) as [[|df trend phrases]|e] eqn:Hrun;
    cbn [mbind result_bind]; try discriminate.
  destruct (LandmineScorer.calculate_score scorer df trend) as [[score summary]|e] eqn:Hs;
    cbn [mbind result_bind]; try discriminate.
  intros [= <-]. exists df, trend, phrases, score. repeat split. exact Hs.
Qed.

End ResponseFacts.

(** X11.  In every response of [analyze_place] the displayed score is the
    score of [calculate_score] rounded to two decimals: it lies in
    [0, 100] and within 0.005 of the score.  The risk level is decided on
    the unrounded score: high above 70, medium above 40 up to 70, low up to
    40.  The summary is the warning exactly when the level is high. *)
Theorem analyze_place_response
    (jieba_cut : str → list str) (client : option Sentiment.Client)
    (to_datetime : str → option Z) (now : Z) (engineer : FeatureEngineer.t)
    (scorer : LandmineScorer.Weights) (place_id : string) (place_info : PlaceInfo)
    (response : Main.AnalyzeResponse) :
  Main.analyze_place jieba_cut client to_datetime now engineer scorer place_id place_info
  = Ok response →
  ∃ df trend phrases score,
    FeatureEngineer.run jieba_cut client to_datetime now engineer place_info
    = Ok (FeatureEngineer.Finished df trend phrases)
    ∧ LandmineScorer.calculate_score scorer df trend = Ok (score, Main.summary response)
    ∧ Main.landmine_score response = py_round score 2
    ∧ 0 <= Main.landmine_score response <= 100
    ∧ Main.landmine_score response - (5 # 1000) <= score
    ∧ score <= Main.landmine_score response + (5 # 1000)
    ∧ (Main.risk_level response = Main.high_risk_level ↔ 70 < score)
    ∧ (Main.risk_level response = Main.medium_risk_level ↔ 40 < score ∧ score <= 70)
    ∧ (Main.risk_level response = Main.low_risk_level ↔ score <= 40)
    ∧ (Main.risk_level response = Main.high_risk_level
       ↔ ∃ reason, Main.summary response = LandmineScorer.warning_summary reason).
Proof.
  intros H.
  destruct (analyze_place_inv _ _ _ _ _ _ _ _ _ H)
    as (df & trend & phrases & score & Hrun & Hscore & Hresp).
  exists df, trend, phrases, score. split; [exact Hrun|]. split; [exact Hscore|].
  destruct (calculate_score_inv _ _ _ _ _ Hscore) as (f2 & Hf2 & Hw).
  pose proof (weighted_score_in_range scorer (LandmineScorer.f1_of trend) f2
                (LandmineScorer.f3_of trend) (LandmineScorer._calculate_f5_score df))
    as [H0 H100].
  rewrite <- Hw in H0, H100.
  (* the summary, by the two thresholds *)
  assert (Hsum : (70 < score ∧ ∃ reason,
                    Main.summary response = LandmineScorer.warning_summary reason)
                 ∨ (score <= 70
                    ∧ ((∃ reason, Main.summary response
                                  = LandmineScorer.specific_summary reason)
                       ∨ Main.summary response = LandmineScorer.low_risk_summary))).
  { rewrite (calculate_score_unfold _ _ _ _ Hf2) in Hscore. cbv zeta in Hscore.
    rewrite <- Hw in Hscore. case_Qltb 70 score.
    - left. split; [exact E|].
      destruct (Qltb 20 _); [|discriminate]. injection Hscore as <-. eauto.
    - right. split; [exact E|]. injection Hscore as <-.
      destruct (Qltb 20 _); eauto. }
  rewrite Hresp. cbn [Main.landmine_score Main.risk_level Main.summary].
  rewrite Hresp in Hsum. cbn [Main.summary] in Hsum.
  split; [reflexivity|].
  destruct (py_round_range score 2 0 100 H0 H100) as [R0 R100].
  destruct (py_round_near score 2) as [N1 N2].
  change ((1 # 2) / inject_Z (10 ^ Z.of_nat 2)) with ((1 # 2) / 100) in N1, N2.
  assert (Eh : (1 # 2) / 100 == 5 # 1000) by reflexivity. rewrite Eh in N1, N2.
  split; [split; [exact R0 | exact R100]|]. split; [exact N1|]. split; [exact N2|].
  destruct risk_levels_distinct as (Hhm' & Hhl & Hml').
  destruct Hsum as [[H70 Hwarn]|[H70 Hother]].
  - assert (E : Qltb 70 score = true) by (now apply Qltb_lt). rewrite E.
    split; [tauto|]. split; [split; [congruence | intros [_ Hc]; exfalso; lra]|].
    split; [split; [congruence | intros Hc; exfalso; lra]|]. tauto.
  - assert (E : Qltb 70 score = false) by (now apply Qltb_ge). rewrite E.
    assert (Hnowarn : ¬ ∃ reason, Main.summary response
                                  = LandmineScorer.warning_summary reason).
    { intros [reason Hr]. rewrite Hresp in Hr. cbn [Main.summary] in Hr.
      destruct Hother as [[reason' Hs]|Hs]; rewrite Hs in Hr; symmetry in Hr;
        now apply summaries_distinct in Hr. }
    rewrite Hresp in Hnowarn. cbn [Main.summary] in Hnowarn.
    case_Qltb 40 score.
    + split; [split; [congruence | intros Hc; exfalso; lra]|].
      split; [tauto|]. split; [split; [congruence | intros Hc; exfalso; lra]|].
      split; [congruence | tauto].
    + split; [split; [congruence | intros Hc; exfalso; lra]|].
      split; [split; [congruence | intros [Hc _]; exfalso; lra]|].
      split; [tauto|]. split; [congruence | tauto].
Qed.

Lemma analyze_place_response_witness :
  ∃ response,
    Main.analyze_place Sample.jieba_cut None Sample.to_datetime Sample.now
        Sample.engineer LandmineScorer.default_weights "place"
        (Sample.place Sample.ten_reviews)
    = Ok response
    ∧ 0 <= Main.landmine_score response <= 100
    ∧ (Main.risk_level response = Main.high_risk_level
       ↔ ∃ reason, Main.summary response = LandmineScorer.warning_summary reason).
Proof.
  assert (H : ∃ response,
    Main.analyze_place Sample.jieba_cut None Sample.to_datetime Sample.now
        Sample.engineer LandmineScorer.default_weights "place"
        (Sample.place Sample.ten_reviews)
    = Ok response) by (eexists; vm_compute; reflexivity).
  destruct H as [response H]. exists response. split; [exact H|].
  destruct (analyze_place_response _ _ _ _ _ _ _ _ _ H)
    as (df & trend & phrases & score & _ & _ & _ & Hrange & _ & _ & _ & _ & _ & Hwarn).
  split; [exact Hrange | exact Hwarn].
Defined.

(** The scorer on the empty frame with the empty trend dict, for any
    weights. *)
Lemma calculate_score_empty (w : LandmineScorer.Weights) :
  LandmineScorer.calculate_score w empty_frame empty_trend
  = Ok (0, LandmineScorer.low_risk_summary).
Proof.
  assert (Hf2 : LandmineScorer._calculate_f2_score empty_frame = Ok 0) by reflexivity.
  rewrite (calculate_score_unfold w empty_frame empty_trend 0 Hf2). cbv zeta.
  change (LandmineScorer.f1_of empty_trend) with 0.
  change (LandmineScorer._calculate_f5_score empty_frame) with 0.
  assert (Hf3 : LandmineScorer.f3_of empty_trend == 0) by reflexivity.
  set (f3 := LandmineScorer.f3_of empty_trend) in *.
  assert (Hmax : Qltb 20 (LandmineScorer.max_sub_score 0 0 f3 0) = false).
  { unfold LandmineScorer.max_sub_score, py_max_list. cbn [fold_left].
    rewrite Hf3. reflexivity. }
  rewrite Hmax.
  assert (Hw : LandmineScorer.weighted_score w 0 0 f3 0 = 0).
  { unfold LandmineScorer.weighted_score. cbv zeta.
    set (x := 0 * LandmineScorer.f1_neg_reviews w + 0 * LandmineScorer.f2_keywords w
              + f3 * LandmineScorer.f3_trend w + 0 * LandmineScorer.f5_sentiment w).
    assert (Hx : x == 0) by (unfold x; rewrite Hf3; ring).
    unfold py_min. assert (E1 : Qltb 100 x = false) by (rewrite Hx; reflexivity).
    rewrite E1. unfold py_max.
    assert (E2 : Qltb 0 x = false) by (rewrite Hx; reflexivity). now rewrite E2. }
  rewrite Hw. reflexivity.
Qed.

(** X12.  When no review is left to analyse (the place has no reviews, or
    every review lacks a value or has a blank text, the three keys being
    present in the batch), [analyze_place] answers without error, for any
    weights: score 0, the low risk level, the low-risk summary, no phrases
    and an empty details dict. *)
Theorem analyze_place_nothing_to_analyse
    (jieba_cut : str → list str) (client : option Sentiment.Client)
    (to_datetime : str → option Z) (now : Z) (engineer : FeatureEngineer.t)
    (scorer : LandmineScorer.Weights) (place_id : string) (place_info : PlaceInfo) :
  let batch := default [] (reviews place_info) in
  (batch = [] ∨ FeatureEngineer.has_required_columns batch = true) →
  FeatureEngineer.clean batch = [] →
  ∃ response,
    Main.analyze_place jieba_cut client to_datetime now engineer scorer place_id place_info
    = Ok response
    ∧ Main.place_name response = default place_id (title place_info)
    ∧ Main.landmine_score response == 0
    ∧ Main.risk_level response = Main.low_risk_level
    ∧ Main.summary response = LandmineScorer.low_risk_summary
    ∧ Main.response_negative_keywords response = []
    ∧ Main.response_positive_points response = []
    ∧ Main.details response = empty_trend.
Proof.
  cbv zeta. intros Hcols Hclean.
  assert (Hrun : FeatureEngineer.run jieba_cut client to_datetime now engineer place_info
                 = Ok (FeatureEngineer.Finished empty_frame empty_trend empty_phrases)).
  { unfold FeatureEngineer.run. cbv zeta.
    destruct (default [] (reviews place_info)) as [|r rs]; [reflexivity|].
    destruct Hcols as [Hc|Hc]; [discriminate|]. rewrite Hc. cbn [negb].
    now rewrite Hclean. }
  unfold Main.analyze_place. rewrite Hrun. cbn [mbind result_bind].
  rewrite calculate_score_empty. cbn [mbind result_bind].
  eexists. split; [reflexivity|]. cbn. repeat split.
Qed.

Lemma analyze_place_nothing_to_analyse_witness :
  ∃ response,
    Main.analyze_place Sample.jieba_cut None Sample.to_datetime Sample.now
        Sample.engineer Sample.aggressive_weights "place"
        (Sample.place [Sample.review 1 "   "; mkRaw Null (Val (Sample.u "bad")) Absent])
    = Ok response
    ∧ Main.landmine_score response == 0
    ∧ Main.summary response = LandmineScorer.low_risk_summary.
Proof.
  destruct (analyze_place_nothing_to_analyse Sample.jieba_cut None Sample.to_datetime
              Sample.now Sample.engineer Sample.aggressive_weights "place"
              (Sample.place [Sample.review 1 "   ";
                             mkRaw Null (Val (Sample.u "bad")) Absent]))
    as (response & H & _ & Hs & _ & Hsum & _).
  - right. reflexivity.
  - reflexivity.
  - exists response. tauto.
Defined.

(** X13.  With the default weights, [analyze_place] has exactly three
    outcomes on a fetched place.  A non-empty batch in which one of the
    three keys never occurs gives HTTP 500; a batch whose kept rows include
    a date that does not parse raises the parser's error; in every other
    case a response is returned. *)
Theorem analyze_place_outcomes
    (jieba_cut : str → list str) (client : option Sentiment.Client)
    (to_datetime : str → option Z) (now : Z) (engineer : FeatureEngineer.t)
    (place_id : string) (place_info : PlaceInfo) :
  let batch := default [] (reviews place_info) in
  let result :=
    Main.analyze_place jieba_cut client to_datetime now engineer
      LandmineScorer.default_weights place_id place_info in
  (batch ≠ [] → FeatureEngineer.has_required_columns batch = false →
   result = Raise (HTTPException 500 "特徵工程執行失敗。"))
  ∧ (FeatureEngineer.has_required_columns batch = true →
     Exists (λ cells, to_datetime (cells.2) = None) (FeatureEngineer.clean batch) →
     result = Raise DateParseError)
  ∧ (batch = [] ∨ FeatureEngineer.has_required_columns batch = true →
     Forall (λ cells, is_Some (to_datetime (cells.2))) (FeatureEngineer.clean batch) →
     ∃ response, result = Ok response).
Proof.
  cbv zeta. unfold Main.analyze_place, FeatureEngineer.run. cbv zeta.
  destruct (default [] (reviews place_info)) as [|r rs] eqn:Hbatch.
  - split; [intros H; now contradiction H|]. split; [discriminate|].
    intros _ _. cbn [mbind result_bind]. rewrite calculate_score_empty.
    cbn [mbind result_bind]. eauto.
  - split; [|split].
    + intros _ ->. reflexivity.
    + intros -> Hbad. cbn [negb].
      destruct (FeatureEngineer.clean (r :: rs)) as [|c cs] eqn:Hclean;
        [now apply Exists_nil in Hbad|].
      apply mapM_None in Hbad. now rewrite Hbad.
    + intros [Hc|Hc] Hdates; [discriminate|]. rewrite Hc. cbn [negb].
      destruct (FeatureEngineer.clean (r :: rs)) as [|c cs] eqn:Hclean.
      * cbn [mbind result_bind]. rewrite calculate_score_empty.
        cbn [mbind result_bind]. eauto.
      * apply mapM_is_Some in Hdates. destruct Hdates as [datetimes Hd]. rewrite Hd.
        remember (zip_with (FeatureEngineer.make_row jieba_cut client engineer)
                           (c :: cs) datetimes) as rows.
        destruct (FeatureEngineer._calculate_f3_trend now rows place_info)
          as [[hist recent] ts].
        cbn [mbind result_bind].
        set (df := mkDF FeatureEngineer.final_columns rows).
        destruct (f2_score_returns df) as [f2 Hf2]; [right; repeat split|].
        destruct (calculate_score_default_returns df
                    (mkTrend (Some hist) (Some recent) (Some ts)
                       (Some (default 0%Z (reviewsCount place_info)))
                       (Some (default ∅ (reviewsDistribution place_info)))) f2 Hf2)
          as [summary Hs].
        rewrite Hs. cbn [mbind result_bind]. eauto.
Qed.

Lemma analyze_place_outcomes_witness :
  Main.analyze_place Sample.jieba_cut None (λ _, None) Sample.now Sample.engineer
    LandmineScorer.default_weights "place" (Sample.place [Sample.review 5 "fine"])
  = Raise DateParseError
  ∧ ∃ response,
      Main.analyze_place Sample.jieba_cut None Sample.to_datetime Sample.now
        Sample.engineer LandmineScorer.default_weights "place"
        (Sample.place Sample.twenty_reviews)
      = Ok response.
Proof.
  split.
  - apply (proj1 (proj2 (analyze_place_outcomes Sample.jieba_cut None (λ _, None)
                           Sample.now Sample.engineer "place"
                           (Sample.place [Sample.review 5 "fine"])))).
    + reflexivity.
    + left. reflexivity.
  - apply (proj2 (proj2 (analyze_place_outcomes Sample.jieba_cut None Sample.to_datetime
                           Sample.now Sample.engineer "place"
                           (Sample.place Sample.twenty_reviews)))).
    + right. reflexivity.
    + vm_compute. repeat constructor; eexists; reflexivity.
Defined.

(** ** The rows of the frame *)

Lemma intersection_size_le (tier tokens : gset str) :
  (size (tier ∩ tokens) ≤ size tier)%nat ∧ (size (tier ∩ tokens) ≤ size tokens)%nat.
Proof.
  split; apply subseteq_size;
    [apply intersection_subseteq_l | apply intersection_subseteq_r].
Qed.

(** X14.  Every row of a frame that [run] returns comes from a review with
    a text that is not blank and a date that parsed to the row's
    [datetime]; its flags follow its rating and the length of its text;
    each keyword count lies between 0 and the size of its tier; and its
    sentiment score is what the sentiment function gives for its text. *)
Theorem run_row_invariant
    (jieba_cut : str → list str) (client : option Sentiment.Client)
    (to_datetime : str → option Z) (now : Z) (self : FeatureEngineer.t)
    (place_info : PlaceInfo) (df : DataFrame) (trend : TrendInfo)
    (phrases : KeyPhrases) :
  FeatureEngineer.run jieba_cut client to_datetime now self place_info
  = Ok (FeatureEngineer.Finished df trend phrases) →
  Forall (λ row,
      strip (text row) ≠ []
      ∧ to_datetime (datetime_str row) = Some (datetime row)
      ∧ (is_negative row = true ↔ (rating row <= 2)%Z)
      ∧ (is_long_review row = true ↔ (100 < length (text row))%nat)
      ∧ (0 <= high_risk_keyword_count row
         <= Z.of_nat (size (FeatureEngineer.high_risk_set self)))%Z
      ∧ (0 <= medium_risk_keyword_count row
         <= Z.of_nat (size (FeatureEngineer.medium_risk_set self)))%Z
      ∧ (0 <= low_risk_keyword_count row
         <= Z.of_nat (size (FeatureEngineer.low_risk_set self)))%Z
      ∧ sentiment_score row = Sentiment.get_sentiment_score client (text row))
    (df_rows df).
Proof.
  intros Hrun.
  destruct (run_finished_inv _ _ _ _ _ _ _ _ _ Hrun)
    as [(_ & -> & _)|(datetimes & _ & Hd & -> & _)]; [constructor|].
  cbn [df_rows]. apply mapM_Some in Hd.
  assert (Hclean : Forall (λ cells : Z * str * str, strip (cells.1.2) ≠ [])
                          (FeatureEngineer.clean (default [] (reviews place_info)))).
  { apply Forall_forall. intros cells Hin. apply elem_of_clean in Hin.
    destruct Hin as (_ & _ & _ & _ & _ & H). exact H. }
  clear Hrun. revert Hclean Hd.
  generalize (FeatureEngineer.clean (default [] (reviews place_info))).
  intros cleaned Hclean Hd. revert Hclean.
  induction Hd as [|cells parsed cleaned datetimes Hparse _ IH]; intros Hclean;
    [constructor|].
  apply Forall_cons in Hclean. destruct Hclean as [Hc Hcs].
  cbn [zip_with]. constructor; [|now apply IH].
  destruct cells as [[stars_cell text_cell] date_cell]. cbn in Hc, Hparse.
  unfold FeatureEngineer.make_row, FeatureEngineer._calculate_f1_depth,
    FeatureEngineer._calculate_f2_keywords_jieba.
  cbn [text rating datetime_str datetime
       is_negative is_long_review high_risk_keyword_count medium_risk_keyword_count
       low_risk_keyword_count sentiment_score].
  split; [exact Hc|]. split; [exact Hparse|].
  split; [apply Z.leb_le|]. split; [apply Nat.ltb_lt|].
  pose proof (intersection_size_le (FeatureEngineer.high_risk_set self)
                (list_to_set (jieba_cut text_cell))) as [Hh _].
  pose proof (intersection_size_le (FeatureEngineer.medium_risk_set self)
                (list_to_set (jieba_cut text_cell))) as [Hm _].
  pose proof (intersection_size_le (FeatureEngineer.low_risk_set self)
                (list_to_set (jieba_cut text_cell))) as [Hl _].
  repeat split; lia.
Qed.

Lemma run_row_invariant_witness :
  ∃ df trend phrases,
    FeatureEngineer.run Sample.jieba_cut None Sample.to_datetime Sample.now
        Sample.engineer (Sample.place Sample.twenty_reviews)
    = Ok (FeatureEngineer.Finished df trend phrases)
    ∧ Forall (λ row,
          strip (text row) ≠ []
          ∧ (is_negative row = true ↔ (rating row <= 2)%Z)
          ∧ sentiment_score row = Sentiment.get_sentiment_score None (text row))
        (df_rows df).
Proof.
  assert (H : ∃ df trend phrases,
    FeatureEngineer.run Sample.jieba_cut None Sample.to_datetime Sample.now
        Sample.engineer (Sample.place Sample.twenty_reviews)
    = Ok (FeatureEngineer.Finished df trend phrases))
    by (do 3 eexists; vm_compute; reflexivity).
  destruct H as (df & trend & phrases & H). exists df, trend, phrases.
  split; [exact H|].
  eapply Forall_impl; [exact (run_row_invariant _ _ _ _ _ _ _ _ _ H)|].
  intros row (Ht & _ & Hn & _ & _ & _ & _ & Hs). auto.
Defined.

(** ** The trend *)

Lemma py_round_zero (x : Q) (n : nat) : x == 0 → py_round x n == 0.
Proof.
  intros Hx. rewrite (py_round_proper x 0 Hx n n eq_refl).
  unfold py_round. cbv zeta. unfold round_half_even.
  assert (E : 0 * inject_Z (10 ^ Z.of_nat n) == 0) by ring.
  assert (Hs : 0 < inject_Z (10 ^ Z.of_nat n)).
  { replace 0 with (inject_Z 0) by reflexivity.
    rewrite <- Zlt_Qlt. apply Z.pow_pos_nonneg; lia. }
  assert (F : Qfloor (0 * inject_Z (10 ^ Z.of_nat n)) = 0%Z)
    by (rewrite (Qfloor_comp _ _ E); reflexivity).
  rewrite F.
  assert (C : Qcompare (0 * inject_Z (10 ^ Z.of_nat n) - inject_Z 0) (1 # 2) = Lt).
  { apply Qlt_alt. rewrite E. reflexivity. }
  rewrite C. field. intros Hz. rewrite Hz in Hs. discriminate.
Qed.

(** X15.  The trend looks only at the reviews of the last 90 days.  With at
    most five of them there is no recent average, the trend score is 0 and
    so is sub-score F3.  When the place declares its [totalScore], older
    reviews do not change the result at all.  When it does not and every
    review is recent, the historical average is the recent one and the
    trend score is 0. *)
Theorem trend_recent_window (now : Z) (rows : list Row) (place_info : PlaceInfo) :
  let recent :=
    filter (λ r, (now - FeatureEngineer.ninety_days <= datetime r)%Z) rows in
  let trend := FeatureEngineer._calculate_f3_trend now rows place_info in
  ((length recent ≤ 5)%nat →
     trend.1.2 = None ∧ trend.2 == 0
     ∧ LandmineScorer._calculate_f3_score (trend.2) == 0)
  ∧ (is_Some (totalScore place_info) →
     trend = FeatureEngineer._calculate_f3_trend now recent place_info)
  ∧ (totalScore place_info = None → recent = rows → trend.2 == 0).
Proof.
  cbv zeta. unfold FeatureEngineer._calculate_f3_trend. cbv zeta.
  set (recent := filter (λ r, (now - FeatureEngineer.ninety_days <= datetime r)%Z) rows).
  split; [|split].
  - intros Hlen. apply Nat.ltb_ge in Hlen. rewrite Hlen. cbn [fst snd fmap option_fmap option_map].
    split; [reflexivity|]. split; [now apply py_round_zero|].
    apply f3_score_no_decline. rewrite (py_round_zero 0 3); [apply Qle_refl|reflexivity].
  - intros [h Hh]. rewrite Hh. cbn [default from_option id].
    assert (E : filter (λ r, (now - FeatureEngineer.ninety_days <= datetime r)%Z) recent
                = recent).
    { unfold recent. rewrite list_filter_filter. apply list_filter_iff. tauto. }
    rewrite E. reflexivity.
  - intros Hnone Hall. rewrite Hnone, Hall. cbn [default from_option id].
    destruct (5 <? length rows)%nat; cbn [fst snd]; apply py_round_zero; [ring|reflexivity].
Qed.

(** ** The fetch from Apify *)

Section FetchFacts.

Variable APIFY_API_TOKEN : option string.
Variable post_run : string → Apify.ActorInput → Apify.attempt (string * string).
Variable get_status : nat → string → Apify.attempt string.
Variable get_items : string → Apify.attempt (list PlaceInfo).

Local Abbreviation fetch :=
  (Apify._run_apify_actor_and_get_data APIFY_API_TOKEN post_run get_status get_items).

(** The polling loop leaves within its fuel exactly when some round within
    the fuel ends it, every earlier round having found the run going; it
    has then requested the status once per round and slept 15 seconds
    between two rounds. *)
Lemma poll_leaves (fuel : nat) (url : string) (n : nat)
    (outcome : Apify.attempt string) (events : list Apify.Event) :
  Apify.poll get_status fuel url n = Some (outcome, events)
  ↔ ∃ k, (k < fuel)%nat
         ∧ (∀ i, (i < k)%nat → Polling.still_running get_status url (n + i))
         ∧ Polling.leaves_with get_status url (n + k) outcome
         ∧ events = Polling.polling url k.
Proof.
  revert n outcome events. induction fuel as [|fuel IH]; intros n outcome events.
  - cbn [Apify.poll]. split; [discriminate|]. intros (k & Hk & _). lia.
  - cbn [Apify.poll].
    destruct (get_status n url) as [status|e] eqn:Hn.
    + destruct (bool_decide (status ∈ Apify.final_statuses)) eqn:Hfinal.
      * apply bool_decide_eq_true in Hfinal. split.
        -- intros [= <- <-]. exists 0%nat. rewrite Nat.add_0_r.
           repeat split; [lia | intros i Hi; lia | exact Hn | exact Hfinal].
        -- intros (k & _ & Hrun & [Hk Hout] & ->). destruct k as [|k].
           ++ rewrite Nat.add_0_r, Hn in Hk. subst outcome. reflexivity.
           ++ destruct (Hrun 0%nat) as (s & Hs & Hnot); [lia|].
              rewrite Nat.add_0_r, Hn in Hs. injection Hs as <-. contradiction.
      * apply bool_decide_eq_false in Hfinal. split.
        -- destruct (Apify.poll get_status fuel url (S n)) as [[outcome' events']|] eqn:Hp;
             cbn [mbind option_bind]; [|discriminate].
           intros [= <- <-]. apply IH in Hp.
           destruct Hp as (k & Hk & Hrun & Hleave & ->).
           exists (S k). split; [lia|]. split; [|split].
           ++ intros [|i] Hi.
              ** rewrite Nat.add_0_r. exists status. split; assumption.
              ** replace (n + S i)%nat with (S n + i)%nat by lia. apply Hrun. lia.
           ++ replace (n + S k)%nat with (S n + k)%nat by lia. exact Hleave.
           ++ reflexivity.
        -- intros (k & Hk & Hrun & [Hout Hfin] & ->). destruct k as [|k].
           ++ rewrite Nat.add_0_r, Hn in Hout. subst outcome. contradiction.
           ++ assert (Hp : Apify.poll get_status fuel url (S n)
                           = Some (outcome, Polling.polling url k)).
              { apply IH. exists k. split; [lia|]. split; [|split].
                - intros i Hi. replace (S n + i)%nat with (n + S i)%nat by lia.
                  apply Hrun. lia.
                - replace (S n + k)%nat with (n + S k)%nat by lia. split; assumption.
                - reflexivity. }
              rewrite Hp. reflexivity.
    + split.
      * intros [= <- <-]. exists 0%nat. rewrite Nat.add_0_r.
        repeat split; [lia | intros i Hi; lia | exact Hn].
      * intros (k & _ & Hrun & [Hk Hout] & ->). destruct k as [|k].
        -- rewrite Nat.add_0_r, Hn in Hk. subst outcome. reflexivity.
        -- destruct (Hrun 0%nat) as (s & Hs & _); [lia|].
           rewrite Nat.add_0_r, Hn in Hs. discriminate.
Qed.

(** While every round finds the run going, the loop does not leave. *)
Lemma poll_running (fuel : nat) (url : string) (n : nat) :
  (∀ i, Polling.still_running get_status url (n + i)) →
  Apify.poll get_status fuel url n = None.
Proof.
  intros Hrun.
  destruct (Apify.poll get_status fuel url n) as [[outcome events]|] eqn:Hp;
    [|reflexivity].
  apply poll_leaves in Hp. destruct Hp as (k & _ & _ & [Hout Hfin] & _).
  destruct (Hrun k) as (s & Hs & Hnot). rewrite Hs in Hout. subst outcome.
  contradiction.
Qed.

(** A loop that never leaves finds the run going in every round. *)
Lemma poll_never_leaves (url : string) :
  (∀ fuel, Apify.poll get_status fuel url 0 = None) →
  ∀ n, Polling.still_running get_status url n.
Proof.
  intros Hnone n. induction n as [n IH] using lt_wf_ind.
  destruct (get_status n url) as [status|e] eqn:Hn.
  - destruct (decide (status ∈ Apify.final_statuses)) as [Hfinal|Hfinal].
    + assert (Hp : Apify.poll get_status (S n) url 0
                   = Some (Apify.Returned status, Polling.polling url n)).
      { apply poll_leaves. exists n. repeat split; [lia | | exact Hn | exact Hfinal].
        intros i Hi. apply IH. exact Hi. }
      rewrite Hnone in Hp. discriminate.
    + exists status. split; assumption.
  - assert (Hp : Apify.poll get_status (S n) url 0
                 = Some (Apify.Raised e, Polling.polling url n)).
    { apply poll_leaves. exists n. repeat split; [lia | | exact Hn].
      intros i Hi. apply IH. exact Hi. }
    rewrite Hnone in Hp. discriminate.
Qed.

(** X16.  The fetch returns data exactly when the token is set, the actor
    has been started, some status request within the fuel is answered
    SUCCEEDED after the run was found going at every earlier one, and the
    dataset request returns the data.  It has then sent the start request,
    one status request per round with 15 seconds of sleep between two
    rounds, and one dataset request at the end. *)
Theorem fetch_returns_data (fuel : nat) (place_id : string) (data : list PlaceInfo)
    (events : list Apify.Event) :
  fetch fuel place_id = Some (Apify.Returned data, events)
  ↔ ∃ token run_id dataset_id k,
      APIFY_API_TOKEN = Some token ∧ token ≠ ""%string
      ∧ post_run (Apify.runs_url token)
                 (Apify.mkInput [Apify.Maps_url place_id] 50 "zh-TW")
        = Apify.Returned (run_id, dataset_id)
      ∧ (k < fuel)%nat
      ∧ (∀ i, (i < k)%nat →
           Polling.still_running get_status (Apify.status_url token run_id) i)
      ∧ get_status k (Apify.status_url token run_id) = Apify.Returned "SUCCEEDED"%string
      ∧ get_items (Apify.items_url token dataset_id) = Apify.Returned data
      ∧ events
        = Apify.Post (Apify.runs_url token)
                     (Apify.mkInput [Apify.Maps_url place_id] 50 "zh-TW")
          :: Polling.polling (Apify.status_url token run_id) k
          ++ [Apify.Get (Apify.items_url token dataset_id)].
Proof.
  unfold Apify._run_apify_actor_and_get_data. split.
  - destruct APIFY_API_TOKEN as [token|]; [|discriminate].
    destruct (bool_decide (token = ""%string)) eqn:Htoken; [discriminate|].
    apply bool_decide_eq_false in Htoken. cbv zeta.
    destruct (post_run _ _) as [[run_id dataset_id]|e] eqn:Hpost; [|discriminate].
    destruct (Apify.poll get_status fuel _ 0) as [[outcome polled]|] eqn:Hp;
      cbn [mbind option_bind]; [|discriminate].
    destruct outcome as [status|e]; [|discriminate].
    destruct (bool_decide (status = "SUCCEEDED"%string)) eqn:Hs; [|discriminate].
    apply bool_decide_eq_true in Hs. subst status.
    intros [= Hitems <-]. apply poll_leaves in Hp.
    destruct Hp as (k & Hk & Hrun & [Hout _] & ->).
    exists token, run_id, dataset_id, k. repeat split; assumption.
  - intros (token & run_id & dataset_id & k & -> & Htoken & Hpost & Hk & Hrun
            & Hout & Hitems & ->).
    rewrite (bool_decide_eq_false_2 _ Htoken). cbv zeta. rewrite Hpost.
    assert (Hp : Apify.poll get_status fuel (Apify.status_url token run_id) 0
                 = Some (Apify.Returned "SUCCEEDED"%string,
                         Polling.polling (Apify.status_url token run_id) k)).
    { apply poll_leaves. exists k. repeat split; [exact Hk | exact Hrun | exact Hout|].
      unfold Apify.final_statuses. set_solver. }
    rewrite Hp. cbn [mbind option_bind]. rewrite Hitems. reflexivity.
Qed.

Lemma elem_of_polling (url : string) (k : nat) (event : Apify.Event) :
  event ∈ Polling.polling url k → event = Apify.Get url ∨ event = Apify.Sleep 15.
Proof.
  induction k as [|k IH]; cbn [Polling.polling].
  - intros H. apply list_elem_of_singleton in H. now left.
  - rewrite !elem_of_cons. intros [H|[H|H]]; [now left | now right | now apply IH].
Qed.

Lemma seconds_slept_polling (url : string) (k : nat) :
  Polling.seconds_slept (Polling.polling url k) = (15 * Z.of_nat k)%Z.
Proof.
  induction k as [|k IH]; [reflexivity|].
  cbn [Polling.polling]. unfold Polling.seconds_slept in *. cbn [foldr].
  rewrite IH. lia.
Qed.

(** X17.  When the run ends in a final status other than SUCCEEDED, the
    fetch raises the runtime error that names the status.  It has slept 15
    seconds for each round that found the run going, and it has not
    requested the dataset. *)
Theorem fetch_job_not_succeeded (fuel : nat) (place_id token run_id dataset_id : string)
    (status : string) (k : nat) :
  APIFY_API_TOKEN = Some token → token ≠ ""%string →
  post_run (Apify.runs_url token)
           (Apify.mkInput [Apify.Maps_url place_id] 50 "zh-TW")
  = Apify.Returned (run_id, dataset_id) →
  (k < fuel)%nat →
  (∀ i, (i < k)%nat →
     Polling.still_running get_status (Apify.status_url token run_id) i) →
  get_status k (Apify.status_url token run_id) = Apify.Returned status →
  status ∈ Apify.final_statuses → status ≠ "SUCCEEDED"%string →
  ∃ events,
    fetch fuel place_id
    = Some (Apify.Raised
              (Apify.RuntimeError ("Apify 任務未能成功完成，最終狀態為: " +:+ status)),
            events)
    ∧ Polling.seconds_slept events = (15 * Z.of_nat k)%Z
    ∧ Apify.Get (Apify.items_url token dataset_id) ∉ events.
Proof.
  intros Htoken Hne Hpost Hk Hrun Hout Hfinal Hfailed.
  exists (Apify.Post (Apify.runs_url token)
                     (Apify.mkInput [Apify.Maps_url place_id] 50 "zh-TW")
          :: Polling.polling (Apify.status_url token run_id) k).
  split; [|split].
  - unfold Apify._run_apify_actor_and_get_data. rewrite Htoken.
    rewrite (bool_decide_eq_false_2 _ Hne). cbv zeta. rewrite Hpost.
    assert (Hp : Apify.poll get_status fuel (Apify.status_url token run_id) 0
                 = Some (Apify.Returned status,
                         Polling.polling (Apify.status_url token run_id) k)).
    { apply poll_leaves. exists k. repeat split; assumption. }
    rewrite Hp. cbn [mbind option_bind].
    rewrite (bool_decide_eq_false_2 _ Hfailed). reflexivity.
  - apply (seconds_slept_polling (Apify.status_url token run_id) k).
  - rewrite not_elem_of_cons. split; [discriminate|].
    intros Hin. apply elem_of_polling in Hin. destruct Hin as [Hin|Hin]; [|discriminate].
    injection Hin as Hin. unfold Apify.items_url, Apify.status_url in Hin.
    cbn in Hin. discriminate.
Qed.

(** X18.  The fetch has no time limit of its own: it stays in the polling
    loop for ever exactly when the token is set, the actor has been
    started, and every status request is answered with a status that is
    not final. *)
Theorem fetch_never_returns (place_id : string) :
  (∀ fuel, fetch fuel place_id = None)
  ↔ ∃ token run_id dataset_id,
      APIFY_API_TOKEN = Some token ∧ token ≠ ""%string
      ∧ post_run (Apify.runs_url token)
                 (Apify.mkInput [Apify.Maps_url place_id] 50 "zh-TW")
        = Apify.Returned (run_id, dataset_id)
      ∧ ∀ n, Polling.still_running get_status (Apify.status_url token run_id) n.
Proof.
  unfold Apify._run_apify_actor_and_get_data. split.
  - intros Hnone. destruct APIFY_API_TOKEN as [token|]; [|now specialize (Hnone 0%nat)].
    destruct (bool_decide (token = ""%string)) eqn:Htoken;
      [now specialize (Hnone 0%nat)|].
    apply bool_decide_eq_false in Htoken. cbv zeta in Hnone.
    destruct (post_run _ _) as [[run_id dataset_id]|e] eqn:Hpost;
      [|now specialize (Hnone 0%nat)].
    exists token, run_id, dataset_id.
    split; [reflexivity|]. split; [exact Htoken|]. split; [exact Hpost|].
    apply poll_never_leaves. intros fuel. specialize (Hnone fuel).
    destruct (Apify.poll get_status fuel _ 0) as [[outcome polled]|] eqn:Hp;
      [|reflexivity].
    cbn [mbind option_bind] in Hnone. destruct outcome as [status|e]; [|discriminate].
    destruct (bool_decide (status = "SUCCEEDED"%string)); discriminate.
  - intros (token & run_id & dataset_id & -> & Htoken & Hpost & Hrun) fuel.
    rewrite (bool_decide_eq_false_2 _ Htoken). cbv zeta. rewrite Hpost.
    rewrite poll_running; [reflexivity|]. intros i. apply Hrun.
Qed.

End FetchFacts.

Lemma fetch_job_not_succeeded_witness :
  ∃ events,
    Apify._run_apify_actor_and_get_data (Some "token"%string) SampleServer.post_run
      (SampleServer.get_status "ABORTED") SampleServer.get_items 3 "place"
    = Some (Apify.Raised
              (Apify.RuntimeError ("Apify 任務未能成功完成，最終狀態為: " +:+ "ABORTED")),
            events)
    ∧ Polling.seconds_slept events = 30%Z
    ∧ Apify.Get (Apify.items_url "token" "dataset") ∉ events.
Proof.
  apply (fetch_job_not_succeeded (Some "token"%string) SampleServer.post_run
           (SampleServer.get_status "ABORTED") SampleServer.get_items
           3 "place" "token" "run" "dataset" "ABORTED" 2).
  - reflexivity.
  - discriminate.
  - reflexivity.
  - lia.
  - intros i Hi. exists "RUNNING"%string. split.
    + unfold SampleServer.get_status. apply Nat.ltb_lt in Hi. now rewrite Hi.
    + unfold Apify.final_statuses. intros H. apply (bool_decide_pack _) in H.
      vm_compute in H. exact H.
  - reflexivity.
  - unfold Apify.final_statuses. apply (bool_decide_unpack _). vm_compute. exact I.
  - discriminate.
Defined.

(** ** The endpoint and its cache *)

Lemma find_reviews_app (stored more : list (string * RawReview)) (place_id : string) :
  Endpoint.find_reviews (stored ++ more) place_id
  = Endpoint.find_reviews stored place_id ++ Endpoint.find_reviews more place_id.
Proof. unfold Endpoint.find_reviews. now rewrite filter_app, fmap_app. Qed.

Lemma find_reviews_inserted (place_id other : string) (reviews_list : list RawReview) :
  Endpoint.find_reviews (map (pair place_id) reviews_list) other
  = if decide (place_id = other) then reviews_list else [].
Proof.
  unfold Endpoint.find_reviews.
  induction reviews_list as [|review reviews_list IH]; cbn [map].
  - now destruct (decide _).
  - destruct (decide (place_id = other)) as [Heq|Hne].
    + rewrite filter_cons_True by exact Heq. cbn [fmap list_fmap snd].
      f_equal. exact IH.
    + rewrite filter_cons_False by exact Hne. exact IH.
Qed.

Section EndpointFacts.

Variable jieba_cut : str → list str.
Variable text_analytics_client : option Sentiment.Client.
Variable to_datetime : str → option Z.
Variable now : Z.
Variable engineer : FeatureEngineer.t.
Variable scorer : LandmineScorer.Weights.
Variable APIFY_API_TOKEN : option string.
Variable post_run : string → Apify.ActorInput → Apify.attempt (string * string).
Variable get_status : nat → string → Apify.attempt string.
Variable get_items : string → Apify.attempt (list PlaceInfo).

Local Abbreviation run :=
  (FeatureEngineer.run jieba_cut text_analytics_client to_datetime now engineer).
Local Abbreviation analyse :=
  (Main.analyze_place jieba_cut text_analytics_client to_datetime now engineer scorer).
Local Abbreviation fetch :=
  (Apify._run_apify_actor_and_get_data APIFY_API_TOKEN post_run get_status get_items).
Local Abbreviation request :=
  (Endpoint.analyze_place jieba_cut text_analytics_client to_datetime now engineer
     scorer APIFY_API_TOKEN post_run get_status get_items).







(** The three ways of a request: no database, a cached place, a fetch. *)
Lemma request_inv (fuel : nat) (db : Database.Collections) (place_id : string)
    (r : result Main.AnalyzeResponse) (db' : Database.Collections)
    (events : list Apify.Event) :
  request fuel db place_id = Some (r, db', events) →
  (¬ Cache.available db ∧ r = Raise Endpoint.database_unavailable
   ∧ db' = db ∧ events = [])
  ∨ (∃ places stored place_data,
       db = Database.mkCollections (Some places) (Some stored)
       ∧ places !! place_id = Some place_data
       ∧ r = analyse place_id
               (Endpoint.set_reviews place_data (Endpoint.find_reviews stored place_id))
       ∧ db' = db ∧ events = [])
  ∨ (∃ places stored outcome,
       db = Database.mkCollections (Some places) (Some stored)
       ∧ places !! place_id = None
       ∧ fetch fuel place_id = Some (outcome, events)
       ∧ ((∃ e, outcome = Apify.Raised e
                ∧ r = Raise (Endpoint.fetch_failed (Apify.message_of e)) ∧ db' = db)
          ∨ (outcome = Apify.Returned []
             ∧ r = Raise (Endpoint.fetch_failed "Apify 未回傳任何數據。") ∧ db' = db)
          ∨ (∃ place_info rest,
               outcome = Apify.Returned (place_info :: rest)
               ∧ r = analyse place_id place_info
               ∧ db' = Database.mkCollections
                         (Some (<[place_id := Endpoint.pop_reviews place_info]> places))
                         (Some (stored ++ map (pair place_id)
                                              (default [] (reviews place_info))))))).
Proof.
  unfold Endpoint.analyze_place. destruct db as [[places|] [stored|]];
    cbn [Database.places_collection Database.reviews_collection];
    try (intros [= <- <- <-]; left; repeat split;
         unfold Cache.available; cbn; intros [[? H1] [? H2]]; discriminate).
  destruct (places !! place_id) as [place_data|] eqn:Hlookup.
  - intros [= <- <- <-]. right; left. exists places, stored, place_data.
    repeat split. exact Hlookup.
  - destruct (fetch fuel place_id) as [[outcome fetched]|] eqn:Hfetch;
      cbn [mbind option_bind]; [|discriminate].
    intros H. right; right. exists places, stored, outcome.
    split; [reflexivity|]. split; [exact Hlookup|].
    destruct outcome as [[|place_info rest]|e].
    + injection H as <- <- <-. split; [reflexivity|]. right; left. repeat split.
    + cbv zeta in H. injection H as <- <- <-. split; [reflexivity|]. right; right.
      exists place_info, rest. split; [reflexivity|]. split; [reflexivity|].
      destruct (default [] (reviews place_info)); [|reflexivity].
      cbn [map]. now rewrite app_nil_r.
    + injection H as <- <- <-. split; [reflexivity|]. left. exists e. repeat split.
Qed.



(** X21.  A request only adds to the cache.  A place that is cached is
    answered from the cache: nothing is requested from Apify and the
    collections stay as they are.  In every case the places cached before
    are cached unchanged afterwards, the stored reviews of every other
    place are the same, and a cache that holds no review of a place that
    is not cached is again such a cache. *)
Theorem analyze_place_cache_grows (fuel : nat) (db : Database.Collections)
    (place_id : string) (r : result Main.AnalyzeResponse)
    (db' : Database.Collections) (events : list Apify.Event) :
  request fuel db place_id = Some (r, db', events) →
  (Cache.cached db place_id → db' = db ∧ events = [])
  ∧ (∀ other place,
       Cache.place_of db other = Some place → Cache.place_of db' other = Some place)
  ∧ (∀ other, other ≠ place_id →
       Cache.place_of db' other = Cache.place_of db other
       ∧ Cache.reviews_of db' other = Cache.reviews_of db other)
  ∧ (Cache.consistent db → Cache.consistent db').
Proof.
  intros Hreq.
  destruct (request_inv _ _ _ _ _ _ Hreq)
    as [(Hno & _ & -> & ->)|[(places & stored & place_data & -> & Hlookup & _ & -> & ->)
                  |(places & stored & outcome & -> & Hlookup & Hfetch & Hcase)]].
  - split; [intros [Hav _]; contradiction|]. repeat split; auto.
  - repeat split; auto.
  - assert (Hnot : ¬ Cache.cached (Database.mkCollections (Some places) (Some stored))
                                  place_id).
    { intros [_ [place H]]. unfold Cache.place_of in H. cbn in H.
      rewrite Hlookup in H. discriminate. }
    split; [intros Hc; contradiction|].
    destruct Hcase as [(e & _ & _ & ->)|[(_ & _ & ->)
                                        |(place_info & rest & _ & _ & ->)]];
      [repeat split; auto | repeat split; auto |].
    split; [|split].
    + intros other place. unfold Cache.place_of. cbn. intros Hother.
      rewrite lookup_insert_ne; [exact Hother|]. intros <-.
      rewrite Hlookup in Hother. discriminate.
    + intros other Hne. unfold Cache.place_of, Cache.reviews_of. cbn. split.
      * rewrite lookup_insert_ne; [reflexivity|]. intros Heq. now apply Hne.
      * rewrite find_reviews_app, find_reviews_inserted.
        destruct (decide (place_id = other)) as [Heq|_]; [now contradiction Hne|].
        apply app_nil_r.
    + intros Hcons other. unfold Cache.place_of, Cache.reviews_of. cbn.
      destruct (decide (place_id = other)) as [<-|Hne].
      * rewrite lookup_insert_eq. discriminate.
      * rewrite lookup_insert_ne by exact Hne. intros Hother.
        rewrite find_reviews_app, find_reviews_inserted.
        destruct (decide (place_id = other)) as [Heq|_]; [contradiction|].
        rewrite app_nil_r. apply (Hcons other). unfold Cache.place_of. cbn.
        exact Hother.
Qed.


End EndpointFacts.

Lemma sample_request :
  SampleServer.request SampleServer.empty_collections
  = Some (SampleServer.analysis, SampleServer.cached_collections,
          SampleServer.fetch_events).
Proof. vm_compute. reflexivity. Qed.

Lemma sample_consistent : Cache.consistent SampleServer.empty_collections.
Proof. intros place_id _. reflexivity. Qed.




Lemma analyze_place_cache_grows_witness :
  SampleServer.request SampleServer.empty_collections
  = Some (SampleServer.analysis, SampleServer.cached_collections,
          SampleServer.fetch_events)
  ∧ Cache.consistent SampleServer.cached_collections.
Proof.
  split; [exact sample_request|].
  apply (analyze_place_cache_grows _ _ _ _ _ _ _ _ _ _ _ _ _ _ _ _ sample_request).
  exact sample_consistent.
Defined.


(** ** The lexicon of an engineer *)

Lemma hits_union (a b : gset str) (sentence : str) :
  Phrase.hits (a ∪ b) sentence ↔ Phrase.hits a sentence ∨ Phrase.hits b sentence.
Proof.
  rewrite !hits_spec. split.
  - intros (keyword & Hin & Hocc). apply elem_of_union in Hin.
    destruct Hin as [Hin|Hin]; [left | right]; eauto.
  - intros [(keyword & Hin & Hocc)|(keyword & Hin & Hocc)];
      exists keyword; (split; [|exact Hocc]); apply elem_of_union; eauto.
Qed.

(** X23.  Every engineer that the constructor builds keeps the negative
    set equal to the union of the three tiers, so a sentence counts as
    negative exactly when it contains a keyword of some tier.  Built from
    a lexicon document, each set holds the entries listed under its key,
    and a key that the document lacks gives an empty set. *)
Theorem init_lexicon_tiers (file : FeatureEngineer.KeywordsFile)
    (self : FeatureEngineer.t) :
  FeatureEngineer.__init__ file = Ok self →
  FeatureEngineer.all_negative_set self
  = FeatureEngineer.high_risk_set self ∪ FeatureEngineer.medium_risk_set self
    ∪ FeatureEngineer.low_risk_set self
  ∧ (∀ sentence,
       Phrase.hits (FeatureEngineer.all_negative_set self) sentence
       ↔ Phrase.hits (FeatureEngineer.high_risk_set self) sentence
         ∨ Phrase.hits (FeatureEngineer.medium_risk_set self) sentence
         ∨ Phrase.hits (FeatureEngineer.low_risk_set self) sentence)
  ∧ (∀ keywords, file = FeatureEngineer.Document keywords →
       ∀ keyword,
         (keyword ∈ FeatureEngineer.high_risk_set self
          ↔ keyword ∈ default [] (keywords !! "high_risk"%string))
         ∧ (keyword ∈ FeatureEngineer.medium_risk_set self
            ↔ keyword ∈ default [] (keywords !! "medium_risk"%string))
         ∧ (keyword ∈ FeatureEngineer.low_risk_set self
            ↔ keyword ∈ default [] (keywords !! "low_risk"%string))
         ∧ (keyword ∈ FeatureEngineer.positive_set self
            ↔ keyword ∈ default [] (keywords !! "positive_points"%string))).
Proof.
  intros Hinit.
  assert (Hunion : FeatureEngineer.all_negative_set self
                   = FeatureEngineer.high_risk_set self
                     ∪ FeatureEngineer.medium_risk_set self
                     ∪ FeatureEngineer.low_risk_set self).
  { destruct file as [| |keywords]; cbn in Hinit; try discriminate;
      injection Hinit as <-; cbn [FeatureEngineer.all_negative_set
        FeatureEngineer.high_risk_set FeatureEngineer.medium_risk_set
        FeatureEngineer.low_risk_set]; [|reflexivity].
    now rewrite !(left_id_L (∅ : gset str) (∪)). }
  split; [exact Hunion|]. split.
  - intros sentence. rewrite Hunion, !hits_union. tauto.
  - intros keywords ->. cbn in Hinit. injection Hinit as <-. intros keyword.
    cbn [FeatureEngineer.high_risk_set FeatureEngineer.medium_risk_set
         FeatureEngineer.low_risk_set FeatureEngineer.positive_set].
    rewrite !elem_of_list_to_set. tauto.
Qed.

Lemma init_lexicon_tiers_witness :
  FeatureEngineer.__init__ (FeatureEngineer.Document Sample.lexicon) = Ok Sample.engineer
  ∧ ∀ sentence,
      Phrase.hits (FeatureEngineer.all_negative_set Sample.engineer) sentence
      ↔ Phrase.hits (FeatureEngineer.high_risk_set Sample.engineer) sentence
        ∨ Phrase.hits (FeatureEngineer.medium_risk_set Sample.engineer) sentence
        ∨ Phrase.hits (FeatureEngineer.low_risk_set Sample.engineer) sentence.
Proof.
  split; [exact sample_engineer_loaded|].
  apply (init_lexicon_tiers (FeatureEngineer.Document Sample.lexicon) Sample.engineer
           sample_engineer_loaded).
Defined.

(** ** Where sub-score F1 comes from *)

(** X24.  [run] passes the place's declared [reviewsCount] and
    [reviewsDistribution] on unchanged, so F1 of the analysis is computed
    from these two keys alone: the stars of the fetched reviews do not
    enter it.  F1 is 0 when no review text is left to analyse and when the
    place declares no review count. *)
Theorem f1_from_declared_counts
    (jieba_cut : str → list str) (client : option Sentiment.Client)
    (to_datetime : str → option Z) (now : Z) (self : FeatureEngineer.t)
    (place_info : PlaceInfo) (df : DataFrame) (trend : TrendInfo)
    (phrases : KeyPhrases) :
  FeatureEngineer.run jieba_cut client to_datetime now self place_info
  = Ok (FeatureEngineer.Finished df trend phrases) →
  let batch := FeatureEngineer.clean (default [] (reviews place_info)) in
  (batch ≠ [] →
   total_reviews trend = Some (default 0%Z (reviewsCount place_info))
   ∧ reviews_distribution trend = Some (default ∅ (reviewsDistribution place_info))
   ∧ LandmineScorer.f1_of trend
     = LandmineScorer._calculate_f1_score
         (default ∅ (reviewsDistribution place_info))
         (default 0%Z (reviewsCount place_info)))
  ∧ (batch = [] ∨ reviewsCount place_info = None → LandmineScorer.f1_of trend = 0).
Proof.
  intros Hrun. cbv zeta.
  destruct (run_finished_inv _ _ _ _ _ _ _ _ _ Hrun)
    as [(Hempty & _ & -> & _)|(datetimes & Hne & _ & _ & _ & ->)].
  - split; [intros H; contradiction|]. intros _. reflexivity.
  - split.
    + intros _. repeat split.
    + intros [Hempty| ->]; [contradiction|]. reflexivity.
Qed.

Lemma f1_from_declared_counts_witness :
  ∃ df trend phrases,
    FeatureEngineer.run Sample.jieba_cut None Sample.to_datetime Sample.now
        Sample.engineer (Sample.place Sample.twenty_reviews)
    = Ok (FeatureEngineer.Finished df trend phrases)
    ∧ total_reviews trend = Some 20%Z
    ∧ LandmineScorer.f1_of trend = LandmineScorer._calculate_f1_score ∅ 20.
Proof.
  assert (H : ∃ df trend phrases,
    FeatureEngineer.run Sample.jieba_cut None Sample.to_datetime Sample.now
        Sample.engineer (Sample.place Sample.twenty_reviews)
    = Ok (FeatureEngineer.Finished df trend phrases))
    by (do 3 eexists; vm_compute; reflexivity).
  destruct H as (df & trend & phrases & H). exists df, trend, phrases.
  split; [exact H|].
  destruct (f1_from_declared_counts _ _ _ _ _ _ _ _ _ H) as [Hdeclared _].
  destruct Hdeclared as (Htotal & _ & Hf1); [vm_compute; discriminate|].
  split; [exact Htotal | exact Hf1].
Defined.
